(** * FTL stream output (plugins/obs-outputs/ftl-stream.c)

    A shallow embedding of the FTL output plugin: the packet queue and its
    drop policy, the H.264 NAL splitter, the send path, the lifecycle entry
    point [ftl_stream_stop], the connect parameters, the status worker and
    the error map, followed by the properties established about them.

    Conventions of the embedding.
    - C integers are [Z].  Unsigned arithmetic wraps ([to_size_t],
      [to_uint64]); signed arithmetic that leaves the range of its type is
      undefined behaviour in C and is reported as a [Fault].
    - A pointer into a packet's payload is the offset from [packet->data].
      Reading a byte outside the payload, or writing outside the 100-entry
      NAL array, is undefined behaviour and is reported as a [Fault].
    - Calls into libobs, libftl and pthreads are outside this file; what
      they return is supplied as an argument of the function that calls
      them, and the calls that matter are recorded in ghost fields of the
      stream ([sent], [freed], [signals], [log]). *)

From Stdlib Require Import ZArith List Bool Lia.
From Stdlib.Strings Require Import Byte.
From stdpp Require Import base list.

Local Open Scope Z_scope.

(** ** C integer types *)

Module CInt.

Definition INT_MIN : Z := - 2 ^ 31.
Definition INT_MAX : Z := 2 ^ 31 - 1.
Definition INT64_MIN : Z := - 2 ^ 63.
Definition INT64_MAX : Z := 2 ^ 63 - 1.

Definition in_int (z : Z) : Prop := INT_MIN <= z <= INT_MAX.
Definition in_int64 (z : Z) : Prop := INT64_MIN <= z <= INT64_MAX.

(** Conversion to [size_t] / [uint64_t]: reduction modulo 2^64. *)
Definition to_uint64 (z : Z) : Z := z mod 2 ^ 64.
Definition to_size_t (z : Z) : Z := z mod 2 ^ 64.

(** A value read as an [int] (two's complement). *)
Definition to_int (z : Z) : Z := (z + 2 ^ 31) mod 2 ^ 32 - 2 ^ 31.

(** Conversion of a [uint64_t] to [int64_t] (two's complement). *)
Definition to_int64 (z : Z) : Z := (z + 2 ^ 63) mod 2 ^ 64 - 2 ^ 63.

End CInt.
Import CInt.

(** ** Outcomes of a C function: a value, or undefined behaviour *)

Inductive fault : Type :=
| PayloadOutOfBounds (off : Z)  (* packet->data[off] outside the payload *)
| NalusOutOfBounds (idx : Z)    (* nalus[idx] outside nalus[0..99] *)
| SignedOverflow                (* an int or int64_t left its range *)
| OutOfFuel.                    (* the loop bound of the model ran out *)

Inductive result (A : Type) : Type :=
| Ret (a : A)
| Fault (f : fault).
Arguments Ret {A} a.
Arguments Fault {A} f.

Definition bind {A B : Type} (m : result A) (k : A -> result B) : result B :=
  match m with
  | Ret a => k a
  | Fault f => Fault f
  end.

Notation "x <- m ;; k" := (bind m (fun x => k))
  (at level 100, m at next level, right associativity).

(** [int] and [int64_t] results: the value if representable, else a fault. *)
Definition int_val (z : Z) : result Z :=
  if (INT_MIN <=? z) && (z <=? INT_MAX) then Ret z else Fault SignedOverflow.
Definition int64_val (z : Z) : result Z :=
  if (INT64_MIN <=? z) && (z <=? INT64_MAX) then Ret z else Fault SignedOverflow.

(** ** Error map: libftl status codes to libobs output codes *)

(** The enumerators of [ftl_status_t] that the plugin names. *)
Inductive ftl_status_t : Type :=
| FTL_SUCCESS
| FTL_SOCKET_NOT_CONNECTED
| FTL_MALLOC_FAILURE
| FTL_INTERNAL_ERROR
| FTL_CONFIG_ERROR
| FTL_NOT_ACTIVE_STREAM
| FTL_NOT_CONNECTED
| FTL_ALREADY_CONNECTED
| FTL_STATUS_TIMEOUT
| FTL_QUEUE_FULL
| FTL_STATUS_WAITING_FOR_KEY_FRAME
| FTL_QUEUE_EMPTY
| FTL_NOT_INITIALIZED
| FTL_BAD_REQUEST
| FTL_DNS_FAILURE
| FTL_CONNECT_ERROR
| FTL_UNSUPPORTED_MEDIA_TYPE
| FTL_OLD_VERSION
| FTL_UNAUTHORIZED
| FTL_AUDIO_SSRC_COLLISION
| FTL_VIDEO_SSRC_COLLISION
| FTL_STREAM_REJECTED
| FTL_BAD_OR_INVALID_STREAM_KEY
| FTL_CHANNEL_IN_USE
| FTL_REGION_UNSUPPORTED
| FTL_NO_MEDIA_TIMEOUT
| FTL_USER_DISCONNECT
| FTL_UNKNOWN_ERROR_CODE.

(** The [OBS_OUTPUT_*] codes of libobs. *)
Inductive obs_output_code : Type :=
| OBS_OUTPUT_SUCCESS
| OBS_OUTPUT_BAD_PATH
| OBS_OUTPUT_CONNECT_FAILED
| OBS_OUTPUT_ERROR
| OBS_OUTPUT_DISCONNECTED.

Module ErrorMap.
Section WithCodes.

(** [ftl.h] belongs to libftl: the integer value of each enumerator is a
    parameter.  The labels of one [switch] have pairwise distinct values. *)
Variable code : ftl_status_t -> Z.

Definition status_is (status : Z) (c : ftl_status_t) : bool := status =? code c.

(** [_ftl_error_to_obs_error]: the [switch], one test per [case] label in
    the order of the source, the last branch being [default]. *)
Definition _ftl_error_to_obs_error (status : Z) : obs_output_code :=
  if status_is status FTL_SUCCESS then OBS_OUTPUT_SUCCESS
  else if status_is status FTL_SOCKET_NOT_CONNECTED then OBS_OUTPUT_ERROR
  else if status_is status FTL_MALLOC_FAILURE then OBS_OUTPUT_ERROR
  else if status_is status FTL_INTERNAL_ERROR then OBS_OUTPUT_ERROR
  else if status_is status FTL_CONFIG_ERROR then OBS_OUTPUT_ERROR
  else if status_is status FTL_NOT_ACTIVE_STREAM then OBS_OUTPUT_ERROR
  else if status_is status FTL_NOT_CONNECTED then OBS_OUTPUT_ERROR
  else if status_is status FTL_ALREADY_CONNECTED then OBS_OUTPUT_ERROR
  else if status_is status FTL_STATUS_TIMEOUT then OBS_OUTPUT_ERROR
  else if status_is status FTL_QUEUE_FULL then OBS_OUTPUT_ERROR
  else if status_is status FTL_STATUS_WAITING_FOR_KEY_FRAME then OBS_OUTPUT_ERROR
  else if status_is status FTL_QUEUE_EMPTY then OBS_OUTPUT_ERROR
  else if status_is status FTL_NOT_INITIALIZED then OBS_OUTPUT_ERROR
  else if status_is status FTL_BAD_REQUEST then OBS_OUTPUT_CONNECT_FAILED
  else if status_is status FTL_DNS_FAILURE then OBS_OUTPUT_CONNECT_FAILED
  else if status_is status FTL_CONNECT_ERROR then OBS_OUTPUT_CONNECT_FAILED
  else if status_is status FTL_UNSUPPORTED_MEDIA_TYPE then OBS_OUTPUT_CONNECT_FAILED
  else if status_is status FTL_OLD_VERSION then OBS_OUTPUT_CONNECT_FAILED
  else if status_is status FTL_UNAUTHORIZED then OBS_OUTPUT_CONNECT_FAILED
  else if status_is status FTL_AUDIO_SSRC_COLLISION then OBS_OUTPUT_CONNECT_FAILED
  else if status_is status FTL_VIDEO_SSRC_COLLISION then OBS_OUTPUT_CONNECT_FAILED
  else if status_is status FTL_STREAM_REJECTED then OBS_OUTPUT_CONNECT_FAILED
  else if status_is status FTL_BAD_OR_INVALID_STREAM_KEY then OBS_OUTPUT_CONNECT_FAILED
  else if status_is status FTL_CHANNEL_IN_USE then OBS_OUTPUT_CONNECT_FAILED
  else if status_is status FTL_REGION_UNSUPPORTED then OBS_OUTPUT_CONNECT_FAILED
  else if status_is status FTL_NO_MEDIA_TIMEOUT then OBS_OUTPUT_DISCONNECTED
  else if status_is status FTL_USER_DISCONNECT then OBS_OUTPUT_SUCCESS
  else if status_is status FTL_UNKNOWN_ERROR_CODE then OBS_OUTPUT_ERROR
  else OBS_OUTPUT_ERROR.

(** The table of the specification, row by row. *)
Definition spec_outcome (c : ftl_status_t) : obs_output_code :=
  match c with
  | FTL_SUCCESS | FTL_USER_DISCONNECT => OBS_OUTPUT_SUCCESS
  | FTL_BAD_REQUEST | FTL_DNS_FAILURE | FTL_CONNECT_ERROR
  | FTL_UNSUPPORTED_MEDIA_TYPE | FTL_OLD_VERSION | FTL_UNAUTHORIZED
  | FTL_AUDIO_SSRC_COLLISION | FTL_VIDEO_SSRC_COLLISION
  | FTL_STREAM_REJECTED | FTL_BAD_OR_INVALID_STREAM_KEY
  | FTL_CHANNEL_IN_USE | FTL_REGION_UNSUPPORTED => OBS_OUTPUT_CONNECT_FAILED
  | FTL_NO_MEDIA_TIMEOUT => OBS_OUTPUT_DISCONNECTED
  | _ => OBS_OUTPUT_ERROR
  end.

End WithCodes.
End ErrorMap.

(** ** Data model *)

(** [enum obs_encoder_type] of libobs. *)
Inductive obs_encoder_type : Type :=
| OBS_ENCODER_AUDIO
| OBS_ENCODER_VIDEO.

#[global] Instance obs_encoder_type_eq_dec : EqDecision obs_encoder_type.
Proof. solve_decision. Defined.

(** [struct encoder_packet] of libobs, the fields the plugin reads.
    [packet->size] is the length of [data]. *)
Record encoder_packet : Type := mk_encoder_packet {
  data : list byte;
  dts_usec : Z;              (* int64_t *)
  sys_dts_usec : Z;          (* int64_t *)
  type : obs_encoder_type;
  keyframe : bool;
  priority : Z;              (* int *)
  drop_priority : Z;         (* int *)
  track_idx : Z              (* size_t *)
}.

Definition size (p : encoder_packet) : Z := Z.of_nat (length (data p)).

(** [nalu_t]; [nalu_data] is the offset of [nalu->data] in the payload of
    the packet being parsed. *)
Record nalu_t : Type := mk_nalu {
  len : Z;
  nalu_dts_usec : Z;
  send_marker_bit : Z;
  nalu_data : Z
}.

(** [frame_of_nalus_t]: [nalus] stands for the array [nalu_t nalus[100]]. *)
Record frame_of_nalus_t : Type := mk_frame_of_nalus {
  nalus : list nalu_t;
  total : Z;                 (* int *)
  complete_frame : Z         (* int *)
}.

(** [sizeof(nalus) / sizeof(nalus[0])] *)
Definition NALUS_CAPACITY : Z := 100.

Inductive ftl_media_type : Type :=
| FTL_AUDIO_DATA
| FTL_VIDEO_DATA.

(** One call [ftl_ingest_send_media_dts(handle, kind, dts_usec, data, len,
    end_of_frame)]; [call_data] is an offset in the payload of the packet
    being sent. *)
Record media_call : Type := mk_media_call {
  call_kind : ftl_media_type;
  call_dts_usec : Z;
  call_data : Z;
  call_len : Z;
  call_marker : Z
}.

(** What the plugin tells the host output. *)
Inductive host_signal : Type :=
| signal_stop (c : obs_output_code)   (* obs_output_signal_stop *)
| begin_data_capture                  (* obs_output_begin_data_capture *)
| end_data_capture.                   (* obs_output_end_data_capture *)

Inductive log_event : Type :=
| warn_nalu_buffers_full              (* "cannot continue, nalu buffers are full" *)
| warn_len_overrun (got left : Z)     (* "got len of %d but packet only has %d left" *)
| warn_packet_type                    (* "Got packet type %d" *)
| warn_speed_test_failed.             (* "Speed test failed with: %s" *)

(** [struct ftl_stream].  Handles of the operating system and of libftl,
    the service strings and the picture dimensions are left out; the last
    four fields are ghost state recording calls that leave the plugin. *)
Record ftl_stream : Type := mk_ftl_stream {
  packets : list encoder_packet;  (* struct circlebuf packets, front first *)
  sent_headers : bool;
  frames_sent : Z;  (* int64_t *)
  connecting : bool;  (* volatile bool *)
  active : bool;  (* volatile bool *)
  disconnected : bool;  (* volatile bool *)
  max_shutdown_time_sec : Z;  (* int *)
  send_sem : Z;  (* os_sem_t: the number of permits *)
  stop_event : bool;  (* os_event_t, manual reset: is it signalled *)
  stop_ts : Z;  (* uint64_t *)
  drop_threshold_usec : Z;  (* int64_t *)
  min_drop_dts_usec : Z;  (* int64_t *)
  min_priority : Z;  (* int *)
  last_dts_usec : Z;  (* int64_t *)
  total_bytes_sent : Z;  (* uint64_t *)
  dropped_frames : Z;  (* int *)
  params_peak_kbps : Z;  (* params.peak_kbps *)
  peak_kbps : Z;  (* int *)
  coded_pic_buffer : frame_of_nalus_t;
  sent : list media_call;  (* ghost: calls of ftl_ingest_send_media_dts, oldest first *)
  freed : list encoder_packet;  (* ghost: packets given to obs_free_encoder_packet *)
  signals : list host_signal;  (* ghost: calls into the host output, oldest first *)
  log : list log_event   (* ghost: warnings written with warn() *)
}.

(** Assignment to one field of the stream: every other field is copied. *)
Definition set_packets (v : list encoder_packet) (s : ftl_stream) : ftl_stream :=
  {| packets := v; sent_headers := sent_headers s; frames_sent :=
     frames_sent s; connecting := connecting s; active := active s;
     disconnected := disconnected s; max_shutdown_time_sec :=
     max_shutdown_time_sec s; send_sem := send_sem s; stop_event :=
     stop_event s; stop_ts := stop_ts s; drop_threshold_usec :=
     drop_threshold_usec s; min_drop_dts_usec := min_drop_dts_usec s;
     min_priority := min_priority s; last_dts_usec := last_dts_usec s;
     total_bytes_sent := total_bytes_sent s; dropped_frames :=
     dropped_frames s; params_peak_kbps := params_peak_kbps s; peak_kbps :=
     peak_kbps s; coded_pic_buffer := coded_pic_buffer s; sent := sent s;
     freed := freed s; signals := signals s; log := log s |}.
Definition set_sent_headers (v : bool) (s : ftl_stream) : ftl_stream :=
  {| packets := packets s; sent_headers := v; frames_sent := frames_sent s;
     connecting := connecting s; active := active s; disconnected :=
     disconnected s; max_shutdown_time_sec := max_shutdown_time_sec s;
     send_sem := send_sem s; stop_event := stop_event s; stop_ts := stop_ts
     s; drop_threshold_usec := drop_threshold_usec s; min_drop_dts_usec :=
     min_drop_dts_usec s; min_priority := min_priority s; last_dts_usec :=
     last_dts_usec s; total_bytes_sent := total_bytes_sent s; dropped_frames
     := dropped_frames s; params_peak_kbps := params_peak_kbps s; peak_kbps
     := peak_kbps s; coded_pic_buffer := coded_pic_buffer s; sent := sent s;
     freed := freed s; signals := signals s; log := log s |}.
Definition set_frames_sent (v : Z) (s : ftl_stream) : ftl_stream :=
  {| packets := packets s; sent_headers := sent_headers s; frames_sent := v;
     connecting := connecting s; active := active s; disconnected :=
     disconnected s; max_shutdown_time_sec := max_shutdown_time_sec s;
     send_sem := send_sem s; stop_event := stop_event s; stop_ts := stop_ts
     s; drop_threshold_usec := drop_threshold_usec s; min_drop_dts_usec :=
     min_drop_dts_usec s; min_priority := min_priority s; last_dts_usec :=
     last_dts_usec s; total_bytes_sent := total_bytes_sent s; dropped_frames
     := dropped_frames s; params_peak_kbps := params_peak_kbps s; peak_kbps
     := peak_kbps s; coded_pic_buffer := coded_pic_buffer s; sent := sent s;
     freed := freed s; signals := signals s; log := log s |}.
Definition set_active (v : bool) (s : ftl_stream) : ftl_stream :=
  {| packets := packets s; sent_headers := sent_headers s; frames_sent :=
     frames_sent s; connecting := connecting s; active := v; disconnected :=
     disconnected s; max_shutdown_time_sec := max_shutdown_time_sec s;
     send_sem := send_sem s; stop_event := stop_event s; stop_ts := stop_ts
     s; drop_threshold_usec := drop_threshold_usec s; min_drop_dts_usec :=
     min_drop_dts_usec s; min_priority := min_priority s; last_dts_usec :=
     last_dts_usec s; total_bytes_sent := total_bytes_sent s; dropped_frames
     := dropped_frames s; params_peak_kbps := params_peak_kbps s; peak_kbps
     := peak_kbps s; coded_pic_buffer := coded_pic_buffer s; sent := sent s;
     freed := freed s; signals := signals s; log := log s |}.
Definition set_disconnected (v : bool) (s : ftl_stream) : ftl_stream :=
  {| packets := packets s; sent_headers := sent_headers s; frames_sent :=
     frames_sent s; connecting := connecting s; active := active s;
     disconnected := v; max_shutdown_time_sec := max_shutdown_time_sec s;
     send_sem := send_sem s; stop_event := stop_event s; stop_ts := stop_ts
     s; drop_threshold_usec := drop_threshold_usec s; min_drop_dts_usec :=
     min_drop_dts_usec s; min_priority := min_priority s; last_dts_usec :=
     last_dts_usec s; total_bytes_sent := total_bytes_sent s; dropped_frames
     := dropped_frames s; params_peak_kbps := params_peak_kbps s; peak_kbps
     := peak_kbps s; coded_pic_buffer := coded_pic_buffer s; sent := sent s;
     freed := freed s; signals := signals s; log := log s |}.
Definition set_max_shutdown_time_sec (v : Z) (s : ftl_stream) : ftl_stream :=
  {| packets := packets s; sent_headers := sent_headers s; frames_sent :=
     frames_sent s; connecting := connecting s; active := active s;
     disconnected := disconnected s; max_shutdown_time_sec := v; send_sem :=
     send_sem s; stop_event := stop_event s; stop_ts := stop_ts s;
     drop_threshold_usec := drop_threshold_usec s; min_drop_dts_usec :=
     min_drop_dts_usec s; min_priority := min_priority s; last_dts_usec :=
     last_dts_usec s; total_bytes_sent := total_bytes_sent s; dropped_frames
     := dropped_frames s; params_peak_kbps := params_peak_kbps s; peak_kbps
     := peak_kbps s; coded_pic_buffer := coded_pic_buffer s; sent := sent s;
     freed := freed s; signals := signals s; log := log s |}.
Definition set_send_sem (v : Z) (s : ftl_stream) : ftl_stream :=
  {| packets := packets s; sent_headers := sent_headers s; frames_sent :=
     frames_sent s; connecting := connecting s; active := active s;
     disconnected := disconnected s; max_shutdown_time_sec :=
     max_shutdown_time_sec s; send_sem := v; stop_event := stop_event s;
     stop_ts := stop_ts s; drop_threshold_usec := drop_threshold_usec s;
     min_drop_dts_usec := min_drop_dts_usec s; min_priority := min_priority
     s; last_dts_usec := last_dts_usec s; total_bytes_sent :=
     total_bytes_sent s; dropped_frames := dropped_frames s;
     params_peak_kbps := params_peak_kbps s; peak_kbps := peak_kbps s;
     coded_pic_buffer := coded_pic_buffer s; sent := sent s; freed := freed
     s; signals := signals s; log := log s |}.
Definition set_stop_event (v : bool) (s : ftl_stream) : ftl_stream :=
  {| packets := packets s; sent_headers := sent_headers s; frames_sent :=
     frames_sent s; connecting := connecting s; active := active s;
     disconnected := disconnected s; max_shutdown_time_sec :=
     max_shutdown_time_sec s; send_sem := send_sem s; stop_event := v;
     stop_ts := stop_ts s; drop_threshold_usec := drop_threshold_usec s;
     min_drop_dts_usec := min_drop_dts_usec s; min_priority := min_priority
     s; last_dts_usec := last_dts_usec s; total_bytes_sent :=
     total_bytes_sent s; dropped_frames := dropped_frames s;
     params_peak_kbps := params_peak_kbps s; peak_kbps := peak_kbps s;
     coded_pic_buffer := coded_pic_buffer s; sent := sent s; freed := freed
     s; signals := signals s; log := log s |}.
Definition set_stop_ts (v : Z) (s : ftl_stream) : ftl_stream :=
  {| packets := packets s; sent_headers := sent_headers s; frames_sent :=
     frames_sent s; connecting := connecting s; active := active s;
     disconnected := disconnected s; max_shutdown_time_sec :=
     max_shutdown_time_sec s; send_sem := send_sem s; stop_event :=
     stop_event s; stop_ts := v; drop_threshold_usec := drop_threshold_usec
     s; min_drop_dts_usec := min_drop_dts_usec s; min_priority :=
     min_priority s; last_dts_usec := last_dts_usec s; total_bytes_sent :=
     total_bytes_sent s; dropped_frames := dropped_frames s;
     params_peak_kbps := params_peak_kbps s; peak_kbps := peak_kbps s;
     coded_pic_buffer := coded_pic_buffer s; sent := sent s; freed := freed
     s; signals := signals s; log := log s |}.
Definition set_drop_threshold_usec (v : Z) (s : ftl_stream) : ftl_stream :=
  {| packets := packets s; sent_headers := sent_headers s; frames_sent :=
     frames_sent s; connecting := connecting s; active := active s;
     disconnected := disconnected s; max_shutdown_time_sec :=
     max_shutdown_time_sec s; send_sem := send_sem s; stop_event :=
     stop_event s; stop_ts := stop_ts s; drop_threshold_usec := v;
     min_drop_dts_usec := min_drop_dts_usec s; min_priority := min_priority
     s; last_dts_usec := last_dts_usec s; total_bytes_sent :=
     total_bytes_sent s; dropped_frames := dropped_frames s;
     params_peak_kbps := params_peak_kbps s; peak_kbps := peak_kbps s;
     coded_pic_buffer := coded_pic_buffer s; sent := sent s; freed := freed
     s; signals := signals s; log := log s |}.
Definition set_min_drop_dts_usec (v : Z) (s : ftl_stream) : ftl_stream :=
  {| packets := packets s; sent_headers := sent_headers s; frames_sent :=
     frames_sent s; connecting := connecting s; active := active s;
     disconnected := disconnected s; max_shutdown_time_sec :=
     max_shutdown_time_sec s; send_sem := send_sem s; stop_event :=
     stop_event s; stop_ts := stop_ts s; drop_threshold_usec :=
     drop_threshold_usec s; min_drop_dts_usec := v; min_priority :=
     min_priority s; last_dts_usec := last_dts_usec s; total_bytes_sent :=
     total_bytes_sent s; dropped_frames := dropped_frames s;
     params_peak_kbps := params_peak_kbps s; peak_kbps := peak_kbps s;
     coded_pic_buffer := coded_pic_buffer s; sent := sent s; freed := freed
     s; signals := signals s; log := log s |}.
Definition set_min_priority (v : Z) (s : ftl_stream) : ftl_stream :=
  {| packets := packets s; sent_headers := sent_headers s; frames_sent :=
     frames_sent s; connecting := connecting s; active := active s;
     disconnected := disconnected s; max_shutdown_time_sec :=
     max_shutdown_time_sec s; send_sem := send_sem s; stop_event :=
     stop_event s; stop_ts := stop_ts s; drop_threshold_usec :=
     drop_threshold_usec s; min_drop_dts_usec := min_drop_dts_usec s;
     min_priority := v; last_dts_usec := last_dts_usec s; total_bytes_sent
     := total_bytes_sent s; dropped_frames := dropped_frames s;
     params_peak_kbps := params_peak_kbps s; peak_kbps := peak_kbps s;
     coded_pic_buffer := coded_pic_buffer s; sent := sent s; freed := freed
     s; signals := signals s; log := log s |}.
Definition set_last_dts_usec (v : Z) (s : ftl_stream) : ftl_stream :=
  {| packets := packets s; sent_headers := sent_headers s; frames_sent :=
     frames_sent s; connecting := connecting s; active := active s;
     disconnected := disconnected s; max_shutdown_time_sec :=
     max_shutdown_time_sec s; send_sem := send_sem s; stop_event :=
     stop_event s; stop_ts := stop_ts s; drop_threshold_usec :=
     drop_threshold_usec s; min_drop_dts_usec := min_drop_dts_usec s;
     min_priority := min_priority s; last_dts_usec := v; total_bytes_sent :=
     total_bytes_sent s; dropped_frames := dropped_frames s;
     params_peak_kbps := params_peak_kbps s; peak_kbps := peak_kbps s;
     coded_pic_buffer := coded_pic_buffer s; sent := sent s; freed := freed
     s; signals := signals s; log := log s |}.
Definition set_total_bytes_sent (v : Z) (s : ftl_stream) : ftl_stream :=
  {| packets := packets s; sent_headers := sent_headers s; frames_sent :=
     frames_sent s; connecting := connecting s; active := active s;
     disconnected := disconnected s; max_shutdown_time_sec :=
     max_shutdown_time_sec s; send_sem := send_sem s; stop_event :=
     stop_event s; stop_ts := stop_ts s; drop_threshold_usec :=
     drop_threshold_usec s; min_drop_dts_usec := min_drop_dts_usec s;
     min_priority := min_priority s; last_dts_usec := last_dts_usec s;
     total_bytes_sent := v; dropped_frames := dropped_frames s;
     params_peak_kbps := params_peak_kbps s; peak_kbps := peak_kbps s;
     coded_pic_buffer := coded_pic_buffer s; sent := sent s; freed := freed
     s; signals := signals s; log := log s |}.
Definition set_dropped_frames (v : Z) (s : ftl_stream) : ftl_stream :=
  {| packets := packets s; sent_headers := sent_headers s; frames_sent :=
     frames_sent s; connecting := connecting s; active := active s;
     disconnected := disconnected s; max_shutdown_time_sec :=
     max_shutdown_time_sec s; send_sem := send_sem s; stop_event :=
     stop_event s; stop_ts := stop_ts s; drop_threshold_usec :=
     drop_threshold_usec s; min_drop_dts_usec := min_drop_dts_usec s;
     min_priority := min_priority s; last_dts_usec := last_dts_usec s;
     total_bytes_sent := total_bytes_sent s; dropped_frames := v;
     params_peak_kbps := params_peak_kbps s; peak_kbps := peak_kbps s;
     coded_pic_buffer := coded_pic_buffer s; sent := sent s; freed := freed
     s; signals := signals s; log := log s |}.
Definition set_params_peak_kbps (v : Z) (s : ftl_stream) : ftl_stream :=
  {| packets := packets s; sent_headers := sent_headers s; frames_sent :=
     frames_sent s; connecting := connecting s; active := active s;
     disconnected := disconnected s; max_shutdown_time_sec :=
     max_shutdown_time_sec s; send_sem := send_sem s; stop_event :=
     stop_event s; stop_ts := stop_ts s; drop_threshold_usec :=
     drop_threshold_usec s; min_drop_dts_usec := min_drop_dts_usec s;
     min_priority := min_priority s; last_dts_usec := last_dts_usec s;
     total_bytes_sent := total_bytes_sent s; dropped_frames :=
     dropped_frames s; params_peak_kbps := v; peak_kbps := peak_kbps s;
     coded_pic_buffer := coded_pic_buffer s; sent := sent s; freed := freed
     s; signals := signals s; log := log s |}.
Definition set_peak_kbps (v : Z) (s : ftl_stream) : ftl_stream :=
  {| packets := packets s; sent_headers := sent_headers s; frames_sent :=
     frames_sent s; connecting := connecting s; active := active s;
     disconnected := disconnected s; max_shutdown_time_sec :=
     max_shutdown_time_sec s; send_sem := send_sem s; stop_event :=
     stop_event s; stop_ts := stop_ts s; drop_threshold_usec :=
     drop_threshold_usec s; min_drop_dts_usec := min_drop_dts_usec s;
     min_priority := min_priority s; last_dts_usec := last_dts_usec s;
     total_bytes_sent := total_bytes_sent s; dropped_frames :=
     dropped_frames s; params_peak_kbps := params_peak_kbps s; peak_kbps :=
     v; coded_pic_buffer := coded_pic_buffer s; sent := sent s; freed :=
     freed s; signals := signals s; log := log s |}.
Definition set_coded_pic_buffer (v : frame_of_nalus_t) (s : ftl_stream) : ftl_stream :=
  {| packets := packets s; sent_headers := sent_headers s; frames_sent :=
     frames_sent s; connecting := connecting s; active := active s;
     disconnected := disconnected s; max_shutdown_time_sec :=
     max_shutdown_time_sec s; send_sem := send_sem s; stop_event :=
     stop_event s; stop_ts := stop_ts s; drop_threshold_usec :=
     drop_threshold_usec s; min_drop_dts_usec := min_drop_dts_usec s;
     min_priority := min_priority s; last_dts_usec := last_dts_usec s;
     total_bytes_sent := total_bytes_sent s; dropped_frames :=
     dropped_frames s; params_peak_kbps := params_peak_kbps s; peak_kbps :=
     peak_kbps s; coded_pic_buffer := v; sent := sent s; freed := freed s;
     signals := signals s; log := log s |}.
Definition set_sent (v : list media_call) (s : ftl_stream) : ftl_stream :=
  {| packets := packets s; sent_headers := sent_headers s; frames_sent :=
     frames_sent s; connecting := connecting s; active := active s;
     disconnected := disconnected s; max_shutdown_time_sec :=
     max_shutdown_time_sec s; send_sem := send_sem s; stop_event :=
     stop_event s; stop_ts := stop_ts s; drop_threshold_usec :=
     drop_threshold_usec s; min_drop_dts_usec := min_drop_dts_usec s;
     min_priority := min_priority s; last_dts_usec := last_dts_usec s;
     total_bytes_sent := total_bytes_sent s; dropped_frames :=
     dropped_frames s; params_peak_kbps := params_peak_kbps s; peak_kbps :=
     peak_kbps s; coded_pic_buffer := coded_pic_buffer s; sent := v; freed
     := freed s; signals := signals s; log := log s |}.
Definition set_freed (v : list encoder_packet) (s : ftl_stream) : ftl_stream :=
  {| packets := packets s; sent_headers := sent_headers s; frames_sent :=
     frames_sent s; connecting := connecting s; active := active s;
     disconnected := disconnected s; max_shutdown_time_sec :=
     max_shutdown_time_sec s; send_sem := send_sem s; stop_event :=
     stop_event s; stop_ts := stop_ts s; drop_threshold_usec :=
     drop_threshold_usec s; min_drop_dts_usec := min_drop_dts_usec s;
     min_priority := min_priority s; last_dts_usec := last_dts_usec s;
     total_bytes_sent := total_bytes_sent s; dropped_frames :=
     dropped_frames s; params_peak_kbps := params_peak_kbps s; peak_kbps :=
     peak_kbps s; coded_pic_buffer := coded_pic_buffer s; sent := sent s;
     freed := v; signals := signals s; log := log s |}.
Definition set_signals (v : list host_signal) (s : ftl_stream) : ftl_stream :=
  {| packets := packets s; sent_headers := sent_headers s; frames_sent :=
     frames_sent s; connecting := connecting s; active := active s;
     disconnected := disconnected s; max_shutdown_time_sec :=
     max_shutdown_time_sec s; send_sem := send_sem s; stop_event :=
     stop_event s; stop_ts := stop_ts s; drop_threshold_usec :=
     drop_threshold_usec s; min_drop_dts_usec := min_drop_dts_usec s;
     min_priority := min_priority s; last_dts_usec := last_dts_usec s;
     total_bytes_sent := total_bytes_sent s; dropped_frames :=
     dropped_frames s; params_peak_kbps := params_peak_kbps s; peak_kbps :=
     peak_kbps s; coded_pic_buffer := coded_pic_buffer s; sent := sent s;
     freed := freed s; signals := v; log := log s |}.
Definition set_log (v : list log_event) (s : ftl_stream) : ftl_stream :=
  {| packets := packets s; sent_headers := sent_headers s; frames_sent :=
     frames_sent s; connecting := connecting s; active := active s;
     disconnected := disconnected s; max_shutdown_time_sec :=
     max_shutdown_time_sec s; send_sem := send_sem s; stop_event :=
     stop_event s; stop_ts := stop_ts s; drop_threshold_usec :=
     drop_threshold_usec s; min_drop_dts_usec := min_drop_dts_usec s;
     min_priority := min_priority s; last_dts_usec := last_dts_usec s;
     total_bytes_sent := total_bytes_sent s; dropped_frames :=
     dropped_frames s; params_peak_kbps := params_peak_kbps s; peak_kbps :=
     peak_kbps s; coded_pic_buffer := coded_pic_buffer s; sent := sent s;
     freed := freed s; signals := signals s; log := v |}.

Definition set_total (v : Z) (b : frame_of_nalus_t) : frame_of_nalus_t :=
  {| nalus := nalus b; total := v; complete_frame := complete_frame b |}.
Definition set_nalus (v : list nalu_t) (b : frame_of_nalus_t) : frame_of_nalus_t :=
  {| nalus := v; total := total b; complete_frame := complete_frame b |}.

Definition add_log (e : log_event) (s : ftl_stream) : ftl_stream :=
  set_log (log s ++ [e]) s.
Definition add_signal (e : host_signal) (s : ftl_stream) : ftl_stream :=
  set_signals (signals s ++ [e]) s.

(** ** Helpers of the plugin *)

(** [stopping]: [os_event_try(stream->stop_event) != EAGAIN].  The
    accessors [connecting], [active] and [disconnected] of the source are
    the projections of the same name. *)
Definition stopping (s : ftl_stream) : bool := stop_event s.

Definition os_event_signal (s : ftl_stream) : ftl_stream := set_stop_event true s.
Definition os_event_reset (s : ftl_stream) : ftl_stream := set_stop_event false s.
Definition os_sem_post (s : ftl_stream) : ftl_stream :=
  set_send_sem (send_sem s + 1) s.

Definition obs_free_encoder_packet (p : encoder_packet) (s : ftl_stream)
  : ftl_stream :=
  set_freed (freed s ++ [p]) s.

(** [free_packets]: pop and free until the queue is empty. *)
Fixpoint free_packets_loop (q : list encoder_packet) (s : ftl_stream)
  : ftl_stream :=
  match q with
  | [] => s
  | packet :: q' =>
      free_packets_loop q' (obs_free_encoder_packet packet (set_packets q' s))
  end.

Definition free_packets (s : ftl_stream) : ftl_stream :=
  free_packets_loop (packets s) s.

(** [get_next_packet] *)
Definition get_next_packet (s : ftl_stream) : option encoder_packet * ftl_stream :=
  match packets s with
  | packet :: q' => (Some packet, set_packets q' s)
  | [] => (None, s)
  end.

(** ** Lifecycle: [ftl_stream_stop] *)

Section Lifecycle.

(** [pthread_join(status_thread); pthread_join(connect_thread)]: the
    stream as the two workers leave it. *)
Variable join_connect : ftl_stream -> ftl_stream.

Definition ftl_stream_stop (s : ftl_stream) (ts : Z) : ftl_stream :=
  if stopping s then s
  else
    let s := if connecting s then join_connect s else s in
    let s := set_stop_ts (to_uint64 ts / 1000) s in
    let s := os_event_signal s in
    if active s then
      if stop_ts s =? 0 then os_sem_post s else s
    else s.

(** [stop] called once with [ts], then again with each of [more]. *)
Definition stop_again (s : ftl_stream) (ts : Z) (more : list Z) : ftl_stream :=
  fold_left ftl_stream_stop more (ftl_stream_stop s ts).

End Lifecycle.

(** ** Packet queue and drop policy *)

Section DropPolicy.

(** [OBS_NAL_PRIORITY_HIGHEST] of [obs-avc.h]; the header belongs to libobs
    and its value is a parameter here. *)
Variable OBS_NAL_PRIORITY_HIGHEST : Z.

Definition add_packet (s : ftl_stream) (packet : encoder_packet)
  : bool * ftl_stream :=
  let s := set_packets (packets s ++ [packet]) s in
  let s := set_last_dts_usec (dts_usec packet) s in
  (true, s).

Definition num_buffered_packets (s : ftl_stream) : Z :=
  Z.of_nat (length (packets s)).

(** The test "do not drop audio data or video keyframes". *)
Definition kept (packet : encoder_packet) : bool :=
  bool_decide (type packet = OBS_ENCODER_AUDIO)
  || (drop_priority packet =? OBS_NAL_PRIORITY_HIGHEST).

(** The [while (stream->packets.size)] loop of [drop_frames]; [q] is
    [stream->packets], the other arguments are the locals ([drop_prio] is
    the local [drop_priority]). *)
Fixpoint drop_frames_loop (q new_buf : list encoder_packet)
    (drop_prio last_drop_dts_usec num_frames_dropped : Z) (s : ftl_stream)
  : result (list encoder_packet * Z * Z * Z * ftl_stream) :=
  match q with
  | [] => Ret (new_buf, drop_prio, last_drop_dts_usec,
               num_frames_dropped, s)
  | packet :: q' =>
      let s := set_packets q' s in
      let last_drop_dts_usec := to_uint64 (dts_usec packet) in
      if kept packet then
        drop_frames_loop q' (new_buf ++ [packet]) drop_prio
          last_drop_dts_usec num_frames_dropped s
      else
        let drop_prio :=
          if drop_prio <? drop_priority packet
          then drop_priority packet else drop_prio in
        num_frames_dropped <- int_val (num_frames_dropped + 1);;
        drop_frames_loop q' new_buf drop_prio last_drop_dts_usec
          num_frames_dropped (obs_free_encoder_packet packet s)
  end.

Definition drop_frames (s : ftl_stream) : result ftl_stream :=
  r <- drop_frames_loop (packets s) [] 0 0 0 s;;
  let '(new_buf, drop_prio, last_drop_dts_usec, num_frames_dropped, s) := r in
  let s := set_packets new_buf s in
  let s := set_min_priority drop_prio s in
  let s := set_min_drop_dts_usec (to_int64 last_drop_dts_usec) s in
  dropped <- int_val (dropped_frames s + num_frames_dropped);;
  Ret (set_dropped_frames dropped s).

Definition check_to_drop_frames (s : ftl_stream) : result ftl_stream :=
  if num_buffered_packets s <? 5 then Ret s
  else
    match packets s with
    | [] => Ret s   (* not reached: five packets or more *)
    | first :: _ =>
        if dts_usec first <? min_drop_dts_usec s then Ret s
        else
          buffer_duration_usec <-
            int64_val (last_dts_usec s - dts_usec first);;
          if buffer_duration_usec >? drop_threshold_usec s
          then drop_frames s
          else Ret s
    end.

Definition add_video_packet (s : ftl_stream) (packet : encoder_packet)
  : result (bool * ftl_stream) :=
  s <- check_to_drop_frames s;;
  if priority packet <? min_priority s then
    dropped <- int_val (dropped_frames s + 1);;
    Ret (false, set_dropped_frames dropped s)
  else
    Ret (add_packet (set_min_priority 0 s) packet).

End DropPolicy.

(** ** NAL splitter: [avc_get_video_frame] *)

(** A [uint8_t] promoted to [int]. *)
Definition byte_val (b : byte) : Z := Z.of_N (Byte.to_N b).

(** [video_stream[i]] for a cursor at offset [off]: the byte, promoted to
    [int]. *)
Definition byte_at (d : list byte) (off : Z) : result Z :=
  if off <? 0 then Fault (PayloadOutOfBounds off)
  else
    match d !! Z.to_nat off with
    | Some b => Ret (byte_val b)
    | None => Fault (PayloadOutOfBounds off)
    end.

(** [stream->coded_pic_buffer.nalus[idx]] as an lvalue: [f] is applied to
    the entry. *)
Definition nalus_store (idx : Z) (f : nalu_t -> nalu_t) (b : frame_of_nalus_t)
  : result frame_of_nalus_t :=
  if (0 <=? idx) && (idx <? NALUS_CAPACITY) then
    match nalus b !! Z.to_nat idx with
    | Some n => Ret (set_nalus (<[Z.to_nat idx := f n]> (nalus b)) b)
    | None => Fault (NalusOutOfBounds idx)
    end
  else Fault (NalusOutOfBounds idx).

(** The three assignments [nalu->data = video_stream; nalu->len = len;
    nalu->send_marker_bit = 0]. *)
Definition fill_nalu (video_stream len : Z) (n : nalu_t) : nalu_t :=
  {| len := len; nalu_dts_usec := nalu_dts_usec n; send_marker_bit := 0;
     nalu_data := video_stream |}.

Definition set_marker (v : Z) (n : nalu_t) : nalu_t :=
  {| len := len n; nalu_dts_usec := nalu_dts_usec n; send_marker_bit := v;
     nalu_data := nalu_data n |}.

(** The filter [(nalu_type != 12 && nalu_type != 6 && nalu_type != 9) || nri]
    on the first byte of a NAL unit. *)
Definition nal_passes (first_byte : Z) : bool :=
  let nalu_type := Z.land first_byte 31 in
  let nri := Z.land (Z.shiftr first_byte 5) 3 in
  (negb (nalu_type =? 12) && negb (nalu_type =? 6) && negb (nalu_type =? 9))
  || negb (nri =? 0).

(** The length prefix and the cursor after it: [(len, consumed,
    video_stream)]. *)
Definition read_length (d : list byte) (is_header : bool)
    (consumed video_stream : Z) (s : ftl_stream)
  : result (Z * Z * Z * ftl_stream) :=
  if is_header then
    let skip := if consumed =? 0 then 6 else 1 in
    let video_stream := video_stream + skip in
    consumed <- int_val (consumed + skip);;
    b0 <- byte_at d video_stream;;
    b1 <- byte_at d (video_stream + 1);;
    let len := Z.lor (Z.shiftl b0 8) b1 in
    consumed <- int_val (consumed + 2);;
    Ret (len, consumed, video_stream + 2, s)
  else
    b0 <- byte_at d video_stream;;
    b1 <- byte_at d (video_stream + 1);;
    b2 <- byte_at d (video_stream + 2);;
    b3 <- byte_at d (video_stream + 3);;
    hi <- int_val (Z.shiftl b0 24);;
    let len := Z.lor (Z.lor (Z.lor hi (Z.shiftl b1 16)) (Z.shiftl b2 8)) b3 in
    let left := to_size_t (Z.of_nat (length d) - to_size_t consumed) in
    let s := if to_size_t len >? left
             then add_log (warn_len_overrun len left) s else s in
    consumed <- int_val (consumed + 4);;
    Ret (len, consumed, video_stream + 4, s).

(** One turn of the loop past the test for a full array: the length
    prefix, [consumed += len], the filter on the first byte of the unit,
    the store into [nalus[total]], and [video_stream += len].  The unused
    local [send_marker_bit] of the source is left out. *)
Definition avc_turn (d : list byte) (is_header : bool)
    (consumed video_stream : Z) (s : ftl_stream)
  : result (Z * Z * ftl_stream) :=
  let nalu := total (coded_pic_buffer s) in
  r <- read_length d is_header consumed video_stream s;;
  let '(len, consumed, video_stream, s) := r in
  consumed <- int_val (consumed + len);;
  first_byte <- byte_at d video_stream;;
  s <- (if nal_passes first_byte then
          b <- nalus_store nalu (fill_nalu video_stream len)
                 (coded_pic_buffer s);;
          n <- int_val (total b + 1);;
          Ret (set_coded_pic_buffer (set_total n b) s)
        else Ret s);;
  Ret (consumed, video_stream + len, s).

(** The [while (consumed < packet->size)] loop.  [Some r] is [return r]
    from inside the loop, [None] is the loop running to its end. *)
Fixpoint avc_loop (fuel : nat) (d : list byte) (is_header : bool)
    (consumed video_stream : Z) (s : ftl_stream)
  : result (option Z * ftl_stream) :=
  if to_size_t consumed <? Z.of_nat (length d) then
    match fuel with
    | O => Fault OutOfFuel
    | S fuel' =>
        if NALUS_CAPACITY <=? to_size_t (total (coded_pic_buffer s)) then
          Ret (Some (-1), add_log warn_nalu_buffers_full s)
        else
          r <- avc_turn d is_header consumed video_stream s;;
          let '(consumed, video_stream, s) := r in
          avc_loop fuel' d is_header consumed video_stream s
    end
  else Ret (None, s).

(** Every turn of the loop adds at least three to [consumed], so
    [packet->size] turns are enough. *)
Definition avc_get_video_frame (s : ftl_stream) (packet : encoder_packet)
    (is_header : bool) (idx : Z) : result (Z * ftl_stream) :=
  r <- avc_loop (length (data packet)) (data packet) is_header 0 0 s;;
  match r with
  | (Some code, s) => Ret (code, s)
  | (None, s) =>
      if negb is_header then
        last <- int_val (total (coded_pic_buffer s) - 1);;
        b <- nalus_store last (set_marker 1) (coded_pic_buffer s);;
        Ret (0, set_coded_pic_buffer b s)
      else Ret (0, s)
  end.

(** ** Send path *)

Inductive loop_exit : Type :=
| loop_continue              (* next turn of the loop *)
| break_immediate_stop       (* stopping and stop_ts == 0 *)
| break_stop_deadline        (* stopping and sys_dts_usec >= stop_ts *)
| break_headers_failed       (* !send_headers(...) *)
| break_send_failed.         (* send_packet(...) < 0 *)

Section SendPath.

(** What [ftl_ingest_send_media_dts] returns, given the calls made before
    and the call itself; the function returns an [int]. *)
Variable ftl_ingest_send_media_dts : list media_call -> media_call -> Z.

Definition send_media (c : media_call) (s : ftl_stream) : Z * ftl_stream :=
  (to_int (ftl_ingest_send_media_dts (sent s) c), set_sent (sent s ++ [c]) s).

(** The loop [for (i = 0; i < total; i++)] of [send_packet], with [n]
    turns left. *)
Fixpoint send_nalus (n : nat) (i : Z) (packet : encoder_packet)
    (bytes_sent : Z) (s : ftl_stream) : result (Z * ftl_stream) :=
  match n with
  | O => Ret (bytes_sent, s)
  | S n' =>
      match nalus (coded_pic_buffer s) !! Z.to_nat i with
      | None => Fault (NalusOutOfBounds i)
      | Some nalu =>
          let (sent_now, s) :=
            send_media {| call_kind := FTL_VIDEO_DATA;
                          call_dts_usec := dts_usec packet;
                          call_data := nalu_data nalu;
                          call_len := len nalu;
                          call_marker := send_marker_bit nalu |} s in
          bytes_sent <- int_val (bytes_sent + sent_now);;
          s <- (if negb (send_marker_bit nalu =? 0) then
                  n <- int64_val (frames_sent s + 1);;
                  Ret (set_frames_sent n s)
                else Ret s);;
          send_nalus n' (i + 1) packet bytes_sent s
      end
  end.

(** [send_packet].  The result of [avc_get_video_frame] is not looked at,
    and [ret] is never assigned after its initialisation. *)
Definition send_packet (s : ftl_stream) (packet : encoder_packet)
    (is_header : bool) (idx : Z) : result (Z * ftl_stream) :=
  let ret := 0 in
  let bytes_sent := 0 in
  r <- (if bool_decide (type packet = OBS_ENCODER_VIDEO) then
          let s := set_coded_pic_buffer
                     (set_total 0 (coded_pic_buffer s)) s in
          parsed <- avc_get_video_frame s packet is_header idx;;
          let s := snd parsed in
          send_nalus (Z.to_nat (total (coded_pic_buffer s))) 0 packet
            bytes_sent s
        else if bool_decide (type packet = OBS_ENCODER_AUDIO) then
          let (sent_now, s) :=
            send_media {| call_kind := FTL_AUDIO_DATA;
                          call_dts_usec := dts_usec packet;
                          call_data := 0;
                          call_len := size packet;
                          call_marker := 0 |} s in
          bytes_sent <- int_val (bytes_sent + sent_now);;
          Ret (bytes_sent, s)
        else Ret (bytes_sent, add_log warn_packet_type s));;
  let (bytes_sent, s) := r in
  let s := set_total_bytes_sent
             (to_uint64 (total_bytes_sent s + to_uint64 bytes_sent)) s in
  let s := obs_free_encoder_packet packet s in
  Ret (ret, s).

(** [send_video_header]; [header] is the payload that
    [obs_parse_avc_header] builds from the encoder's extra data. *)
Definition send_video_header (s : ftl_stream) (dts : Z) (header : list byte)
  : result (bool * ftl_stream) :=
  let packet := {| data := header; dts_usec := dts; sys_dts_usec := 0;
                   type := OBS_ENCODER_VIDEO; keyframe := true;
                   priority := 0; drop_priority := 0; track_idx := 0 |} in
  r <- send_packet s packet true 0;;
  Ret (0 <=? fst r, snd r).

Definition send_headers (s : ftl_stream) (dts : Z) (header : list byte)
  : result (bool * ftl_stream) :=
  let s := set_sent_headers true s in
  r <- send_video_header s dts header;;
  if negb (fst r) then Ret (false, snd r) else Ret (true, snd r).

(** One turn of the loop of [send_thread], after [os_sem_wait] returned
    0: how the turn ends, and the stream. *)
Definition send_thread_turn (s : ftl_stream) (header : list byte)
  : result (loop_exit * ftl_stream) :=
  if stopping s && (stop_ts s =? 0) then Ret (break_immediate_stop, s)
  else
    match get_next_packet s with
    | (None, s) => Ret (loop_continue, s)
    | (Some packet, s) =>
        if stopping s && (to_int64 (stop_ts s) <=? sys_dts_usec packet) then
          Ret (break_stop_deadline, obs_free_encoder_packet packet s)
        else
          h <- (if keyframe packet
                then send_headers s (dts_usec packet) header
                else Ret (true, s));;
          if negb (fst h) then
            Ret (break_headers_failed, set_disconnected true (snd h))
          else
            r <- send_packet (snd h) packet false (track_idx packet);;
            if fst r <? 0 then
              Ret (break_send_failed, set_disconnected true (snd r))
            else Ret (loop_continue, snd r)
    end.

End SendPath.

(** ** Connect worker: [init_connect], [set_peak_bitrate], [try_connect] *)

(** What the host and libftl answer during one run of the connect worker. *)
Record connect_env : Type := mk_connect_env {
  service_present : bool;     (* obs_output_get_service(...) != NULL *)
  target_bitrate : Z;         (* (int)obs_data_get_int(video_settings, "bitrate") *)
  ingest_create : Z;          (* ftl_ingest_create *)
  opt_drop_threshold : Z;     (* obs_data_get_int(settings, OPT_DROP_THRESHOLD) *)
  opt_max_shutdown_time : Z;  (* obs_data_get_int(settings, OPT_MAX_SHUTDOWN_TIME_SEC) *)
  path_is_empty : bool;       (* dstr_is_empty(&stream->path) *)
  ingest_connect : Z;         (* ftl_ingest_connect *)
  speed_test : Z;             (* ftl_ingest_speed_test_ex *)
  speed_test_peak_kbps : Z;   (* results.peak_kbps *)
  send_thread_created : bool  (* pthread_create(&stream->send_thread, ...) == 0 *)
}.

Section Connect.

Variable code : ftl_status_t -> Z.

(** [(int)((float)target_bitrate * 1.1)]: floating point, kept abstract. *)
Variable scaled_bitrate : Z -> Z.

(** [pthread_join(stream->send_thread, NULL)]: the stream as the send
    worker leaves it. *)
Variable join_send : ftl_stream -> ftl_stream.

(** [init_connect]: the assignments to the stream, and the local
    [peak_bitrate], which no later statement reads.  The two options are
    [long long] values: the product by 1000 is taken in [int64_t] and the
    function has no way to report an overflow, so the value stored is the
    one the two's-complement build computes, modulo 2^64; the cast to
    [int] keeps the low 32 bits. *)
Definition init_connect (e : connect_env) (s : ftl_stream)
  : bool * ftl_stream :=
  let s := if stopping s then join_send s else s in
  let s := free_packets s in
  if negb (service_present e) then (false, s)
  else
    let s := set_disconnected false s in
    let s := set_total_bytes_sent 0 s in
    let s := set_dropped_frames 0 s in
    let s := set_min_drop_dts_usec 0 s in
    let s := set_min_priority 0 s in
    let target_bitrate := target_bitrate e in
    let peak_bitrate := scaled_bitrate target_bitrate in
    let peak_bitrate :=
      if peak_bitrate <? target_bitrate then target_bitrate
      else peak_bitrate in
    let s := set_params_peak_kbps
               (if peak_kbps s <? 0 then 0 else peak_kbps s) s in
    if negb (ingest_create e =? code FTL_SUCCESS) then (false, s)
    else
      let s := set_drop_threshold_usec
                 (to_int64 (opt_drop_threshold e * 1000)) s in
      let s := set_max_shutdown_time_sec
                 (to_int (opt_max_shutdown_time e)) s in
      (true, s).

Definition set_peak_bitrate (e : connect_env) (s : ftl_stream) : ftl_stream :=
  if speed_test e =? code FTL_SUCCESS then
    let s := set_params_peak_kbps (speed_test_peak_kbps e) s in
    set_peak_kbps (params_peak_kbps s) s
  else add_log warn_speed_test_failed s.

Definition init_send (e : connect_env) (s : ftl_stream)
  : obs_output_code * ftl_stream :=
  let s := set_send_sem 0 s in
  if negb (send_thread_created e) then (OBS_OUTPUT_ERROR, s)
  else
    let s := set_active true s in
    let s := add_signal begin_data_capture s in
    (OBS_OUTPUT_SUCCESS, s).

Definition try_connect (e : connect_env) (s : ftl_stream)
  : obs_output_code * ftl_stream :=
  if path_is_empty e then (OBS_OUTPUT_BAD_PATH, s)
  else if negb (ingest_connect e =? code FTL_SUCCESS) then
    (ErrorMap._ftl_error_to_obs_error code (ingest_connect e), s)
  else
    let s := if peak_kbps s <? 0 then set_peak_bitrate e s else s in
    init_send e s.

Definition with_target_bitrate (t : Z) (e : connect_env) : connect_env :=
{| service_present := service_present e; target_bitrate := t;
   ingest_create := ingest_create e;
   opt_drop_threshold := opt_drop_threshold e;
   opt_max_shutdown_time := opt_max_shutdown_time e;
   path_is_empty := path_is_empty e; ingest_connect := ingest_connect e;
   speed_test := speed_test e;
   speed_test_peak_kbps := speed_test_peak_kbps e;
   send_thread_created := send_thread_created e |}.

(** The peak bitrate of the specification's words: 110% of the target
    bitrate with a floor at the target. *)
Definition spec_default_peak (target : Z) : Z :=
  Z.max target (target * 110 / 100).

End Connect.

(** ** Status worker: [status_thread] *)

Module StatusWorker.

(** What one call of [ftl_ingest_get_status] hands back, as far as the
    worker tells the cases apart. *)
Inductive status_reply : Type :=
| reply_timeout                     (* FTL_STATUS_TIMEOUT *)
| reply_queue_empty                 (* FTL_QUEUE_EMPTY *)
| reply_not_initialized             (* FTL_NOT_INITIALIZED *)
| reply_disconnected (api_request : bool)
                                    (* FTL_STATUS_EVENT, ..._TYPE_DISCONNECTED *)
| reply_log                         (* FTL_STATUS_LOG *)
| reply_video_packets               (* FTL_STATUS_VIDEO_PACKETS *)
| reply_video_packets_instant       (* FTL_STATUS_VIDEO_PACKETS_INSTANT *)
| reply_video                       (* FTL_STATUS_VIDEO *)
| reply_other.                      (* any other status.type *)

(** A status message is processed when the call returned one. *)
Definition is_message (r : status_reply) : bool :=
  match r with
  | reply_timeout | reply_queue_empty | reply_not_initialized => false
  | _ => true
  end.

(** Where the worker is: about to test [!disconnected(stream)], inside
    [ftl_ingest_get_status], or out of the function. *)
Inductive location : Type :=
| at_loop_test
| in_get_status
| returned.

(** What an observer sees the worker do; each entry carries the value of
    [stream->disconnected] at that moment. *)
Inductive action : Type :=
| tested (flag : bool)                        (* the loop test *)
| handled (r : status_reply) (flag : bool).   (* get_status returned r *)

Record world : Type := mk_world {
  flag : bool;                  (* stream->disconnected *)
  pc : location;
  host : list host_signal;      (* obs_output_signal_stop calls *)
  trace : list action           (* oldest first *)
}.

(** Where the worker goes after [ftl_ingest_get_status] returned [r]:
    [continue] and the ends of the [if] chain lead back to the loop test,
    [break] and [return 0] leave. *)
Definition after_reply (r : status_reply) : location :=
  match r with
  | reply_timeout | reply_queue_empty => at_loop_test
  | reply_not_initialized => returned
  | reply_disconnected _ => returned
  | _ => at_loop_test
  end.

Definition signal_of_reply (r : status_reply) : list host_signal :=
  match r with
  | reply_disconnected false => [signal_stop OBS_OUTPUT_DISCONNECTED]
  | _ => []
  end.

(** One step of the system: another thread stores [true] into
    [stream->disconnected], or the worker moves; [worker r] carries the
    reply its next [ftl_ingest_get_status] call would return. *)
Inductive event : Type :=
| store_disconnected
| worker (r : status_reply).

Definition step (w : world) (e : event) : world :=
  match e with
  | store_disconnected =>
      {| flag := true; pc := pc w; host := host w; trace := trace w |}
  | worker r =>
      match pc w with
      | at_loop_test =>
          {| flag := flag w;
             pc := if flag w then returned else in_get_status;
             host := host w;
             trace := trace w ++ [tested (flag w)] |}
      | in_get_status =>
          {| flag := flag w;
             pc := after_reply r;
             host := host w ++ signal_of_reply r;
             trace := trace w ++ [handled r (flag w)] |}
      | returned => w
      end
  end.

Definition run (w : world) (es : list event) : world := fold_left step es w.

Definition start : world :=
  {| flag := false; pc := at_loop_test; host := []; trace := [] |}.

(** Messages processed while [stream->disconnected] was already set. *)
Definition handled_after_set (a : action) : bool :=
  match a with
  | handled r true => is_message r
  | _ => false
  end.

(** What holds of every world the system reaches. *)
Record inv (w : world) : Prop := mk_inv {
  inv_poll : pc w = in_get_status -> last (trace w) = Some (tested false);
  inv_handled : forall i r f, trace w !! i = Some (handled r f) ->
                exists j, i = S j /\ trace w !! j = Some (tested false);
  inv_exit : forall i, trace w !! i = Some (tested true) ->
             pc w = returned /\ length (trace w) = S i;
  inv_once : length (List.filter handled_after_set (trace w)) = 0%nat \/
             (length (List.filter handled_after_set (trace w)) = 1%nat /\
              flag w = true /\ pc w <> in_get_status)
}.

(** The worker processes no message once the flag is set, along the
    schedule [es]. *)
Definition never_handles_after_set (es : list event) : Prop :=
  forall a, a ∈ trace (run start es) -> handled_after_set a = false.

(** The loop test passes, another thread sets the flag while the worker is
    inside [ftl_ingest_get_status], and the call returns a log message. *)
Definition in_flight_schedule : list event :=
  [ worker reply_timeout; store_disconnected; worker reply_log ].

End StatusWorker.

(** ** The specification's words, for comparison with the code *)

Section DropWords.

Variable OBS_NAL_PRIORITY_HIGHEST : Z.

(** "Retain audio packets unconditionally.  Retain video packets whose
    [drop_priority == HIGHEST].  Discard everything else." *)
Definition retained (p : encoder_packet) : Prop :=
  type p = OBS_ENCODER_AUDIO \/
  (type p = OBS_ENCODER_VIDEO /\ drop_priority p = OBS_NAL_PRIORITY_HIGHEST).

Definition discarded (p : encoder_packet) : Prop := ~ retained p.

#[global] Instance retained_dec p : Decision (retained p).
Proof. unfold retained. solve_decision. Defined.

#[global] Instance discarded_dec p : Decision (discarded p).
Proof. unfold discarded. solve_decision. Defined.

End DropWords.

(** The largest [drop_priority] in a list of packets, 0 for none. *)
Definition max_drop_priority (l : list encoder_packet) : Z :=
  foldr (fun p m => Z.max (drop_priority p) m) 0 l.

(** The [dts_usec] of the last packet of a queue, 0 for an empty one. *)
Definition last_dts (q : list encoder_packet) : Z :=
  from_option dts_usec 0 (last q).

(** ** Predicates on outcomes and on the NAL array *)

(** The outcome is a value or undefined behaviour of the C code, not the
    loop bound of the model. *)
Definition finishes {A} (r : result A) : Prop := r <> Fault OutOfFuel.

(** [s'] differs from [s] in [coded_pic_buffer] and [log] at most. *)
Definition touches_buffer_and_log (s s' : ftl_stream) : Prop :=
  exists b l, s' = set_log l (set_coded_pic_buffer b s).

(** The array has its 100 entries, [total] counts some of them, and none of
    the counted entries carries the marker. *)
Definition markers_clear (b : frame_of_nalus_t) : Prop :=
  length (nalus b) = 100%nat /\ 0 <= total b <= 100 /\
  forall i n, (i < Z.to_nat (total b))%nat -> nalus b !! i = Some n ->
              send_marker_bit n = 0.

(** The counted entries are clear of the marker except the last, which
    carries it. *)
Definition marker_on_last (b : frame_of_nalus_t) : Prop :=
  length (nalus b) = 100%nat /\ 1 <= total b <= 100 /\
  (forall i n, (i < Z.to_nat (total b - 1))%nat -> nalus b !! i = Some n ->
               send_marker_bit n = 0) /\
  exists n, nalus b !! Z.to_nat (total b - 1) = Some n /\
            send_marker_bit n = 1.

(** [s'] has the queue, the lifecycle flags and the list of freed packets
    of [s]. *)
Definition leaves_queue_and_flags (s s' : ftl_stream) : Prop :=
  packets s' = packets s /\ freed s' = freed s /\
  disconnected s' = disconnected s /\ active s' = active s /\
  connecting s' = connecting s /\ stop_event s' = stop_event s /\
  stop_ts s' = stop_ts s /\ send_sem s' = send_sem s.

(** *** AVCC framing

    A frame as [obs_parse_avc_packet] builds it: every NAL unit preceded by
    its length in four bytes, most significant first. *)

Definition byte_of_Z (z : Z) : byte :=
  match Byte.of_N (Z.to_N z) with
  | Some b => b
  | None => x00
  end.

Definition be32 (n : Z) : list byte :=
  [ byte_of_Z (Z.shiftr n 24);
    byte_of_Z (Z.land (Z.shiftr n 16) 255);
    byte_of_Z (Z.land (Z.shiftr n 8) 255);
    byte_of_Z (Z.land n 255) ].

Definition avcc_unit (u : list byte) : list byte :=
  be32 (Z.of_nat (length u)) ++ u.

Definition avcc (units : list (list byte)) : list byte :=
  List.concat (map avcc_unit units).

(** The filter of the splitter on a whole unit. *)
Definition unit_passes (u : list byte) : bool :=
  match u with
  | b :: _ => nal_passes (byte_val b)
  | [] => false
  end.

(** What the ingest is given for one entry: offset, length and marker. *)
Definition nalu_view (n : nalu_t) : Z * Z * Z :=
  (nalu_data n, len n, send_marker_bit n).

(** The counted entries of the array, as the ingest will see them. *)
Definition emitted (b : frame_of_nalus_t) : list (Z * Z * Z) :=
  map nalu_view (take (Z.to_nat (total b)) (nalus b)).

(** The entries expected for the units of a frame that start at offset
    [off]: one per unit that passes the filter, none with the marker. *)
Fixpoint avcc_entries (off : Z) (units : list (list byte)) : list (Z * Z * Z) :=
  match units with
  | [] => []
  | u :: rest =>
      (if unit_passes u then [(off + 4, Z.of_nat (length u), 0)] else [])
      ++ avcc_entries (off + 4 + Z.of_nat (length u)) rest
  end.

(** The same entries with the marker on the last one. *)
Definition mark_last (l : list (Z * Z * Z)) : list (Z * Z * Z) :=
  match reverse l with
  | [] => []
  | (o, n, _) :: before => reverse before ++ [(o, n, 1)]
  end.

(** The number of entries that carry the marker. *)
Definition marked (l : list (Z * Z * Z)) : Z :=
  Z.of_nat (length (List.filter (fun v => negb (snd v =? 0)) l)).

(** The call made for an entry seen as offset, length and marker. *)
Definition call_of_view (packet : encoder_packet) (v : Z * Z * Z) : media_call :=
  {| call_kind := FTL_VIDEO_DATA; call_dts_usec := dts_usec packet;
     call_data := fst (fst v); call_len := snd (fst v);
     call_marker := snd v |}.

(** The call [send_packet] makes for entry [n] of the array. *)
Definition video_call (packet : encoder_packet) (n : nalu_t) : media_call :=
  {| call_kind := FTL_VIDEO_DATA; call_dts_usec := dts_usec packet;
     call_data := nalu_data n; call_len := len n;
     call_marker := send_marker_bit n |}.

(** ** Concrete inputs *)

(** One assignment of pairwise distinct values to the enumerators. *)
Definition sample_code (c : ftl_status_t) : Z :=
  match c with
  | FTL_SUCCESS => 0
  | FTL_SOCKET_NOT_CONNECTED => 1
  | FTL_MALLOC_FAILURE => 3
  | FTL_DNS_FAILURE => 4
  | FTL_CONNECT_ERROR => 5
  | FTL_INTERNAL_ERROR => 6
  | FTL_CONFIG_ERROR => 7
  | FTL_STREAM_REJECTED => 8
  | FTL_NOT_ACTIVE_STREAM => 9
  | FTL_UNAUTHORIZED => 10
  | FTL_AUDIO_SSRC_COLLISION => 11
  | FTL_VIDEO_SSRC_COLLISION => 12
  | FTL_BAD_REQUEST => 13
  | FTL_OLD_VERSION => 14
  | FTL_BAD_OR_INVALID_STREAM_KEY => 15
  | FTL_UNSUPPORTED_MEDIA_TYPE => 16
  | FTL_NOT_CONNECTED => 18
  | FTL_ALREADY_CONNECTED => 19
  | FTL_UNKNOWN_ERROR_CODE => 20
  | FTL_STATUS_TIMEOUT => 21
  | FTL_QUEUE_FULL => 22
  | FTL_STATUS_WAITING_FOR_KEY_FRAME => 23
  | FTL_QUEUE_EMPTY => 24
  | FTL_NOT_INITIALIZED => 25
  | FTL_CHANNEL_IN_USE => 26
  | FTL_REGION_UNSUPPORTED => 27
  | FTL_NO_MEDIA_TIMEOUT => 28
  | FTL_USER_DISCONNECT => 29
  end.

(** The stream as [ftl_stream_create] returns it: zeroed by [bzalloc],
    except for [peak_kbps = -1]. *)
Definition zero_nalu : nalu_t :=
  {| len := 0; nalu_dts_usec := 0; send_marker_bit := 0; nalu_data := 0 |}.

Definition ftl_stream_create : ftl_stream :=
  {| packets := []; sent_headers := false; frames_sent := 0;
     connecting := false; active := false; disconnected := false;
     max_shutdown_time_sec := 0; send_sem := 0; stop_event := false;
     stop_ts := 0; drop_threshold_usec := 0; min_drop_dts_usec := 0;
     min_priority := 0; last_dts_usec := 0; total_bytes_sent := 0;
     dropped_frames := 0; params_peak_kbps := 0; peak_kbps := -1;
     coded_pic_buffer :=
       {| nalus := replicate 100 zero_nalu; total := 0; complete_frame := 0 |};
     sent := []; freed := []; signals := []; log := [] |}.

Definition video_packet (d : list byte) (dts : Z) (key : bool) (prio : Z)
  : encoder_packet :=
  {| data := d; dts_usec := dts; sys_dts_usec := dts;
     type := OBS_ENCODER_VIDEO; keyframe := key;
     priority := prio; drop_priority := prio; track_idx := 0 |}.

Definition audio_packet (d : list byte) (dts : Z) : encoder_packet :=
  {| data := d; dts_usec := dts; sys_dts_usec := dts;
     type := OBS_ENCODER_AUDIO; keyframe := false;
     priority := 0; drop_priority := 0; track_idx := 0 |}.

(** A queue of six packets spanning 133 ms: a keyframe, three P-frames of
    priorities 1, 2, 1, and two audio packets. *)
Definition episode_queue : list encoder_packet :=
  [ video_packet [] 0 true 3;
    video_packet [] 33333 false 1;
    audio_packet [] 40000;
    video_packet [] 66666 false 2;
    audio_packet [] 80000;
    video_packet [] 133332 false 1 ].

Definition episode_stream : ftl_stream :=
  set_last_dts_usec 133332 (set_packets episode_queue ftl_stream_create).

(** A first connect that succeeds at every step: the encoder targets
    2500 kbps and the speed test measures 4000 kbps. *)
Definition first_connect_env : connect_env :=
  {| service_present := true; target_bitrate := 2500;
     ingest_create := sample_code FTL_SUCCESS;
     opt_drop_threshold := 600; opt_max_shutdown_time := 5;
     path_is_empty := false; ingest_connect := sample_code FTL_SUCCESS;
     speed_test := sample_code FTL_SUCCESS; speed_test_peak_kbps := 4000;
     send_thread_created := true |}.

(** An integer reading of [(int)((float)target_bitrate * 1.1)]. *)
Definition eleven_tenths (t : Z) : Z := t * 11 / 10.

(** An ingest that reports every payload as sent in full. *)
Definition ingest_echo (history : list media_call) (c : media_call) : Z :=
  call_len c.

(** One AVCC-framed NAL unit of one byte: length 1, then an IDR slice
    header byte (type 5, nri 3). *)
Definition one_idr : list byte := [x00; x00; x00; x01; x65].

(** A frame of 101 such units, 505 bytes. *)
Definition overflow_packet : encoder_packet :=
  video_packet (List.concat (replicate 101 one_idr)) 0 true 3.

(** A frame of exactly 100 units. *)
Definition full_packet : encoder_packet :=
  video_packet (List.concat (replicate 100 one_idr)) 0 true 3.

(** A frame whose only unit advertises 10 bytes and carries one. *)
Definition overrun_packet : encoder_packet :=
  video_packet [x00; x00; x00; x0a; x65] 0 true 3.

(** A frame that ends right after a length prefix. *)
Definition truncated_packet : encoder_packet :=
  video_packet [x00; x00; x00; x05] 0 true 3.

(** A frame whose length prefix has its top bit set. *)
Definition sign_bit_packet : encoder_packet :=
  video_packet [xff; xff; xff; xfc; x06] 0 false 0.

(** A frame whose only unit is an SEI message with nri 0 (type 6). *)
Definition sei_only_packet : encoder_packet :=
  video_packet [x00; x00; x00; x01; x06] 0 false 0.

(** The frame of scenario S5: IDR, SEI, access unit delimiter, filler and a
    P slice with nri 2. *)
Definition filter_packet : encoder_packet :=
  video_packet ([x00; x00; x00; x01; x65] ++ [x00; x00; x00; x01; x06] ++
                [x00; x00; x00; x01; x09] ++ [x00; x00; x00; x01; x0c] ++
                [x00; x00; x00; x02; x41; xff]) 0 true 3.


(** ** The rest of the plugin *)

Definition set_connecting (v : bool) (s : ftl_stream) : ftl_stream :=
  {| packets := packets s; sent_headers := sent_headers s;
     frames_sent := frames_sent s; connecting := v; active := active s;
     disconnected := disconnected s;
     max_shutdown_time_sec := max_shutdown_time_sec s;
     send_sem := send_sem s; stop_event := stop_event s;
     stop_ts := stop_ts s; drop_threshold_usec := drop_threshold_usec s;
     min_drop_dts_usec := min_drop_dts_usec s;
     min_priority := min_priority s; last_dts_usec := last_dts_usec s;
     total_bytes_sent := total_bytes_sent s;
     dropped_frames := dropped_frames s;
     params_peak_kbps := params_peak_kbps s; peak_kbps := peak_kbps s;
     coded_pic_buffer := coded_pic_buffer s; sent := sent s;
     freed := freed s; signals := signals s; log := log s |}.

(** *** Submitting a packet: [ftl_stream_data] *)

Section Submit.

Variable OBS_NAL_PRIORITY_HIGHEST : Z.

(** The copies that libobs makes of the packet handed in:
    [obs_parse_avc_packet] for video, [obs_duplicate_encoder_packet] for
    the rest. *)
Variable obs_parse_avc_packet : encoder_packet -> encoder_packet.
Variable obs_duplicate_encoder_packet : encoder_packet -> encoder_packet.

Definition ftl_stream_data (s : ftl_stream) (packet : encoder_packet)
  : result ftl_stream :=
  let added_packet := false in
  if disconnected s || negb (active s) then Ret s
  else
    let new_packet :=
      if bool_decide (type packet = OBS_ENCODER_VIDEO)
      then obs_parse_avc_packet packet
      else obs_duplicate_encoder_packet packet in
    r <- (if negb (disconnected s) then
            if bool_decide (type packet = OBS_ENCODER_VIDEO)
            then add_video_packet OBS_NAL_PRIORITY_HIGHEST s new_packet
            else Ret (add_packet s new_packet)
          else Ret (added_packet, s));;
    let (added_packet, s) := r in
    if added_packet then Ret (os_sem_post s)
    else Ret (obs_free_encoder_packet new_packet s).

End Submit.

(** *** The send worker as a whole: [send_thread] *)

Section SendThread.

Variable ftl_ingest_send_media_dts : list media_call -> media_call -> Z.

(** The payload [obs_parse_avc_header] builds from the encoder's extra
    data. *)
Variable header : list byte.

(** The statements after the loop. *)
Definition send_thread_exit (s : ftl_stream) : ftl_stream :=
  let s := if negb (stopping s)
           then add_signal (signal_stop OBS_OUTPUT_DISCONNECTED) s
           else add_signal end_data_capture s in
  let s := free_packets s in
  let s := os_event_reset s in
  let s := set_active false s in
  set_sent_headers false s.

(** The loop [while (os_sem_wait(stream->send_sem) == 0)], run over the
    results of the successive calls of [os_sem_wait]: [true] for a permit
    taken, [false] for a failure.  The result says whether the worker is
    past the loop ([true]) or waits for the next result ([false]). *)
Fixpoint send_thread_loop (waits : list bool) (s : ftl_stream)
  : result (bool * ftl_stream) :=
  match waits with
  | [] => Ret (false, s)
  | false :: _ => Ret (true, s)
  | true :: waits' =>
      let s := set_send_sem (send_sem s - 1) s in
      r <- send_thread_turn ftl_ingest_send_media_dts s header;;
      match fst r with
      | loop_continue => send_thread_loop waits' (snd r)
      | _ => Ret (true, snd r)
      end
  end.

(** [send_thread]: the loop, and the statements after it once the loop is
    left. *)
Definition send_thread (waits : list bool) (s : ftl_stream)
  : result (bool * ftl_stream) :=
  r <- send_thread_loop waits s;;
  if fst r then Ret (true, send_thread_exit (snd r)) else Ret r.

End SendThread.

(** *** Starting: [ftl_stream_start] and [connect_thread] *)

(** What the host answers to [ftl_stream_start]. *)
Record start_env : Type := mk_start_env {
  can_begin_data_capture : bool;   (* obs_output_can_begin_data_capture *)
  initialize_encoders : bool;      (* obs_output_initialize_encoders *)
  connect_thread_created : bool    (* pthread_create(...) == 0 *)
}.

Definition ftl_stream_start (e : start_env) (s : ftl_stream)
  : bool * ftl_stream :=
  if negb (can_begin_data_capture e) then (false, s)
  else if negb (initialize_encoders e) then (false, s)
  else
    let s := set_frames_sent 0 s in
    let s := set_connecting true s in
    (connect_thread_created e, s).

Section ConnectThread.

Variable code : ftl_status_t -> Z.
Variable scaled_bitrate : Z -> Z.
Variable join_send : ftl_stream -> ftl_stream.

Definition obs_output_code_eqb (a b : obs_output_code) : bool :=
  match a, b with
  | OBS_OUTPUT_SUCCESS, OBS_OUTPUT_SUCCESS
  | OBS_OUTPUT_BAD_PATH, OBS_OUTPUT_BAD_PATH
  | OBS_OUTPUT_CONNECT_FAILED, OBS_OUTPUT_CONNECT_FAILED
  | OBS_OUTPUT_ERROR, OBS_OUTPUT_ERROR
  | OBS_OUTPUT_DISCONNECTED, OBS_OUTPUT_DISCONNECTED => true
  | _, _ => false
  end.

(** [connect_thread]; the early [return NULL] leaves [connecting] as it
    is. *)
Definition connect_thread (e : connect_env) (s : ftl_stream) : ftl_stream :=
  let (ok, s) := init_connect code scaled_bitrate join_send e s in
  if negb ok then add_signal (signal_stop OBS_OUTPUT_BAD_PATH) s
  else
    let (ret, s) := try_connect code e s in
    let s := if negb (obs_output_code_eqb ret OBS_OUTPUT_SUCCESS)
             then add_signal (signal_stop ret) s else s in
    set_connecting false s.

End ConnectThread.

(** *** Parameter-set headers

    The payload of a header as the splitter expects it: six bytes, then
    the first unit behind its length in two bytes, then every further unit
    behind one byte and its length in two bytes. *)

Definition be16 (n : Z) : list byte :=
  [ byte_of_Z (Z.shiftr n 8); byte_of_Z (Z.land n 255) ].

Definition header_unit (u : list byte) : list byte :=
  be16 (Z.of_nat (length u)) ++ u.

(** The units after the first, each behind its spacer byte. *)
Fixpoint header_tail (units : list (byte * list byte)) : list byte :=
  match units with
  | [] => []
  | (spacer, u) :: rest => spacer :: header_unit u ++ header_tail rest
  end.

(** The entries expected for the units of a header tail that starts at
    offset [off]. *)
Fixpoint header_tail_entries (off : Z) (units : list (byte * list byte))
  : list (Z * Z * Z) :=
  match units with
  | [] => []
  | (_, u) :: rest =>
      (if unit_passes u then [(off + 3, Z.of_nat (length u), 0)] else [])
      ++ header_tail_entries (off + 3 + Z.of_nat (length u)) rest
  end.

(** *** Sums of what the ingest returned *)

(** The sum of the [int]s returned for the calls [calls], made after the
    calls [history]. *)
Fixpoint reply_sum (ingest : list media_call -> media_call -> Z)
    (history calls : list media_call) : Z :=
  match calls with
  | [] => 0
  | c :: rest =>
      to_int (ingest history c) + reply_sum ingest (history ++ [c]) rest
  end.


(** *** Predicates on the stream *)

(** [s'] differs from [s] at most in the fields that sending a packet
    writes: the NAL array, the log, the calls made, the two counters and
    the packets freed. *)
Definition writes_send_fields (s s' : ftl_stream) : Prop :=
  exists b l calls frames bytes fr,
    s' = set_freed fr (set_total_bytes_sent bytes (set_frames_sent frames
           (set_sent calls (set_log l (set_coded_pic_buffer b s))))).

(** Every queued packet has its permit on the semaphore. *)
Definition permits_cover_queue (s : ftl_stream) : Prop :=
  Z.of_nat (length (packets s)) <= send_sem s.

(** *** Inputs for the examples *)

(** The queue of [episode_stream] on a stream that is live, with a drop
    threshold of 100 ms and a permit for each queued packet. *)
Definition congested_stream : ftl_stream :=
  set_send_sem 6 (set_drop_threshold_usec 100000
                    (set_active true episode_stream)).

(** libobs copies that keep every field of the packet. *)
Definition same_packet (p : encoder_packet) : encoder_packet := p.

(** The calls among [calls] that end a frame. *)
Definition marked_calls (calls : list media_call) : Z :=
  Z.of_nat (length (List.filter (fun c => negb (call_marker c =? 0)) calls)).

(** The media type [send_packet] passes for a packet of type [t]. *)
Definition kind_of (t : obs_encoder_type) : ftl_media_type :=
  match t with
  | OBS_ENCODER_AUDIO => FTL_AUDIO_DATA
  | OBS_ENCODER_VIDEO => FTL_VIDEO_DATA
  end.

(** A header with two parameter sets: six bytes, a unit of two bytes, a
    spacer and a unit of one byte. *)
Definition sample_header : list byte :=
  [x01; x64; x00; x1f; xff; xe1] ++ header_unit [x67; x64]
  ++ header_tail [(x01, [x68])].

(** The stream a run of the model leaves, for the examples. *)
Definition stream_of {A} (r : result (A * ftl_stream)) : ftl_stream :=
  match r with
  | Ret (_, s) => s
  | Fault _ => ftl_stream_create
  end.

(** A live stream with two packets queued and their permits: an audio
    packet and a keyframe of one unit. *)
Definition live_stream : ftl_stream :=
  set_send_sem 2
    (set_active true
       (set_packets [ audio_packet [x01; x02] 20000;
                      video_packet one_idr 33333 true 3 ]
          ftl_stream_create)).

(** A host that lets the output start. *)
Definition willing_host : start_env :=
  {| can_begin_data_capture := true; initialize_encoders := true;
     connect_thread_created := true |}.

(** A connect in which [ftl_ingest_connect] returns FTL_USER_DISCONNECT. *)
Definition user_disconnect_env : connect_env :=
  {| service_present := true; target_bitrate := 2500;
     ingest_create := sample_code FTL_SUCCESS;
     opt_drop_threshold := 600; opt_max_shutdown_time := 5;
     path_is_empty := false;
     ingest_connect := sample_code FTL_USER_DISCONNECT;
     speed_test := sample_code FTL_SUCCESS; speed_test_peak_kbps := 4000;
     send_thread_created := true |}.

(** *** Counting the moves of the status worker *)

Definition is_worker (e : StatusWorker.event) : bool :=
  match e with
  | StatusWorker.worker _ => true
  | StatusWorker.store_disconnected => false
  end.

(** The worker has told the host nothing, or it has told it
    OBS_OUTPUT_DISCONNECTED once, as its last action, and has returned. *)
Definition quiet_or_done (w : StatusWorker.world) : Prop :=
  StatusWorker.host w = [] \/
  (StatusWorker.host w = [signal_stop OBS_OUTPUT_DISCONNECTED] /\
   StatusWorker.pc w = StatusWorker.returned /\
   exists f, last (StatusWorker.trace w)
             = Some (StatusWorker.handled
                       (StatusWorker.reply_disconnected false) f)).

(** How far the worker is from the end of the function once the flag is
    set: the number of its moves that are left at most. *)
Definition moves_left (w : StatusWorker.world) : nat :=
  match StatusWorker.pc w with
  | StatusWorker.returned => 0
  | StatusWorker.at_loop_test => 1
  | StatusWorker.in_get_status => 2
  end.

(** *** Destroying the output: [ftl_stream_destroy]

    [join_send] and [join_connect] stand for the [pthread_join] calls:
    the stream as the worker joined leaves it.  The result is the stream
    just before [bfree], with its ghost fields. *)
Definition ftl_stream_destroy (join_send join_connect : ftl_stream -> ftl_stream)
    (s : ftl_stream) : ftl_stream :=
  let s :=
    if stopping s && negb (connecting s) then join_send s
    else if connecting s || active s then
      let s := if connecting s then join_connect s else s in
      let s := set_stop_ts 0 s in
      let s := os_event_signal s in
      if active s then
        let s := os_sem_post s in
        let s := add_signal end_data_capture s in
        join_send s
      else s
    else s in
  free_packets s.

(** The send worker, blocked in [os_sem_wait], run until it returns:
    what [pthread_join(stream->send_thread)] waits for. *)
Definition send_worker_joined
    (ingest : list media_call -> media_call -> Z) (header : list byte)
    (waits : list bool) (s : ftl_stream) : ftl_stream :=
  match send_thread ingest header (true :: waits) s with
  | Ret (_, s') => s'
  | Fault _ => s
  end.

(** The payload of entry [n] of the NAL array, read back from the packet. *)
Definition nalu_payload (d : list byte) (n : nalu_t) : list byte :=
  take (Z.to_nat (len n)) (drop (Z.to_nat (nalu_data n)) d).

(** A frame of one unit whose prefix advertises five bytes and which
    carries one. *)
Definition short_packet : encoder_packet :=
  video_packet (be32 5 ++ [x65]) 0 true 3.

(** The entries expected for a header: the first unit behind the six
    bytes and its length, then the units of the tail. *)
Definition header_entries (u : list byte) (units : list (byte * list byte))
  : list (Z * Z * Z) :=
  (if unit_passes u then [(8, Z.of_nat (length u), 0)] else [])
  ++ header_tail_entries (8 + Z.of_nat (length u)) units.

(** The header [sample_header] as a packet, as [send_video_header] builds
    it. *)
Definition sample_header_packet : encoder_packet :=
  {| data := sample_header; dts_usec := 0; sys_dts_usec := 0;
     type := OBS_ENCODER_VIDEO; keyframe := true;
     priority := 0; drop_priority := 0; track_idx := 0 |}.

(** A connect that succeeds at every step, with options at the edge of
    their types: [OPT_DROP_THRESHOLD] is the largest [long long] and
    [OPT_MAX_SHUTDOWN_TIME_SEC] is 2^32 + 5. *)
Definition wide_options_env : connect_env :=
  {| service_present := true; target_bitrate := 2500;
     ingest_create := sample_code FTL_SUCCESS;
     opt_drop_threshold := 2 ^ 63 - 1; opt_max_shutdown_time := 2 ^ 32 + 5;
     path_is_empty := false; ingest_connect := sample_code FTL_SUCCESS;
     speed_test := sample_code FTL_SUCCESS; speed_test_peak_kbps := 4000;
     send_thread_created := true |}.

(** A queue of nine packets spanning 133 ms, six of them protected: a
    keyframe, five audio packets and three P-frames. *)
Definition crowded_queue : list encoder_packet :=
  [ video_packet [] 0 true 3;
    audio_packet [] 10000;
    video_packet [] 33333 false 1;
    audio_packet [] 40000;
    audio_packet [] 60000;
    video_packet [] 66666 false 2;
    audio_packet [] 80000;
    audio_packet [] 100000;
    video_packet [] 133332 false 1 ].

Definition crowded_stream : ftl_stream :=
  set_last_dts_usec 133332 (set_packets crowded_queue ftl_stream_create).

(** [crowded_stream] after its episode: six packets stay. *)
Definition crowded_stream_dropped : ftl_stream :=
  set_dropped_frames 3
    (set_min_drop_dts_usec 133332
       (set_min_priority 2
          (set_packets (filter (retained 3) crowded_queue)
             (set_freed (filter (discarded 3) crowded_queue)
                crowded_stream)))).

(** A frame whose length prefix has its top bit set: ff ff ff fc, then
    an SEI byte. *)
Definition negative_length_packet : encoder_packet :=
  video_packet [xff; xff; xff; xfc; x06] 0 true 3.

(** ** The workers on one stream

    [status_thread] reads [stream->disconnected].  The statements of the
    program that store [true] into it are the two branches of the send
    worker's loop taken when [send_headers] or [send_packet] reports a
    failure; [init_connect] stores [false], before the workers exist.  A
    world holds the stream, whether the send worker has left its loop,
    and the status worker. *)
Module Program.

Record world : Type := mk_world {
  stream : ftl_stream;
  sender_left : bool;
  status : StatusWorker.world
}.

(** One step of the program: the status worker moves ([r] is what its
    next [ftl_ingest_get_status] would return), the send worker takes a
    permit and runs a turn of its loop (and the statements after the loop
    when the turn leaves it; nothing when it has left or no permit is
    there), or the host calls
    [ftl_stream_data] or [ftl_stream_stop].  The connect worker has
    finished, so that the join in [ftl_stream_stop] changes nothing. *)
Inductive event : Type :=
| status_move (r : StatusWorker.status_reply)
| send_move
| data_move (packet : encoder_packet)
| stop_move (ts : Z).

Section Run.

Variable ftl_ingest_send_media_dts : list media_call -> media_call -> Z.
Variable header : list byte.
Variable OBS_NAL_PRIORITY_HIGHEST : Z.
Variable obs_parse_avc_packet : encoder_packet -> encoder_packet.
Variable obs_duplicate_encoder_packet : encoder_packet -> encoder_packet.

(** The status worker as it stands, reading the flag of the stream. *)
Definition observe (w : world) : StatusWorker.world :=
  {| StatusWorker.flag := disconnected (stream w);
     StatusWorker.pc := StatusWorker.pc (status w);
     StatusWorker.host := StatusWorker.host (status w);
     StatusWorker.trace := StatusWorker.trace (status w) |}.

Definition step (w : world) (e : event) : result world :=
  match e with
  | status_move r =>
      Ret {| stream := stream w; sender_left := sender_left w;
             status := StatusWorker.step (observe w)
                         (StatusWorker.worker r) |}
  | send_move =>
      (* os_sem_wait takes a permit when there is one *)
      if sender_left w || (send_sem (stream w) <=? 0) then Ret w
      else
        let s := set_send_sem (send_sem (stream w) - 1) (stream w) in
        r <- send_thread_turn ftl_ingest_send_media_dts s header;;
        match fst r with
        | loop_continue =>
            Ret {| stream := snd r; sender_left := false;
                   status := status w |}
        | _ =>
            Ret {| stream := send_thread_exit (snd r); sender_left := true;
                   status := status w |}
        end
  | data_move packet =>
      s <- ftl_stream_data OBS_NAL_PRIORITY_HIGHEST obs_parse_avc_packet
             obs_duplicate_encoder_packet (stream w) packet;;
      Ret {| stream := s; sender_left := sender_left w; status := status w |}
  | stop_move ts =>
      Ret {| stream := ftl_stream_stop (fun s => s) (stream w) ts;
             sender_left := sender_left w; status := status w |}
  end.

Fixpoint run (w : world) (es : list event) : result world :=
  match es with
  | [] => Ret w
  | e :: es' => w' <- step w e;; run w' es'
  end.

End Run.

(** The workers just created on stream [s]. *)
Definition start (s : ftl_stream) : world :=
  {| stream := s; sender_left := false; status := StatusWorker.start |}.

(** The world a run leaves, for the examples. *)
Definition world_of (r : result world) : world :=
  match r with
  | Ret w => w
  | Fault _ => start ftl_stream_create
  end.

(** A packet is handed in, the status worker polls while the send worker
    sends the queue to an ingest that reports -1 for every call, and the
    host stops the output at once. *)
Definition busy_schedule : list event :=
  [ data_move (audio_packet [x03] 50000);
    status_move StatusWorker.reply_timeout;
    send_move;
    status_move StatusWorker.reply_log;
    send_move;
    status_move StatusWorker.reply_video;
    status_move StatusWorker.reply_video_packets;
    send_move;
    stop_move 0;
    send_move;
    status_move StatusWorker.reply_queue_empty;
    status_move StatusWorker.reply_other ].

End Program.
(** * Properties *)

(** ** Integer conversions and outcomes *)

Lemma to_int64_to_uint64 z : in_int64 z -> to_int64 (to_uint64 z) = z.
Proof.
  unfold in_int64, INT64_MIN, INT64_MAX, to_int64, to_uint64. intros Hz.
  destruct (Z_lt_le_dec z 0) as [Hneg|Hpos].
  - rewrite <- (Z.mod_unique z (2 ^ 64) (-1) (z + 2 ^ 64)) by lia.
    rewrite <- (Z.mod_unique (z + 2 ^ 64 + 2 ^ 63) (2 ^ 64) 1 (z + 2 ^ 63))
      by lia.
    lia.
  - rewrite (Z.mod_small z) by lia. rewrite Z.mod_small by lia. lia.
Qed.

Lemma to_int_in z : in_int (to_int z).
Proof.
  unfold in_int, to_int, INT_MIN, INT_MAX.
  pose proof (Z.mod_pos_bound (z + 2 ^ 31) (2 ^ 32)). lia.
Qed.

Lemma to_size_t_small z : 0 <= z < 2 ^ 64 -> to_size_t z = z.
Proof. intros Hz. unfold to_size_t. now apply Z.mod_small. Qed.

Lemma bind_Ret_inv {A B} (m : result A) (k : A -> result B) b :
  bind m k = Ret b -> exists a, m = Ret a /\ k a = Ret b.
Proof. destruct m as [a|f]; simpl; [eauto | discriminate]. Qed.

Lemma int_val_Ret z r : int_val z = Ret r -> r = z /\ in_int z.
Proof.
  unfold int_val, in_int.
  destruct (INT_MIN <=? z) eqn:E1; destruct (z <=? INT_MAX) eqn:E2; simpl;
    intros H; inversion H; subst; lia.
Qed.

Lemma int_val_in z : in_int z -> int_val z = Ret z.
Proof.
  unfold int_val, in_int. intros [H1 H2].
  apply Z.leb_le in H1, H2. now rewrite H1, H2.
Qed.

Lemma int_val64_in z : in_int64 z -> int64_val z = Ret z.
Proof.
  unfold int64_val, in_int64. intros [H1 H2].
  apply Z.leb_le in H1, H2. now rewrite H1, H2.
Qed.

(** ** Error map *)

Ltac decide_status_tests inj :=
  repeat match goal with
  | |- context [Z.eqb (?f ?a) (?f ?a)] => rewrite (Z.eqb_refl (f a))
  | |- context [Z.eqb (?f ?a) (?f ?b)] =>
      let E := fresh "E" in
      destruct (Z.eqb_spec (f a) (f b)) as [E|E];
      [apply inj in E; discriminate E | clear E]
  end.

(** C3. [_ftl_error_to_obs_error] follows the table of the specification on
    every enumerator (success and user_disconnect give success; bad_request,
    dns_failure, connect_error, unsupported_media_type, old_version,
    unauthorized, both ssrc_collisions, stream_rejected, bad_stream_key,
    channel_in_use and region_unsupported give connect_failed;
    no_media_timeout gives disconnected; the others give error), and every
    integer that is the value of no enumerator gives error. *)
Theorem ftl_error_to_obs_error_table (code : ftl_status_t -> Z) :
  (forall a b, code a = code b -> a = b) ->
  (forall c, ErrorMap._ftl_error_to_obs_error code (code c)
             = ErrorMap.spec_outcome c) /\
  (forall status, (forall c, status <> code c) ->
     ErrorMap._ftl_error_to_obs_error code status = OBS_OUTPUT_ERROR).
Proof.
  intros inj. split.
  - intros c. unfold ErrorMap._ftl_error_to_obs_error, ErrorMap.status_is.
    destruct c; decide_status_tests inj; reflexivity.
  - intros status Hnone.
    unfold ErrorMap._ftl_error_to_obs_error, ErrorMap.status_is.
    repeat match goal with
    | |- context [Z.eqb status (code ?c)] =>
        destruct (Z.eqb_spec status (code c)) as [E|_];
        [exfalso; exact (Hnone c E) | ]
    end.
    reflexivity.
Qed.

Lemma ftl_error_to_obs_error_table_witness :
  (forall c, ErrorMap._ftl_error_to_obs_error sample_code (sample_code c)
             = ErrorMap.spec_outcome c) /\
  (forall status, (forall c, status <> sample_code c) ->
     ErrorMap._ftl_error_to_obs_error sample_code status = OBS_OUTPUT_ERROR).
Proof.
  apply (ftl_error_to_obs_error_table sample_code).
  intros a b; destruct a, b; simpl; intros H;
    first [reflexivity | discriminate H].
Defined.

(** ** Drop policy *)

Section DropFacts.

Variable HIGHEST : Z.

Lemma kept_retained p : kept HIGHEST p = true <-> retained HIGHEST p.
Proof.
  unfold kept, retained. rewrite orb_true_iff, bool_decide_eq_true, Z.eqb_eq.
  destruct (type p); split; intros [?|?]; try discriminate; tauto.
Qed.

Lemma kept_discarded p : kept HIGHEST p = false <-> discarded HIGHEST p.
Proof.
  unfold discarded. rewrite <- kept_retained.
  destruct (kept HIGHEST p); split; intros; congruence.
Qed.

Lemma last_cons_from_option {A B} (f : A -> B) (d : B) (x : A) (l : list A) :
  from_option f d (last (x :: l)) = from_option f (f x) (last l).
Proof.
  revert x d. induction l as [|y l IH]; intros x d; [reflexivity|].
  change (last (x :: y :: l)) with (last (y :: l)).
  now rewrite (IH y d), (IH y (f x)).
Qed.

Lemma max_drop_priority_nonneg l : 0 <= max_drop_priority l.
Proof. induction l as [|p l IH]; simpl; lia. Qed.

Lemma max_drop_priority_bound l p :
  p ∈ l -> drop_priority p <= max_drop_priority l.
Proof.
  induction 1 as [p l|p q l _ IH]; simpl; lia.
Qed.

Lemma max_drop_priority_attained l :
  l <> [] -> Forall (fun p => 0 <= drop_priority p) l ->
  exists p, p ∈ l /\ drop_priority p = max_drop_priority l.
Proof.
  induction l as [|p l IH]; [congruence|]. intros _ Hall.
  apply Forall_cons in Hall as [Hp Hl]. simpl.
  destruct (Z.max_spec (drop_priority p) (max_drop_priority l)) as [[Hlt E]|[Hge E]];
    rewrite E.
  - destruct l as [|q l'].
    + simpl in *. exists p. split; [left | lia].
    + destruct IH as (r & Hr & Er); [congruence | assumption |].
      exists r. split; [now right | assumption].
  - exists p. split; [left | reflexivity].
Qed.

(** The loop of [drop_frames] in closed form. *)
Lemma drop_frames_loop_run q :
  forall new_buf drop_prio last_drop num s,
  0 <= drop_prio -> 0 <= num -> num + Z.of_nat (length q) <= INT_MAX ->
  drop_frames_loop HIGHEST q new_buf drop_prio last_drop num s =
  Ret (new_buf ++ filter (retained HIGHEST) q,
       Z.max drop_prio (max_drop_priority (filter (discarded HIGHEST) q)),
       from_option (fun p => to_uint64 (dts_usec p)) last_drop (last q),
       num + Z.of_nat (length (filter (discarded HIGHEST) q)),
       set_freed (freed s ++ filter (discarded HIGHEST) q)
         (set_packets (match q with [] => packets s | _ => [] end) s)).
Proof.
  induction q as [|packet q IH]; intros new_buf drop_prio last_drop num s Hd Hn Hlen.
  - simpl. rewrite app_nil_r, Z.max_l, Z.add_0_r by lia.
    rewrite app_nil_r. destruct s; reflexivity.
  - cbn [drop_frames_loop]. rewrite last_cons_from_option.
    rewrite length_cons, Nat2Z.inj_succ in Hlen.
    destruct (kept HIGHEST packet) eqn:K.
    + pose proof (proj1 (kept_retained packet) K) as R.
      rewrite IH by lia.
      rewrite (filter_cons_True (retained HIGHEST)) by exact R.
      rewrite (filter_cons_False (discarded HIGHEST)) by (intros D; exact (D R)).
      rewrite <- app_assoc. destruct q; reflexivity.
    + pose proof (proj1 (kept_discarded packet) K) as D.
      rewrite int_val_in by (unfold in_int, INT_MIN, INT_MAX in *; lia).
      cbn [bind]. rewrite IH; [| | lia | lia].
      2:{ destruct (drop_prio <? drop_priority packet) eqn:E; [apply Z.ltb_lt in E|]; lia. }
      rewrite (filter_cons_False (retained HIGHEST)) by exact D.
      rewrite (filter_cons_True (discarded HIGHEST)) by exact D.
      f_equal. f_equal; [f_equal; [apply (f_equal (fun x => (x, _))); apply (f_equal (fun x => (_, x))) | ] | ].
      * cbn [max_drop_priority foldr].
        destruct (drop_prio <? drop_priority packet) eqn:E;
          [apply Z.ltb_lt in E | apply Z.ltb_ge in E]; fold (max_drop_priority (filter (discarded HIGHEST) q)); lia.
      * rewrite length_cons, Nat2Z.inj_succ. lia.
      * unfold obs_free_encoder_packet. cbn. rewrite <- app_assoc.
        destruct q; reflexivity.
Qed.

(** [check_to_drop_frames] starts an episode when five packets or more
    are queued, the head is not older than the last episode, and the queue
    spans more than the threshold; otherwise it leaves the stream alone. *)
Lemma check_to_drop_frames_episode s first q :
  packets s = first :: q ->
  in_int64 (last_dts_usec s - dts_usec first) ->
  check_to_drop_frames HIGHEST s =
    if (5 <=? num_buffered_packets s)
       && (min_drop_dts_usec s <=? dts_usec first)
       && (drop_threshold_usec s <? last_dts_usec s - dts_usec first)
    then drop_frames HIGHEST s
    else Ret s.
Proof.
  intros Hq Hspan. unfold check_to_drop_frames. rewrite Hq.
  destruct (Z.ltb_spec (num_buffered_packets s) 5) as [H5|H5];
    destruct (Z.leb_spec 5 (num_buffered_packets s)); try lia; [reflexivity|].
  destruct (Z.ltb_spec (dts_usec first) (min_drop_dts_usec s));
    destruct (Z.leb_spec (min_drop_dts_usec s) (dts_usec first)); try lia;
    [reflexivity|].
  rewrite int_val64_in by exact Hspan. cbn [bind andb].
  destruct (Z.gtb_spec (last_dts_usec s - dts_usec first) (drop_threshold_usec s));
    destruct (Z.ltb_spec (drop_threshold_usec s) (last_dts_usec s - dts_usec first));
    try lia; reflexivity.
Qed.

End DropFacts.

(** C1. A drop episode ([drop_frames] on a queue whose timestamps are
    [int64_t] values, whose drop priorities are non-negative NAL priorities
    and whose length does not overflow the [int] counter) keeps exactly the
    audio packets and the video packets of drop priority HIGHEST, in their
    order; frees every other packet; adds their number to
    [dropped_frames]; leaves in [min_priority] the largest drop priority
    among the discarded packets (an upper bound that one of them attains;
    0 when nothing was discarded); and leaves in [min_drop_dts_usec] the
    dts of the last packet of the queue. *)
Theorem drop_frames_episode (HIGHEST : Z) (s : ftl_stream) :
  Forall (fun p => in_int64 (dts_usec p)) (packets s) ->
  Forall (fun p => 0 <= drop_priority p) (packets s) ->
  0 <= dropped_frames s ->
  dropped_frames s + Z.of_nat (length (packets s)) <= INT_MAX ->
  exists s',
    drop_frames HIGHEST s = Ret s' /\
    packets s' = filter (retained HIGHEST) (packets s) /\
    freed s' = freed s ++ filter (discarded HIGHEST) (packets s) /\
    dropped_frames s' =
      dropped_frames s
      + Z.of_nat (length (filter (discarded HIGHEST) (packets s))) /\
    min_priority s' =
      max_drop_priority (filter (discarded HIGHEST) (packets s)) /\
    (forall p, p ∈ filter (discarded HIGHEST) (packets s) ->
               drop_priority p <= min_priority s') /\
    (filter (discarded HIGHEST) (packets s) <> [] ->
     exists p, p ∈ filter (discarded HIGHEST) (packets s) /\
               drop_priority p = min_priority s') /\
    min_drop_dts_usec s' = last_dts (packets s).
Proof.
  intros Hdts Hprio Hcnt Hlen.
  set (dropped := filter (discarded HIGHEST) (packets s)).
  assert (Hdl : Z.of_nat (length dropped) <= Z.of_nat (length (packets s))).
  { apply Nat2Z.inj_le. apply length_filter. }
  unfold drop_frames.
  rewrite (drop_frames_loop_run HIGHEST); [| lia | lia | unfold INT_MAX in *; lia].
  cbn [bind]. fold dropped.
  rewrite int_val_in.
  2:{ cbn. unfold in_int, INT_MIN, INT_MAX in *. lia. }
  cbn [bind]. eexists. split; [reflexivity|].
  rewrite Z.max_r by apply max_drop_priority_nonneg.
  cbn. repeat split.
  - intros p Hp. now apply max_drop_priority_bound.
  - intros Hne. apply max_drop_priority_attained; [exact Hne|].
    apply Forall_forall. intros p Hp.
    apply (proj1 (Forall_forall _ _) Hprio).
    now apply list_elem_of_filter in Hp as [_ Hp].
  - unfold last_dts.
    destruct (last (packets s)) as [p|] eqn:L; cbn; [|reflexivity].
    apply to_int64_to_uint64.
    apply (proj1 (Forall_forall _ _) Hdts).
    apply last_Some in L as [l' ->].
    apply elem_of_app. right. left.
Qed.

Lemma drop_frames_episode_witness :
  exists s',
    drop_frames 3 episode_stream = Ret s' /\
    packets s' = filter (retained 3) (packets episode_stream) /\
    freed s' = freed episode_stream
               ++ filter (discarded 3) (packets episode_stream) /\
    dropped_frames s' =
      dropped_frames episode_stream
      + Z.of_nat (length (filter (discarded 3) (packets episode_stream))) /\
    min_priority s' =
      max_drop_priority (filter (discarded 3) (packets episode_stream)) /\
    (forall p, p ∈ filter (discarded 3) (packets episode_stream) ->
               drop_priority p <= min_priority s') /\
    (filter (discarded 3) (packets episode_stream) <> [] ->
     exists p, p ∈ filter (discarded 3) (packets episode_stream) /\
               drop_priority p = min_priority s') /\
    min_drop_dts_usec s' = last_dts (packets episode_stream).
Proof.
  apply (drop_frames_episode 3 episode_stream).
  - repeat constructor; vm_compute; intros H; discriminate H.
  - repeat constructor; vm_compute; intros H; discriminate H.
  - vm_compute. intros H; discriminate H.
  - vm_compute. intros H; discriminate H.
Defined.

(** The episode of [episode_stream], computed: the keyframe and the two
    audio packets stay, three frames go, [min_priority] becomes 2. *)
Example drop_frames_episode_run :
  exists s', drop_frames 3 episode_stream = Ret s' /\
    packets s' = [ video_packet [] 0 true 3; audio_packet [] 40000;
                   audio_packet [] 80000 ] /\
    dropped_frames s' = 3 /\ min_priority s' = 2 /\
    min_drop_dts_usec s' = 133332.
Proof. eexists. split; [vm_compute; reflexivity|]. vm_compute. tauto. Qed.

(** ** Lifecycle *)

Section LifecycleFacts.

Variable join_connect : ftl_stream -> ftl_stream.

Lemma stopping_after_stop s ts :
  stopping (ftl_stream_stop join_connect s ts) = true.
Proof.
  unfold ftl_stream_stop. destruct (stopping s) eqn:St; [exact St|].
  cbv zeta.
  repeat match goal with
  | |- context [if ?b then _ else _] => destruct b
  end; reflexivity.
Qed.

Lemma stop_when_stopping s ts :
  stopping s = true -> ftl_stream_stop join_connect s ts = s.
Proof. intros St. unfold ftl_stream_stop. now rewrite St. Qed.

End LifecycleFacts.

(** C7, as the code has it.  [ftl_stream_stop] does nothing while a stop is
    pending: on every stream whose stop event is signalled the call
    returns the stream as it is, and a call always leaves the event
    signalled, so that after a first call any number of further calls
    leaves the stream ([stop_ts], the stop event, the semaphore and the
    signals to the host in particular) as the first call left it.  The
    join of the workers is any function of the stream.  The send worker
    resets the event on its way out; after that [ftl_stream_stop] acts as
    a first call again: it signals the event and stores the new
    [stop_ts]. *)
Theorem ftl_stream_stop_idempotent
    (join_connect : ftl_stream -> ftl_stream) (s : ftl_stream) (ts : Z)
    (more : list Z) :
  let once := ftl_stream_stop join_connect s ts in
  let again := stop_again join_connect s ts more in
  (stopping s = true -> once = s) /\
  stopping once = true /\
  (again = once /\
   stop_ts again = stop_ts once /\
   stop_event again = stop_event once /\
   send_sem again = send_sem once /\
   signals again = signals once) /\
  (forall ingest header waits left,
     send_thread ingest header waits once = Ret (true, left) ->
     stopping left = false /\
     forall ts',
       stopping (ftl_stream_stop join_connect left ts') = true /\
       stop_ts (ftl_stream_stop join_connect left ts')
       = to_uint64 ts' / 1000).
Proof.
  intros once again.
  split; [intros St; now apply stop_when_stopping|].
  split; [apply stopping_after_stop|].
  split.
  - assert (E : again = once).
    { unfold again, once, stop_again.
      pose proof (stopping_after_stop join_connect s ts) as St.
      revert St. generalize (ftl_stream_stop join_connect s ts) as s1.
      induction more as [|ts' more IH]; intros s1 St; [reflexivity|].
      cbn [fold_left]. rewrite (stop_when_stopping join_connect s1 ts' St).
      now apply IH. }
    rewrite E. repeat split.
  - intros ingest header waits left H. unfold send_thread in H.
    apply bind_Ret_inv in H as ([b s1] & _ & H). cbn [fst snd] in H.
    destruct b; [|discriminate H]. inversion H; subst left. clear H.
    assert (St : stopping (send_thread_exit s1) = false) by reflexivity.
    split; [exact St|]. intros ts'.
    split; [apply stopping_after_stop|].
    unfold ftl_stream_stop. rewrite St. cbv zeta.
    repeat match goal with
    | |- context [if ?b then _ else _] => destruct b
    end; reflexivity.
Qed.

(** C7, as stated, fails once the send worker has run in between.  A first
    stop with [ts = 500] on [live_stream] wakes the worker, which leaves
    and resets the event; a further stop with [ts = 700000] then signals
    the event again and stores 700 in [stop_ts], where the first call had
    left 0. *)
Lemma ftl_stream_stop_acts_again_after_worker_exit :
  let once := ftl_stream_stop (fun s => s) live_stream 500 in
  exists left,
    send_thread ingest_echo sample_header [true] once = Ret (true, left) /\
    stop_ts once = 0 /\ stop_event once = true /\
    stop_ts left = 0 /\ stop_event left = false /\
    stop_ts (ftl_stream_stop (fun s => s) left 700000) = 700 /\
    stop_event (ftl_stream_stop (fun s => s) left 700000) = true /\
    ftl_stream_stop (fun s => s) left 700000 <> left.
Proof.
  eexists. split; [vm_compute; reflexivity|].
  repeat split. intros H. apply (f_equal stop_ts) in H.
  vm_compute in H. discriminate H.
Qed.

(** A first stop while active with [ts = 0] posts the semaphore once; the
    second call posts nothing. *)
Example ftl_stream_stop_twice :
  let s := set_active true ftl_stream_create in
  send_sem (ftl_stream_stop id s 0) = 1 /\
  send_sem (ftl_stream_stop id (ftl_stream_stop id s 0) 0) = 1 /\
  stop_ts (ftl_stream_stop id (ftl_stream_stop id s 5000) 9000) = 5.
Proof. vm_compute. tauto. Qed.

(** ** Connect worker *)

Section ConnectFacts.

Variable code : ftl_status_t -> Z.
Variable scaled_bitrate : Z -> Z.
Variable join_send : ftl_stream -> ftl_stream.

Lemma free_packets_loop_peak q : forall s,
  peak_kbps (free_packets_loop q s) = peak_kbps s /\
  params_peak_kbps (free_packets_loop q s) = params_peak_kbps s.
Proof.
  induction q as [|p q IH]; intros s; [split; reflexivity|].
  cbn [free_packets_loop]. destruct (IH (obs_free_encoder_packet p (set_packets q s))) as [-> ->].
  split; reflexivity.
Qed.

Lemma init_connect_params e s :
  service_present e = true ->
  let s0 := if stopping s then join_send s else s in
  let s1 := snd (init_connect code scaled_bitrate join_send e s) in
  peak_kbps s1 = peak_kbps s0 /\
  params_peak_kbps s1 = (if peak_kbps s0 <? 0 then 0 else peak_kbps s0).
Proof.
  intros Hs. unfold init_connect. rewrite Hs. cbv zeta. cbn [negb].
  unfold free_packets.
  destruct (free_packets_loop_peak
              (packets (if stopping s then join_send s else s))
              (if stopping s then join_send s else s)) as [Ek _].
  destruct (negb (ingest_create e =? code FTL_SUCCESS)); cbn;
    rewrite Ek; split; reflexivity.
Qed.

Lemma init_connect_target_unused e s scaled' t :
  init_connect code scaled' join_send (with_target_bitrate t e) s
  = init_connect code scaled_bitrate join_send e s.
Proof. reflexivity. Qed.

Lemma try_connect_cached e s :
  0 <= peak_kbps s ->
  let s2 := snd (try_connect code e s) in
  peak_kbps s2 = peak_kbps s /\ params_peak_kbps s2 = params_peak_kbps s.
Proof.
  intros Hc. unfold try_connect.
  destruct (path_is_empty e); [split; reflexivity|].
  destruct (negb (ingest_connect e =? code FTL_SUCCESS)); [split; reflexivity|].
  destruct (Z.ltb_spec (peak_kbps s) 0) as [Hneg|_]; [lia|].
  unfold init_send. destruct (negb (send_thread_created e)); split; reflexivity.
Qed.

Lemma try_connect_probed e s :
  peak_kbps s < 0 -> path_is_empty e = false ->
  ingest_connect e = code FTL_SUCCESS -> speed_test e = code FTL_SUCCESS ->
  let s2 := snd (try_connect code e s) in
  peak_kbps s2 = speed_test_peak_kbps e /\
  params_peak_kbps s2 = speed_test_peak_kbps e.
Proof.
  intros Hneg Hp Hc Ht. unfold try_connect. rewrite Hp, Hc, Z.eqb_refl.
  cbn [negb]. destruct (Z.ltb_spec (peak_kbps s) 0) as [_|Hge]; [|lia].
  unfold set_peak_bitrate. rewrite Ht, Z.eqb_refl.
  unfold init_send. destruct (negb (send_thread_created e)); split; reflexivity.
Qed.

End ConnectFacts.

(** C6, as the code has it.  With a service present, [init_connect] leaves
    the cache [peak_kbps] as it finds it (after the join of a stopping send
    worker) and places into [params.peak_kbps] the value 0 when the cache
    is negative and the cached value otherwise; the outcome does not depend
    on the target bitrate or on its scaling by 1.1.  In [try_connect] a
    non-negative cache is left as it is and equals the parameter, and a
    negative one is replaced, in the stream and in the parameters, by the
    result of a successful speed test. *)
Theorem connect_peak_kbps (code : ftl_status_t -> Z) (scaled_bitrate : Z -> Z)
    (join_send : ftl_stream -> ftl_stream) (e : connect_env) (s : ftl_stream) :
  service_present e = true ->
  let s0 := if stopping s then join_send s else s in
  let s1 := snd (init_connect code scaled_bitrate join_send e s) in
  let s2 := snd (try_connect code e s1) in
  peak_kbps s1 = peak_kbps s0 /\
  params_peak_kbps s1 = (if peak_kbps s0 <? 0 then 0 else peak_kbps s0) /\
  (forall scaled' t,
     init_connect code scaled' join_send (with_target_bitrate t e) s
     = init_connect code scaled_bitrate join_send e s) /\
  (0 <= peak_kbps s1 ->
     peak_kbps s2 = peak_kbps s1 /\ params_peak_kbps s2 = peak_kbps s1) /\
  (peak_kbps s1 < 0 -> path_is_empty e = false ->
   ingest_connect e = code FTL_SUCCESS -> speed_test e = code FTL_SUCCESS ->
     peak_kbps s2 = speed_test_peak_kbps e /\
     params_peak_kbps s2 = speed_test_peak_kbps e).
Proof.
  intros Hs s0 s1 s2.
  destruct (init_connect_params code scaled_bitrate join_send e s Hs)
    as [Ek Hp].
  fold s0 s1 in Ek, Hp. repeat split.
  - exact Ek.
  - exact Hp.
  - apply (try_connect_cached code e s1 H).
  - destruct (try_connect_cached code e s1 H) as [_ E]. fold s2 in E.
    rewrite E, Hp, <- Ek.
    destruct (Z.ltb_spec (peak_kbps s1) 0); [lia | reflexivity].
  - now apply try_connect_probed.
  - now apply try_connect_probed.
Qed.

Lemma connect_peak_kbps_witness :
  let s0 := if stopping ftl_stream_create then id ftl_stream_create
            else ftl_stream_create in
  let s1 := snd (init_connect sample_code eleven_tenths id first_connect_env
                   ftl_stream_create) in
  let s2 := snd (try_connect sample_code first_connect_env s1) in
  peak_kbps s1 = peak_kbps s0 /\
  params_peak_kbps s1 = (if peak_kbps s0 <? 0 then 0 else peak_kbps s0) /\
  (forall scaled' t,
     init_connect sample_code scaled' id
       (with_target_bitrate t first_connect_env) ftl_stream_create
     = init_connect sample_code eleven_tenths id first_connect_env
         ftl_stream_create) /\
  (0 <= peak_kbps s1 ->
     peak_kbps s2 = peak_kbps s1 /\ params_peak_kbps s2 = peak_kbps s1) /\
  (peak_kbps s1 < 0 -> path_is_empty first_connect_env = false ->
   ingest_connect first_connect_env = sample_code FTL_SUCCESS ->
   speed_test first_connect_env = sample_code FTL_SUCCESS ->
     peak_kbps s2 = speed_test_peak_kbps first_connect_env /\
     params_peak_kbps s2 = speed_test_peak_kbps first_connect_env).
Proof.
  apply (connect_peak_kbps sample_code eleven_tenths id first_connect_env
           ftl_stream_create).
  reflexivity.
Defined.

(** C6, as stated, fails on the first connect of [first_connect_env]: the
    connect goes ahead, no value is cached, the target is 2500 kbps, and
    the parameters receive 0, which is neither 110% of the target (2750)
    nor at least the target. *)
Lemma init_connect_peak_not_110_percent :
  let r := init_connect sample_code eleven_tenths id first_connect_env
             ftl_stream_create in
  fst r = true /\
  peak_kbps ftl_stream_create < 0 /\
  params_peak_kbps (snd r) = 0 /\
  spec_default_peak (target_bitrate first_connect_env) = 2750 /\
  params_peak_kbps (snd r)
    <> spec_default_peak (target_bitrate first_connect_env) /\
  ~ target_bitrate first_connect_env <= params_peak_kbps (snd r).
Proof. vm_compute. repeat split; intros H; discriminate H || (apply H; reflexivity). Qed.

(** The stream after the first connect, and what a reconnect then places
    into the parameters: the probed 4000 kbps. *)
Example reconnect_reuses_probe :
  let s1 := snd (init_connect sample_code eleven_tenths id first_connect_env
                   ftl_stream_create) in
  let s2 := snd (try_connect sample_code first_connect_env s1) in
  let s3 := snd (init_connect sample_code eleven_tenths id first_connect_env s2) in
  peak_kbps s2 = 4000 /\ params_peak_kbps s3 = 4000.
Proof. vm_compute. tauto. Qed.

(** ** Status worker *)

Module StatusWorkerFacts.
Import StatusWorker.

Lemma inv_start : inv start.
Proof.
  constructor; cbn.
  - discriminate.
  - intros i r f H. now rewrite lookup_nil in H.
  - intros i H. now rewrite lookup_nil in H.
  - now left.
Qed.

Lemma lookup_snoc_inv {A} (l : list A) (x y : A) (i : nat) :
  (l ++ [x]) !! i = Some y ->
  l !! i = Some y \/ (i = length l /\ y = x).
Proof.
  intros H. destruct (Nat.lt_ge_cases i (length l)) as [Hlt|Hge].
  - left. now rewrite lookup_app_l in H.
  - right. rewrite lookup_app_r in H by exact Hge.
    destruct (i - length l)%nat eqn:E; cbn in H; [|discriminate H].
    inversion H. split; [lia | reflexivity].
Qed.

Lemma lookup_snoc_old {A} (l : list A) (x y : A) (i : nat) :
  l !! i = Some y -> (l ++ [x]) !! i = Some y.
Proof. intros H. rewrite lookup_app_l; [exact H | now apply lookup_lt_Some in H]. Qed.

Lemma after_reply_not_polling r : after_reply r <> in_get_status.
Proof. destruct r; discriminate. Qed.

Lemma inv_step w e : inv w -> inv (step w e).
Proof.
  intros [Hpoll Hh Hexit Honce]. destruct e as [|r].
  - (* another thread sets the flag *)
    constructor; cbn; try assumption.
    destruct Honce as [H0|(H1 & _ & Hpc)]; [now left | right; auto].
  - cbn. destruct (pc w) eqn:Epc.
    + (* the loop test *)
      constructor; cbn.
      * intros Hp. destruct (flag w); [discriminate|]. apply last_snoc.
      * intros i r' f H. apply lookup_snoc_inv in H as [H|[_ H]]; [|discriminate].
        destruct (Hh i r' f H) as (j & -> & Hj).
        exists j. split; [reflexivity | now apply lookup_snoc_old].
      * intros i H. apply lookup_snoc_inv in H as [H|[-> H]].
        -- destruct (Hexit i H) as [Hr _]. congruence.
        -- injection H as Hf. rewrite <- Hf.
           split; [reflexivity | rewrite length_app; cbn; lia].
      * rewrite List.filter_app, length_app. cbn.
        destruct Honce as [H0|(H1 & Hf & _)].
        -- left. lia.
        -- right. rewrite Hf. repeat split; [lia | discriminate].
    + (* ftl_ingest_get_status returns r *)
      constructor; cbn.
      * intros Hp. now apply after_reply_not_polling in Hp.
      * intros i r' f H. apply lookup_snoc_inv in H as [H|[-> _]].
        -- destruct (Hh i r' f H) as (j & -> & Hj).
           exists j. split; [reflexivity | now apply lookup_snoc_old].
        -- destruct (proj1 (last_Some _ _) (Hpoll eq_refl)) as [l' El].
           exists (length l'). rewrite El. split.
           ++ rewrite length_app. cbn. lia.
           ++ rewrite <- app_assoc. now apply list_lookup_middle.
      * intros i H. apply lookup_snoc_inv in H as [H|[_ H]]; [|discriminate].
        destruct (Hexit i H) as [Hr _]. congruence.
      * rewrite List.filter_app, length_app.
        destruct Honce as [H0|(_ & _ & Hpc)]; [|congruence].
        rewrite H0. cbn [List.filter].
        destruct (handled_after_set (handled r (flag w))) eqn:E; cbn.
        -- right. repeat split; [|apply after_reply_not_polling].
           destruct (flag w); [reflexivity|]. destruct r; discriminate.
        -- now left.
    + (* the worker has returned *)
      constructor; rewrite ?Epc; assumption.
Qed.

Lemma inv_run es : forall w, inv w -> inv (run w es).
Proof.
  induction es as [|e es IH]; intros w Hw; [exact Hw|].
  cbn. apply IH. now apply inv_step.
Qed.

End StatusWorkerFacts.

(** What every interleaving of the status worker with stores of [true]
    into [disconnected] has, whoever stores: a reply of
    [ftl_ingest_get_status] is handled only directly after a loop test that
    read [false]; a loop test that reads [true] is the last thing the worker
    does; and at most one message is handled while the flag is set. *)
Lemma status_thread_any_stores (es : list StatusWorker.event) :
  let tr := StatusWorker.trace (StatusWorker.run StatusWorker.start es) in
  (forall i r f, tr !! i = Some (StatusWorker.handled r f) ->
     exists j, i = S j /\ tr !! j = Some (StatusWorker.tested false)) /\
  (forall i, tr !! i = Some (StatusWorker.tested true) -> length tr = S i) /\
  (length (List.filter StatusWorker.handled_after_set tr) <= 1)%nat.
Proof.
  intros tr.
  destruct (StatusWorkerFacts.inv_run es _ StatusWorkerFacts.inv_start)
    as [_ Hh Hexit Honce].
  fold tr in Hh, Hexit, Honce. repeat split.
  - exact Hh.
  - intros i H. now destruct (Hexit i H).
  - destruct Honce as [->|[-> _]]; lia.
Qed.

(** A store of [true] that lands while the worker is inside
    [ftl_ingest_get_status] would not stop the handling of the message
    that call returns.  No statement of the program performs such a
    store: the two that store [true] are in branches of the send worker's
    loop that no run reaches. *)
Example status_thread_in_flight_message :
  StatusWorker.trace (StatusWorker.run StatusWorker.start
                        StatusWorker.in_flight_schedule)
  = [ StatusWorker.tested false;
      StatusWorker.handled StatusWorker.reply_log true ] /\
  ~ StatusWorker.never_handles_after_set StatusWorker.in_flight_schedule.
Proof.
  split; [reflexivity|].
  intros H.
  specialize (H (StatusWorker.handled StatusWorker.reply_log true)).
  cbn in H. discriminate H. right. left.
Qed.

(** ** NAL splitter and send path at concrete frames *)

(** Scenario S5: of five units the splitter keeps the IDR and the P slice,
    and the marker is on the P slice. *)
Example send_packet_filter_frame :
  exists s', send_packet ingest_echo ftl_stream_create filter_packet false 0
             = Ret (0, s') /\
    sent s' =
      [ {| call_kind := FTL_VIDEO_DATA; call_dts_usec := 0; call_data := 4;
           call_len := 1; call_marker := 0 |};
        {| call_kind := FTL_VIDEO_DATA; call_dts_usec := 0; call_data := 24;
           call_len := 2; call_marker := 1 |} ] /\
    frames_sent s' = 1 /\ total_bytes_sent s' = 3.
Proof. eexists. split; [vm_compute; reflexivity|]. vm_compute. tauto. Qed.

(** A frame of exactly 100 units fits: 100 calls, the marker on the last. *)
Example send_packet_full_frame :
  exists s', send_packet ingest_echo ftl_stream_create full_packet false 0
             = Ret (0, s') /\
    map call_marker (sent s') = replicate 99 0 ++ [1] /\
    frames_sent s' = 1.
Proof. eexists. split; [vm_compute; reflexivity|]. vm_compute. tauto. Qed.

(** C5 at a frame of 101 units: the splitter reports the overflow by
    returning -1, and [send_packet], which does not look at that result,
    hands the first 100 units to the ingest; the queue is not touched. *)
Theorem send_packet_overflow_sends_partial_unit :
  (exists s1, avc_get_video_frame ftl_stream_create overflow_packet false 0
              = Ret (-1, s1) /\
     log s1 = [warn_nalu_buffers_full]) /\
  (exists s', send_packet ingest_echo ftl_stream_create overflow_packet false 0
              = Ret (0, s') /\
     length (sent s') = 100%nat /\
     Forall (fun c => call_kind c = FTL_VIDEO_DATA /\ call_len c = 1) (sent s') /\
     packets s' = packets ftl_stream_create /\
     freed s' = [overflow_packet]).
Proof.
  split.
  - eexists. split; [vm_compute; reflexivity | reflexivity].
  - eexists. split; [vm_compute; reflexivity|].
    split; [reflexivity|]. split; [|split; reflexivity].
    cbn [sent]. repeat (constructor; [split; reflexivity|]). constructor.
Qed.

(** C2 at the same frame: 100 units reach the ingest and none of them
    carries the marker; no frame is counted. *)
Theorem send_packet_overflow_no_marker :
  exists s', send_packet ingest_echo ftl_stream_create overflow_packet false 0
             = Ret (0, s') /\
    sent s' <> [] /\
    (forall c, c ∈ sent s' -> call_marker c = 0) /\
    frames_sent s' = 0.
Proof.
  eexists. split; [vm_compute; reflexivity|].
  split; [discriminate|]. split; [|reflexivity].
  apply Forall_forall. cbn [sent].
  repeat (constructor; [reflexivity|]). constructor.
Qed.

(** C4 at a unit that advertises 10 bytes with one byte left: the splitter
    logs the overrun and emits the unit with the advertised length, so that
    the slice handed to the ingest ends 9 bytes after the payload; and at a
    frame that ends after the length prefix the splitter itself reads the
    byte after the payload. *)
Theorem send_packet_overrun_slice_past_end :
  (exists s', send_packet ingest_echo ftl_stream_create overrun_packet false 0
              = Ret (0, s') /\
     log s' = [warn_len_overrun 10 5] /\
     sent s' = [ {| call_kind := FTL_VIDEO_DATA; call_dts_usec := 0;
                    call_data := 4; call_len := 10; call_marker := 1 |} ] /\
     size overrun_packet = 5 /\
     Exists (fun c => size overrun_packet < call_data c + call_len c) (sent s')) /\
  avc_get_video_frame ftl_stream_create truncated_packet false 0
  = Fault (PayloadOutOfBounds 4).
Proof.
  split; [|reflexivity].
  eexists. split; [vm_compute; reflexivity|].
  repeat split. cbn [sent]. left. reflexivity.
Qed.

(** A length prefix with the top bit set makes [video_stream[0] << 24]
    leave the range of [int]. *)
Example avc_get_video_frame_length_sign_bit :
  avc_get_video_frame ftl_stream_create sign_bit_packet false 0
  = Fault SignedOverflow.
Proof. reflexivity. Qed.

(** C9 at a frame whose only unit is filtered out: [total] is 0 after the
    loop and the marker is written to [nalus[-1]]. *)
Theorem avc_get_video_frame_marker_write_out_of_bounds :
  (exists s1, avc_loop (length (data sei_only_packet)) (data sei_only_packet)
                false 0 0 ftl_stream_create = Ret (None, s1) /\
     total (coded_pic_buffer s1) = 0) /\
  avc_get_video_frame ftl_stream_create sei_only_packet false 0
  = Fault (NalusOutOfBounds (-1)) /\
  send_packet ingest_echo ftl_stream_create sei_only_packet false 0
  = Fault (NalusOutOfBounds (-1)).
Proof.
  split; [eexists; split; [vm_compute; reflexivity | reflexivity]|].
  split; reflexivity.
Qed.

(** ** The splitter's loop ends, and what it leaves alone *)

Lemma finishes_Ret {A} (a : A) : finishes (Ret a).
Proof. discriminate. Qed.

Lemma finishes_bind {A B} (m : result A) (k : A -> result B) :
  finishes m -> (forall a, m = Ret a -> finishes (k a)) -> finishes (bind m k).
Proof.
  intros Hm Hk. destruct m as [a|f]; cbn; [now apply Hk|].
  intros E. apply Hm. now inversion E.
Qed.

Lemma int_val_finishes z : finishes (int_val z).
Proof. unfold int_val. destruct (_ && _); discriminate. Qed.

Lemma int64_val_finishes z : finishes (int64_val z).
Proof. unfold int64_val. destruct (_ && _); discriminate. Qed.

Lemma byte_at_finishes d off : finishes (byte_at d off).
Proof.
  unfold byte_at. destruct (off <? 0); [discriminate|].
  destruct (d !! Z.to_nat off); discriminate.
Qed.

Lemma byte_at_range d off b : byte_at d off = Ret b -> 0 <= b < 256.
Proof.
  unfold byte_at. destruct (off <? 0); [discriminate|].
  destruct (d !! Z.to_nat off) as [x|]; [|discriminate].
  intros H. inversion H. unfold byte_val.
  pose proof (Byte.to_N_bounded x). lia.
Qed.

Lemma nalus_store_finishes idx f b : finishes (nalus_store idx f b).
Proof.
  unfold nalus_store. destruct (_ && _); [|discriminate].
  destruct (nalus b !! Z.to_nat idx); discriminate.
Qed.

Create HintDb finishes.
#[local] Hint Resolve finishes_Ret int_val_finishes int64_val_finishes
  byte_at_finishes nalus_store_finishes : finishes.

Tactic Notation "bind_inv" hyp(H) "as" ident(a) ident(Ha) :=
  apply bind_Ret_inv in H as (a & Ha & H).

Lemma touches_refl s : touches_buffer_and_log s s.
Proof. exists (coded_pic_buffer s), (log s). now destruct s. Qed.

Lemma touches_trans s1 s2 s3 :
  touches_buffer_and_log s1 s2 -> touches_buffer_and_log s2 s3 ->
  touches_buffer_and_log s1 s3.
Proof. intros (b & l & ->) (b' & l' & ->). now exists b', l'. Qed.

Lemma touches_set_buffer b s : touches_buffer_and_log s (set_coded_pic_buffer b s).
Proof. exists b, (log s). now destruct s. Qed.

Lemma touches_add_log e s : touches_buffer_and_log s (add_log e s).
Proof. exists (coded_pic_buffer s), (log s ++ [e]). now destruct s. Qed.

Lemma read_length_finishes d h c vs s : finishes (read_length d h c vs s).
Proof.
  unfold read_length. destruct h;
    repeat (apply finishes_bind; [auto with finishes | intros ? _]);
    auto with finishes.
Qed.

Lemma read_length_inv d h c vs s len c' vs' s' :
  0 <= c ->
  read_length d h c vs s = Ret (len, c', vs', s') ->
  0 <= len /\ c + 3 <= c' /\ c' <= INT_MAX /\
  touches_buffer_and_log s s' /\
  coded_pic_buffer s' = coded_pic_buffer s.
Proof.
  intros Hc H. unfold read_length in H. destruct h.
  - bind_inv H as c1 Hc1. apply int_val_Ret in Hc1 as [-> [_ Hmax]].
    bind_inv H as b0 Hb0. apply byte_at_range in Hb0.
    bind_inv H as b1 Hb1. apply byte_at_range in Hb1.
    bind_inv H as c2 Hc2. apply int_val_Ret in Hc2 as [-> [_ Hmax']].
    inversion H; subst. repeat split; try reflexivity.
    + apply Z.lor_nonneg. split; [apply Z.shiftl_nonneg|]; lia.
    + destruct (c =? 0); lia.
    + exact Hmax'.
    + apply touches_refl.
  - bind_inv H as b0 Hb0. apply byte_at_range in Hb0.
    bind_inv H as b1 Hb1. apply byte_at_range in Hb1.
    bind_inv H as b2 Hb2. apply byte_at_range in Hb2.
    bind_inv H as b3 Hb3. apply byte_at_range in Hb3.
    bind_inv H as hi Hhi. apply int_val_Ret in Hhi as [-> _].
    bind_inv H as c1 Hc1. apply int_val_Ret in Hc1 as [-> [_ Hmax]].
    inversion H; subst. repeat split; try lia.
    + repeat (apply Z.lor_nonneg; split); try apply Z.shiftl_nonneg; lia.
    + destruct (_ >? _); [apply touches_add_log | apply touches_refl].
    + destruct (_ >? _); reflexivity.
Qed.

Lemma nalus_store_inv idx f b b' :
  nalus_store idx f b = Ret b' ->
  0 <= idx < 100 /\ total b' = total b /\
  exists n, nalus b !! Z.to_nat idx = Some n /\
            nalus b' = <[Z.to_nat idx := f n]> (nalus b).
Proof.
  unfold nalus_store, NALUS_CAPACITY.
  destruct (Z.leb_spec 0 idx) as [Hlo|]; [|discriminate].
  destruct (Z.ltb_spec idx 100) as [Hhi|]; [|discriminate]. cbn.
  destruct (nalus b !! Z.to_nat idx) as [n|] eqn:E; [|discriminate].
  intros H. inversion H. cbn. split; [lia|]. split; [reflexivity|].
  exists n. split; reflexivity.
Qed.

Lemma markers_clear_push b b' vs len :
  markers_clear b ->
  nalus_store (total b) (fill_nalu vs len) b = Ret b' ->
  markers_clear (set_total (total b + 1) b').
Proof.
  intros (Hlen & Htot & Hm) H.
  apply nalus_store_inv in H as (Hidx & Et & n & Hn & En).
  unfold markers_clear. cbn. rewrite En, length_insert.
  split; [exact Hlen|]. split; [lia|].
  intros i m Hi Hl.
  destruct (decide (i = Z.to_nat (total b))) as [->|Hne].
  - rewrite list_lookup_insert_eq in Hl by lia. now inversion Hl.
  - rewrite list_lookup_insert_ne in Hl by congruence.
    apply (Hm i m); [lia | exact Hl].
Qed.

(** One turn of the loop: [consumed] grows by three or more, only the
    buffer and the log change, and the counted entries stay clear of the
    marker. *)
Lemma avc_turn_inv d h c vs s c' vs' s' :
  0 <= c ->
  avc_turn d h c vs s = Ret (c', vs', s') ->
  c + 3 <= c' <= INT_MAX /\
  touches_buffer_and_log s s' /\
  (markers_clear (coded_pic_buffer s) -> markers_clear (coded_pic_buffer s')).
Proof.
  intros Hc H. unfold avc_turn in H.
  bind_inv H as r Hr. destruct r as [[[len c1] vs1] s1].
  apply read_length_inv in Hr as (Hlen & Hc1 & _ & T1 & Eb); [|exact Hc].
  bind_inv H as c2 Hc2. apply int_val_Ret in Hc2 as [-> [_ Hmax]].
  bind_inv H as fb Hfb.
  bind_inv H as s2 Hs2. inversion H; subst. clear H.
  split; [lia|].
  destruct (nal_passes fb).
  - bind_inv Hs2 as b Hb. bind_inv Hs2 as n Hn.
    apply int_val_Ret in Hn as [-> _]. inversion Hs2; subst. clear Hs2.
    split.
    + eapply touches_trans; [exact T1 | apply touches_set_buffer].
    + intros Hm. cbn. rewrite Eb in Hb.
      pose proof (nalus_store_inv _ _ _ _ Hb) as (_ & Et & _).
      rewrite Et. now apply (markers_clear_push _ _ vs1 len).
  - inversion Hs2; subst. split; [exact T1|]. now rewrite Eb.
Qed.

Lemma avc_turn_finishes d h c vs s : finishes (avc_turn d h c vs s).
Proof.
  unfold avc_turn.
  apply finishes_bind; [apply read_length_finishes|].
  intros [[[len c1] vs1] s1] _.
  apply finishes_bind; [auto with finishes | intros c2 _].
  apply finishes_bind; [auto with finishes | intros fb _].
  apply finishes_bind; [|intros; auto with finishes].
  destruct (nal_passes fb); [|auto with finishes].
  apply finishes_bind; [auto with finishes | intros b _].
  apply finishes_bind; [auto with finishes | intros n _].
  auto with finishes.
Qed.

Section LoopFacts.

Variable d : list byte.
Variable h : bool.

(** [packet->size] turns are enough: the loop of the model never stops for
    want of fuel. *)
Lemma avc_loop_finishes fuel : forall c vs s,
  0 <= c <= INT_MAX ->
  Z.of_nat (length d) - c <= Z.of_nat fuel ->
  finishes (avc_loop fuel d h c vs s).
Proof.
  induction fuel as [|fuel IH]; intros c vs s Hc Hf; cbn [avc_loop];
    rewrite to_size_t_small by (unfold INT_MAX in Hc; lia);
    destruct (Z.ltb_spec c (Z.of_nat (length d))) as [Hlt|Hge];
    try apply finishes_Ret.
  - lia.
  - destruct (_ <=? _); [apply finishes_Ret|].
    apply finishes_bind; [apply avc_turn_finishes|].
    intros [[c' vs'] s'] Ht.
    apply avc_turn_inv in Ht as (Hc' & _); [|lia].
    apply IH; lia.
Qed.

(** What the loop leaves behind. *)
Lemma avc_loop_inv fuel : forall c vs s r s',
  0 <= c ->
  avc_loop fuel d h c vs s = Ret (r, s') ->
  touches_buffer_and_log s s' /\
  (r = None \/ r = Some (-1)) /\
  (markers_clear (coded_pic_buffer s) -> markers_clear (coded_pic_buffer s')).
Proof.
  induction fuel as [|fuel IH]; intros c vs s r s' Hc H; cbn [avc_loop] in H;
    destruct (_ <? _).
  - discriminate.
  - inversion H; subst. split; [apply touches_refl|]. split; [now left | tauto].
  - destruct (_ <=? _).
    + inversion H; subst. split; [apply touches_add_log|].
      split; [now right | tauto].
    + bind_inv H as t Ht. destruct t as [[c' vs'] s1].
      apply avc_turn_inv in Ht as (Hc' & T1 & M1); [|exact Hc].
      apply IH in H as (T2 & Hr & M2); [|lia].
      split; [eapply touches_trans; eassumption|]. split; [exact Hr | tauto].
  - inversion H; subst. split; [apply touches_refl|]. split; [now left | tauto].
Qed.

End LoopFacts.

Lemma leaves_refl s : leaves_queue_and_flags s s.
Proof. repeat split. Qed.

Lemma leaves_trans s1 s2 s3 :
  leaves_queue_and_flags s1 s2 -> leaves_queue_and_flags s2 s3 ->
  leaves_queue_and_flags s1 s3.
Proof.
  unfold leaves_queue_and_flags.
  intros (A1 & A2 & A3 & A4 & A5 & A6 & A7 & A8)
         (B1 & B2 & B3 & B4 & B5 & B6 & B7 & B8).
  repeat split; congruence.
Qed.

Lemma touches_leaves s s' :
  touches_buffer_and_log s s' -> leaves_queue_and_flags s s'.
Proof. intros (b & l & ->). repeat split. Qed.

(** ** [avc_get_video_frame] *)

Lemma avc_get_video_frame_finishes s p h idx :
  finishes (avc_get_video_frame s p h idx).
Proof.
  unfold avc_get_video_frame.
  apply finishes_bind.
  - apply avc_loop_finishes; [unfold INT_MAX; lia | lia].
  - intros [[code|] s1] _; [apply finishes_Ret|].
    destruct (negb h); [|apply finishes_Ret].
    apply finishes_bind; [auto with finishes | intros last _].
    apply finishes_bind; [auto with finishes | intros b _].
    apply finishes_Ret.
Qed.

(** What [avc_get_video_frame] returns and leaves in the array, from an
    array whose counted entries are clear: -1 and clear entries when the
    array was full; 0 and clear entries for a header; 0 and the marker on
    the last counted entry for a frame. *)
Lemma avc_get_video_frame_inv s p h idx code s' :
  avc_get_video_frame s p h idx = Ret (code, s') ->
  touches_buffer_and_log s s' /\
  (markers_clear (coded_pic_buffer s) ->
     (code = -1 /\ markers_clear (coded_pic_buffer s')) \/
     (code = 0 /\ h = true /\ markers_clear (coded_pic_buffer s')) \/
     (code = 0 /\ h = false /\ marker_on_last (coded_pic_buffer s'))).
Proof.
  intros H. unfold avc_get_video_frame in H.
  bind_inv H as r Hr. destruct r as [r s1].
  apply avc_loop_inv in Hr as (T1 & Hcode & M1); [|lia].
  destruct Hcode as [->| ->].
  - destruct h; cbn [negb] in H.
    + inversion H; subst. split; [exact T1|]. intros Hm. right. left. auto.
    + bind_inv H as last Hlast. apply int_val_Ret in Hlast as [-> _].
      bind_inv H as b Hb. inversion H; subst. clear H.
      split; [eapply touches_trans; [exact T1 | apply touches_set_buffer]|].
      intros Hm. right. right. split; [reflexivity|]. split; [reflexivity|].
      destruct (M1 Hm) as (Hlen & Htot & Hclear).
      apply nalus_store_inv in Hb as (Hidx & Et & n & Hn & En).
      unfold marker_on_last. cbn. rewrite En, length_insert, Et.
      split; [exact Hlen|]. split; [lia|]. split.
      * intros i m Hi Hl. rewrite list_lookup_insert_ne in Hl by lia.
        apply (Hclear i m); [lia | exact Hl].
      * exists (set_marker 1 n). split; [|reflexivity].
        apply list_lookup_insert_eq. lia.
  - inversion H; subst. split; [exact T1|]. intros Hm. left. auto.
Qed.

(** ** [send_packet] *)

Section SendFacts.

Variable ingest : list media_call -> media_call -> Z.

Lemma send_nalus_finishes p n : forall i bytes s,
  finishes (send_nalus ingest n i p bytes s).
Proof.
  induction n as [|n IH]; intros i bytes s; cbn [send_nalus];
    [apply finishes_Ret|].
  destruct (nalus (coded_pic_buffer s) !! Z.to_nat i); [|discriminate].
  cbn [send_media].
  apply finishes_bind; [auto with finishes | intros b _].
  apply finishes_bind; [|intros; apply IH].
  destruct (negb _); [|auto with finishes].
  apply finishes_bind; [auto with finishes | intros; auto with finishes].
Qed.

(** The loop over the array makes one call per counted entry, in order,
    and leaves the array, the queue and the flags alone. *)
Lemma send_nalus_inv p n : forall i bytes s bytes' s',
  0 <= i ->
  send_nalus ingest n i p bytes s = Ret (bytes', s') ->
  sent s' = sent s ++ map (video_call p)
                        (take n (drop (Z.to_nat i) (nalus (coded_pic_buffer s)))) /\
  coded_pic_buffer s' = coded_pic_buffer s /\
  log s' = log s /\
  leaves_queue_and_flags s s'.
Proof.
  induction n as [|n IH]; intros i bytes s bytes' s' Hi H; cbn [send_nalus] in H.
  - inversion H; subst. rewrite take_0, app_nil_r.
    repeat split.
  - destruct (nalus (coded_pic_buffer s) !! Z.to_nat i) as [nalu|] eqn:E;
      [|discriminate].
    cbn [send_media] in H.
    bind_inv H as b Hb. bind_inv H as s1 Hs1.
    apply IH in H as (Hsent & Hbuf & Hlog & Hleave); [|lia].
    assert (Hs : exists fs, s1 = set_frames_sent fs
                   (set_sent (sent s ++ [video_call p nalu]) s)).
    { destruct (negb _).
      - bind_inv Hs1 as fs Hfs. inversion Hs1. now exists fs.
      - inversion Hs1. exists (frames_sent s). now destruct s. }
    destruct Hs as [fs ->]. cbn in Hsent, Hbuf, Hlog.
    rewrite (drop_S _ _ _ E). cbn [take map].
    replace (Z.to_nat (i + 1)) with (S (Z.to_nat i)) in Hsent by lia.
    rewrite Hsent, <- app_assoc. repeat split; try assumption.
    all: destruct Hleave as (A1 & A2 & A3 & A4 & A5 & A6 & A7 & A8); assumption.
Qed.

Lemma send_packet_finishes s p h idx :
  finishes (send_packet ingest s p h idx).
Proof.
  unfold send_packet.
  apply finishes_bind; [|intros [b s1] _; apply finishes_Ret].
  destruct (bool_decide (type p = OBS_ENCODER_VIDEO)).
  - apply finishes_bind; [apply avc_get_video_frame_finishes|].
    intros parsed _. apply send_nalus_finishes.
  - destruct (bool_decide (type p = OBS_ENCODER_AUDIO)); [|apply finishes_Ret].
    cbn [send_media]. apply finishes_bind; auto with finishes.
Qed.

(** [send_packet], when it returns, returns 0, has appended the packet to
    the freed ones, and has left the queue and the flags alone. *)
Lemma send_packet_inv s p h idx ret s' :
  send_packet ingest s p h idx = Ret (ret, s') ->
  ret = 0 /\ freed s' = freed s ++ [p] /\
  packets s' = packets s /\ disconnected s' = disconnected s.
Proof.
  intros H. unfold send_packet in H.
  bind_inv H as r Hr. destruct r as [bytes s1]. inversion H; subst. clear H.
  assert (L : leaves_queue_and_flags s s1).
  { destruct (bool_decide (type p = OBS_ENCODER_VIDEO)).
    - bind_inv Hr as parsed Hp. destruct parsed as [code s0].
      apply avc_get_video_frame_inv in Hp as (T & _).
      apply send_nalus_inv in Hr as (_ & _ & _ & L); [|lia].
      eapply leaves_trans; [|exact L].
      apply touches_leaves in T. cbn in T. exact T.
    - destruct (bool_decide (type p = OBS_ENCODER_AUDIO)).
      + cbn [send_media] in Hr. bind_inv Hr as b Hb. inversion Hr; subst.
        repeat split.
      + inversion Hr; subst. repeat split. }
  destruct L as (A1 & A2 & A3 & _).
  cbn. rewrite A1, A2, A3. repeat split.
Qed.

End SendFacts.

Section SendThreadFacts.

Variable ingest : list media_call -> media_call -> Z.

Lemma send_headers_finishes s dts header :
  finishes (send_headers ingest s dts header).
Proof.
  unfold send_headers, send_video_header.
  apply finishes_bind.
  - apply finishes_bind; [apply send_packet_finishes | intros; apply finishes_Ret].
  - intros r _. destruct (negb (fst r)); apply finishes_Ret.
Qed.

(** [send_headers], when it returns, returns [true]. *)
Lemma send_headers_inv s dts header ok s' :
  send_headers ingest s dts header = Ret (ok, s') ->
  ok = true /\ disconnected s' = disconnected s.
Proof.
  intros H. unfold send_headers, send_video_header in H.
  bind_inv H as r Hr. bind_inv Hr as r0 Hr0. destruct r0 as [ret s0].
  apply send_packet_inv in Hr0 as (-> & _ & _ & Hd).
  inversion Hr; subst. cbn in H. inversion H; subst.
  split; [reflexivity | exact Hd].
Qed.

Lemma send_thread_turn_finishes s header :
  finishes (send_thread_turn ingest s header).
Proof.
  unfold send_thread_turn.
  destruct (_ && _); [apply finishes_Ret|].
  destruct (get_next_packet s) as [[packet|] s1]; [|apply finishes_Ret].
  destruct (_ && _); [apply finishes_Ret|].
  apply finishes_bind.
  - destruct (keyframe packet); [apply send_headers_finishes | apply finishes_Ret].
  - intros hd _. destruct (negb (fst hd)); [apply finishes_Ret|].
    apply finishes_bind; [apply send_packet_finishes|].
    intros r _. destruct (fst r <? 0); apply finishes_Ret.
Qed.

(** A turn of the send worker's loop never ends in one of the two
    branches that set [disconnected], and leaves the flag as it was. *)
Lemma send_thread_turn_inv s header how s' :
  send_thread_turn ingest s header = Ret (how, s') ->
  how <> break_headers_failed /\ how <> break_send_failed /\
  disconnected s' = disconnected s.
Proof.
  intros H. unfold send_thread_turn in H.
  destruct (_ && _); [inversion H; subst; repeat split; discriminate|].
  unfold get_next_packet in H.
  destruct (packets s) as [|packet q];
    [inversion H; subst; repeat split; discriminate|].
  destruct (_ && _); [inversion H; subst; repeat split; discriminate|].
  bind_inv H as hd Hhd. destruct hd as [ok s1].
  assert (Hok : ok = true /\ disconnected s1 = disconnected s).
  { destruct (keyframe packet).
    - apply send_headers_inv in Hhd as [-> Hd]. split; [reflexivity | exact Hd].
    - inversion Hhd; subst. split; reflexivity. }
  destruct Hok as [-> Hd1]. cbn [fst snd negb] in H.
  bind_inv H as r Hr. destruct r as [ret s2].
  apply send_packet_inv in Hr as (-> & _ & _ & Hd2).
  cbn in H. inversion H; subst.
  repeat split; try discriminate. congruence.
Qed.

End SendThreadFacts.

(** An audio packet is sent with one call and [send_packet] returns 0. *)
Lemma send_packet_audio_returns
    (ingest : list media_call -> media_call -> Z) (s : ftl_stream)
    (packet : encoder_packet) (is_header : bool) (idx : Z) :
  type packet = OBS_ENCODER_AUDIO ->
  exists s', send_packet ingest s packet is_header idx = Ret (0, s') /\
    sent s' = sent s ++ [ {| call_kind := FTL_AUDIO_DATA;
                             call_dts_usec := dts_usec packet;
                             call_data := 0; call_len := size packet;
                             call_marker := 0 |} ].
Proof.
  intros Ht. unfold send_packet. rewrite Ht.
  rewrite bool_decide_eq_false_2 by discriminate.
  rewrite bool_decide_eq_true_2 by reflexivity. cbn [send_media].
  rewrite int_val_in by (rewrite Z.add_0_l; apply to_int_in).
  cbn. eexists. split; reflexivity.
Qed.

(** A keyframe with two units goes through a turn of the loop: the header
    is sent first without marker, then the frame, and the loop goes on
    although the ingest reports -1 for every call. *)
Example send_thread_turn_ignores_ingest_errors :
  let s := set_packets [video_packet (one_idr ++ one_idr) 7 true 3]
             ftl_stream_create in
  let header := [x01; x64; x00; x1f; xff; xe1; x00; x02; x67; x64;
                 x01; x00; x01; x68] in
  exists s', send_thread_turn (fun _ _ => -1) s header = Ret (loop_continue, s') /\
    map call_marker (sent s') = [0; 0; 0; 1] /\
    disconnected s' = false /\ sent_headers s' = true.
Proof. eexists. split; [vm_compute; reflexivity|]. vm_compute. tauto. Qed.

(** ** Markers on the calls of one video packet *)

Lemma take_markers_clear b :
  markers_clear b ->
  Forall (fun n => send_marker_bit n = 0) (take (Z.to_nat (total b)) (nalus b)).
Proof.
  intros (_ & _ & Hm). apply Forall_lookup. intros i n Hi.
  apply lookup_take_Some in Hi as [Hl Hlt]. now apply (Hm i n).
Qed.

Lemma take_marker_on_last b :
  marker_on_last b ->
  exists pre n, take (Z.to_nat (total b)) (nalus b) = pre ++ [n] /\
    Forall (fun n => send_marker_bit n = 0) pre /\ send_marker_bit n = 1.
Proof.
  intros (_ & Ht & Hm & n & Hn & H1).
  exists (take (Z.to_nat (total b - 1)) (nalus b)), n.
  split; [|split; [|exact H1]].
  - replace (Z.to_nat (total b)) with (S (Z.to_nat (total b - 1))) by lia.
    now apply take_S_r.
  - apply Forall_lookup. intros i m Hi.
    apply lookup_take_Some in Hi as [Hl Hlt]. now apply (Hm i m).
Qed.

(** X25. For a video packet from which at least one unit was emitted
    (one call at least was made), on a stream whose array has its 100
    entries: the calls of [send_packet] carry no marker when the packet is
    a header or when the splitter returned -1, and otherwise the last call
    carries the marker and no other does. *)
Lemma send_packet_video_markers
    (ingest : list media_call -> media_call -> Z) (s : ftl_stream)
    (p : encoder_packet) (h : bool) (idx : Z) (ret : Z) (s' : ftl_stream)
    (calls : list media_call) :
  length (nalus (coded_pic_buffer s)) = 100%nat ->
  type p = OBS_ENCODER_VIDEO ->
  send_packet ingest s p h idx = Ret (ret, s') ->
  sent s' = sent s ++ calls ->
  calls <> [] ->
  exists code s1,
    avc_get_video_frame
      (set_coded_pic_buffer (set_total 0 (coded_pic_buffer s)) s) p h idx
    = Ret (code, s1) /\
    ((code = -1 \/ h = true) /\
       Forall (fun c => call_marker c = 0) calls \/
     (code = 0 /\ h = false) /\
       exists pre c, calls = pre ++ [c] /\
         Forall (fun c => call_marker c = 0) pre /\ call_marker c = 1).
Proof.
  intros Hlen Ht H Hcalls _. unfold send_packet in H. rewrite Ht in H.
  rewrite bool_decide_eq_true_2 in H by reflexivity.
  bind_inv H as r Hr. destruct r as [bytes s2]. inversion H; subst. clear H.
  bind_inv Hr as parsed Hp. destruct parsed as [code s1]. cbn [snd] in Hr.
  exists code, s1.
  split; [exact Hp|].
  apply send_nalus_inv in Hr as (Hsent & _); [|lia].
  rewrite drop_0 in Hsent.
  apply avc_get_video_frame_inv in Hp as (T & Hcases).
  assert (Es : sent s1 = sent s) by (destruct T as (b & l & ->); reflexivity).
  assert (Ec : calls = map (video_call p)
                         (take (Z.to_nat (total (coded_pic_buffer s1)))
                            (nalus (coded_pic_buffer s1)))).
  { cbn in Hcalls. rewrite Hsent, Es in Hcalls.
    now apply app_inv_head in Hcalls. }
  subst calls.
  assert (M0 : markers_clear
                 (coded_pic_buffer
                    (set_coded_pic_buffer (set_total 0 (coded_pic_buffer s)) s))).
  { cbn. split; [exact Hlen|]. split; [cbn; lia|]. intros i n Hi. cbn in Hi. lia. }
  destruct (Hcases M0) as [[-> Hm]|[(-> & -> & Hm)|(-> & -> & Hm)]].
  - left. split; [now left|]. apply Forall_fmap.
    now apply take_markers_clear.
  - left. split; [now right|]. apply Forall_fmap.
    now apply take_markers_clear.
  - right. split; [split; reflexivity|].
    destruct (take_marker_on_last _ Hm) as (pre & n & -> & Hpre & H1).
    exists (map (video_call p) pre), (video_call p n).
    rewrite map_app. split; [reflexivity|]. split; [|exact H1].
    now apply Forall_fmap.
Qed.

(** ** Well-formed AVCC frames *)

Lemma byte_val_of_Z z : 0 <= z < 256 -> byte_val (byte_of_Z z) = z.
Proof.
  intros Hz. unfold byte_val, byte_of_Z.
  destruct (Byte.of_N (Z.to_N z)) as [b|] eqn:E.
  - apply Byte.to_of_N in E. rewrite E. lia.
  - apply Byte.of_N_None_iff in E. lia.
Qed.

Lemma land_255_range z : 0 <= Z.land z 255 < 256.
Proof.
  change 255 with (Z.ones 8). rewrite Z.land_ones by lia.
  apply Z.mod_pos_bound. lia.
Qed.

Lemma shiftr_24_range n : 0 <= n < 2 ^ 31 -> 0 <= Z.shiftr n 24 < 128.
Proof.
  intros Hn. rewrite Z.shiftr_div_pow2 by lia. split.
  - apply Z.div_pos; lia.
  - apply Z.div_lt_upper_bound; lia.
Qed.

(** Four bytes, most significant first, read back with shifts and ors. *)
Lemma decode_be32 n :
  0 <= n < 2 ^ 31 ->
  Z.lor (Z.lor (Z.lor (Z.shiftl (Z.shiftr n 24) 24)
                      (Z.shiftl (Z.land (Z.shiftr n 16) 255) 16))
               (Z.shiftl (Z.land (Z.shiftr n 8) 255) 8))
        (Z.land n 255) = n.
Proof.
  intros Hn. apply Z.bits_inj'. intros i Hi.
  rewrite !Z.lor_spec, !Z.shiftl_spec by lia.
  change 255 with (Z.ones 8).
  destruct (Z.lt_ge_cases i 8) as [H8|H8].
  - rewrite (Z.testbit_neg_r _ (i - 24)), (Z.testbit_neg_r _ (i - 16)),
      (Z.testbit_neg_r _ (i - 8)) by lia.
    rewrite Z.land_spec, Z.ones_spec_low by lia. cbn. now rewrite andb_true_r.
  - rewrite (Z.land_spec n), (Z.ones_spec_high 8 i), andb_false_r,
      orb_false_r by lia.
    destruct (Z.lt_ge_cases i 16) as [H16|H16].
    + rewrite (Z.testbit_neg_r _ (i - 24)), (Z.testbit_neg_r _ (i - 16)) by lia.
      rewrite Z.land_spec, Z.shiftr_spec, Z.ones_spec_low by lia. cbn.
      rewrite andb_true_r. f_equal. lia.
    + rewrite (Z.land_spec _ _ (i - 8)), (Z.ones_spec_high 8 (i - 8)),
        andb_false_r, orb_false_r by lia.
      destruct (Z.lt_ge_cases i 24) as [H24|H24].
      * rewrite (Z.testbit_neg_r _ (i - 24)) by lia.
        rewrite Z.land_spec, Z.shiftr_spec, Z.ones_spec_low by lia. cbn.
        rewrite andb_true_r. f_equal. lia.
      * rewrite (Z.land_spec _ _ (i - 16)), (Z.ones_spec_high 8 (i - 16)),
          andb_false_r, orb_false_r by lia.
        rewrite Z.shiftr_spec by lia. f_equal. lia.
Qed.

Lemma byte_at_app pre suf k b :
  0 <= k -> suf !! Z.to_nat k = Some b ->
  byte_at (pre ++ suf) (Z.of_nat (length pre) + k) = Ret (byte_val b).
Proof.
  intros Hk Hb. unfold byte_at.
  destruct (Z.ltb_spec (Z.of_nat (length pre) + k) 0); [lia|].
  rewrite lookup_app_r by lia.
  replace (Z.to_nat (Z.of_nat (length pre) + k) - length pre)%nat
    with (Z.to_nat k) by lia.
  now rewrite Hb.
Qed.

Lemma length_avcc_unit u :
  Z.of_nat (length (avcc_unit u)) = 4 + Z.of_nat (length u).
Proof. unfold avcc_unit. rewrite length_app. cbn. lia. Qed.

(** The length prefix of a well-formed unit is read back as the length of
    the unit, without a warning. *)
Lemma read_length_avcc pre u rest s :
  Z.of_nat (length (pre ++ avcc_unit u ++ rest)) <= INT_MAX ->
  read_length (pre ++ avcc_unit u ++ rest) false
    (Z.of_nat (length pre)) (Z.of_nat (length pre)) s
  = Ret (Z.of_nat (length u), Z.of_nat (length pre) + 4,
         Z.of_nat (length pre) + 4, s).
Proof.
  intros Hmax.
  assert (Hlen : Z.of_nat (length (pre ++ avcc_unit u ++ rest))
                 = Z.of_nat (length pre) + 4 + Z.of_nat (length u)
                   + Z.of_nat (length rest)).
  { rewrite !length_app, !Nat2Z.inj_add, length_avcc_unit. lia. }
  set (n := Z.of_nat (length u)).
  assert (Hn : 0 <= n < 2 ^ 31) by (unfold INT_MAX in Hmax; lia).
  unfold read_length.
  rewrite <- (Z.add_0_r (Z.of_nat (length pre))) at 1.
  rewrite (byte_at_app pre _ 0 (byte_of_Z (Z.shiftr n 24))) by (reflexivity || lia).
  rewrite (byte_at_app pre _ 1 (byte_of_Z (Z.land (Z.shiftr n 16) 255)))
    by (reflexivity || lia).
  rewrite (byte_at_app pre _ 2 (byte_of_Z (Z.land (Z.shiftr n 8) 255)))
    by (reflexivity || lia).
  rewrite (byte_at_app pre _ 3 (byte_of_Z (Z.land n 255)))
    by (reflexivity || lia).
  cbn [bind].
  pose proof (shiftr_24_range n Hn) as H24.
  rewrite !byte_val_of_Z by (apply land_255_range || lia).
  rewrite int_val_in.
  2:{ unfold in_int, INT_MIN, INT_MAX. rewrite Z.shiftl_mul_pow2 by lia. lia. }
  cbn [bind]. rewrite decode_be32 by exact Hn.
  unfold INT_MAX in Hmax.
  rewrite (to_size_t_small (Z.of_nat (length pre))) by lia.
  rewrite (to_size_t_small n) by lia.
  rewrite to_size_t_small by lia.
  destruct (Z.gtb_spec n (Z.of_nat (length (pre ++ avcc_unit u ++ rest))
                          - Z.of_nat (length pre))) as [Hgt|_]; [lia|].
  rewrite int_val_in by (unfold in_int, INT_MIN, INT_MAX; lia).
  reflexivity.
Qed.

Lemma emitted_push b b' vs n :
  length (nalus b) = 100%nat -> 0 <= total b < 100 ->
  nalus_store (total b) (fill_nalu vs n) b = Ret b' ->
  emitted (set_total (total b + 1) b') = emitted b ++ [(vs, n, 0)].
Proof.
  intros Hlen Ht H. apply nalus_store_inv in H as (_ & _ & n0 & Hn0 & En).
  unfold emitted. cbn. rewrite En.
  replace (Z.to_nat (total b + 1)) with (S (Z.to_nat (total b))) by lia.
  rewrite (take_S_r _ _ (fill_nalu vs n n0))
    by (apply list_lookup_insert_eq; lia).
  rewrite take_insert_ge by lia. now rewrite map_app.
Qed.

(** One turn of the loop on a well-formed unit: the cursor moves to the
    next unit, nothing is logged, and the unit is stored when it passes
    the filter. *)
Lemma avc_turn_avcc pre u rest s :
  u <> [] ->
  Z.of_nat (length (pre ++ avcc_unit u ++ rest)) <= INT_MAX ->
  length (nalus (coded_pic_buffer s)) = 100%nat ->
  0 <= total (coded_pic_buffer s) < 100 ->
  exists s',
    avc_turn (pre ++ avcc_unit u ++ rest) false
      (Z.of_nat (length pre)) (Z.of_nat (length pre)) s
    = Ret (Z.of_nat (length pre) + 4 + Z.of_nat (length u),
           Z.of_nat (length pre) + 4 + Z.of_nat (length u), s') /\
    touches_buffer_and_log s s' /\ log s' = log s /\
    length (nalus (coded_pic_buffer s')) = 100%nat /\
    total (coded_pic_buffer s') =
      total (coded_pic_buffer s) + (if unit_passes u then 1 else 0) /\
    emitted (coded_pic_buffer s') =
      emitted (coded_pic_buffer s)
      ++ (if unit_passes u
          then [(Z.of_nat (length pre) + 4, Z.of_nat (length u), 0)] else []).
Proof.
  intros Hu Hmax Hlen Ht.
  assert (Hd : Z.of_nat (length (pre ++ avcc_unit u ++ rest))
               = Z.of_nat (length pre) + 4 + Z.of_nat (length u)
                 + Z.of_nat (length rest)).
  { rewrite !length_app, !Nat2Z.inj_add, length_avcc_unit. lia. }
  unfold avc_turn. rewrite read_length_avcc by exact Hmax. cbn [bind].
  rewrite int_val_in by (unfold in_int, INT_MIN, INT_MAX in *; lia).
  cbn [bind].
  destruct u as [|b u']; [congruence|].
  rewrite (byte_at_app pre _ 4 b) by (reflexivity || lia). cbn [bind].
  cbn [unit_passes]. destruct (nal_passes (byte_val b)).
  - destruct (lookup_lt_is_Some_2 (nalus (coded_pic_buffer s))
                (Z.to_nat (total (coded_pic_buffer s)))) as [n0 Hn0]; [lia|].
    assert (Hs : nalus_store (total (coded_pic_buffer s))
                   (fill_nalu (Z.of_nat (length pre) + 4)
                      (Z.of_nat (length (b :: u'))))
                   (coded_pic_buffer s)
                 = Ret (set_nalus
                          (<[Z.to_nat (total (coded_pic_buffer s)) :=
                               fill_nalu (Z.of_nat (length pre) + 4)
                                 (Z.of_nat (length (b :: u'))) n0]>
                             (nalus (coded_pic_buffer s)))
                          (coded_pic_buffer s))).
    { unfold nalus_store, NALUS_CAPACITY.
      destruct (Z.leb_spec 0 (total (coded_pic_buffer s))); [|lia].
      destruct (Z.ltb_spec (total (coded_pic_buffer s)) 100); [|lia].
      cbn. now rewrite Hn0. }
    rewrite Hs. cbn [bind].
    rewrite int_val_in by (cbn; unfold in_int, INT_MIN, INT_MAX; lia).
    cbn [bind]. eexists. split; [reflexivity|].
    split; [apply touches_set_buffer|]. split; [reflexivity|].
    split; [cbn; now rewrite length_insert|]. split; [reflexivity|].
    cbn [coded_pic_buffer set_coded_pic_buffer].
    apply (emitted_push _ _ _ _ Hlen Ht Hs).
  - cbn [bind]. eexists. split; [reflexivity|].
    split; [apply touches_refl|]. split; [reflexivity|].
    split; [exact Hlen|]. split; [lia|]. now rewrite app_nil_r.
Qed.

(** The loop on a frame of well-formed units, from any cursor position
    between two units: it runs to its end and stores one entry per unit
    that passes the filter. *)
Lemma avc_loop_avcc units : forall pre s fuel,
  Forall (fun u => u <> []) units ->
  Z.of_nat (length (pre ++ avcc units)) <= INT_MAX ->
  length (nalus (coded_pic_buffer s)) = 100%nat ->
  0 <= total (coded_pic_buffer s) ->
  total (coded_pic_buffer s) + Z.of_nat (length units) <= 100 ->
  (length units <= fuel)%nat ->
  exists s',
    avc_loop fuel (pre ++ avcc units) false
      (Z.of_nat (length pre)) (Z.of_nat (length pre)) s = Ret (None, s') /\
    touches_buffer_and_log s s' /\ log s' = log s /\
    length (nalus (coded_pic_buffer s')) = 100%nat /\
    total (coded_pic_buffer s') =
      total (coded_pic_buffer s)
      + Z.of_nat (length (avcc_entries (Z.of_nat (length pre)) units)) /\
    emitted (coded_pic_buffer s') =
      emitted (coded_pic_buffer s)
      ++ avcc_entries (Z.of_nat (length pre)) units.
Proof.
  induction units as [|u units IH]; intros pre s fuel Hne Hmax Hlen Ht Hcap Hfuel.
  - exists s. cbn [avcc map List.concat avcc_entries length].
    rewrite !app_nil_r, Z.add_0_r.
    replace (avc_loop fuel pre false (Z.of_nat (length pre))
               (Z.of_nat (length pre)) s) with (Ret (None : option Z, s)).
    { repeat split; auto using touches_refl. }
    unfold INT_MAX in Hmax. rewrite app_nil_r in Hmax.
    destruct fuel; cbn [avc_loop]; rewrite to_size_t_small by lia;
      now rewrite Z.ltb_irrefl.
  - apply Forall_cons in Hne as [Hu Hne].
    change (avcc (u :: units)) with (avcc_unit u ++ avcc units) in *.
    assert (Hd : Z.of_nat (length (pre ++ avcc_unit u ++ avcc units))
                 = Z.of_nat (length pre) + 4 + Z.of_nat (length u)
                   + Z.of_nat (length (avcc units))).
    { rewrite !length_app, !Nat2Z.inj_add, length_avcc_unit. lia. }
    rewrite length_cons, Nat2Z.inj_succ in Hcap.
    destruct fuel as [|fuel]; [cbn in Hfuel; lia|]. cbn [avc_loop].
    unfold INT_MAX in Hmax. rewrite to_size_t_small by lia.
    destruct (Z.ltb_spec (Z.of_nat (length pre))
                (Z.of_nat (length (pre ++ avcc_unit u ++ avcc units))));
      [|lia].
    rewrite to_size_t_small by lia. unfold NALUS_CAPACITY.
    destruct (Z.leb_spec 100 (total (coded_pic_buffer s))); [lia|].
    destruct (avc_turn_avcc pre u (avcc units) s Hu) as
      (s1 & E1 & T1 & L1 & Hlen1 & Ht1 & Em1); [unfold INT_MAX; lia | exact Hlen | lia |].
    rewrite E1. cbn [bind].
    specialize (IH (pre ++ avcc_unit u) s1 fuel Hne).
    rewrite <- app_assoc in IH.
    replace (Z.of_nat (length (pre ++ avcc_unit u)))
      with (Z.of_nat (length pre) + 4 + Z.of_nat (length u)) in IH
      by (rewrite length_app, Nat2Z.inj_add, length_avcc_unit; lia).
    destruct IH as (s' & E & T & L & Hlen' & Ht' & Em');
      [unfold INT_MAX; lia | exact Hlen1 | destruct (unit_passes u); lia
      | destruct (unit_passes u); lia | cbn in Hfuel; lia |].
    exists s'. split; [exact E|].
    split; [eapply touches_trans; eassumption|].
    split; [congruence|]. split; [exact Hlen'|].
    cbn [avcc_entries]. rewrite length_app, Nat2Z.inj_add.
    split.
    + rewrite Ht', Ht1. destruct (unit_passes u); cbn; lia.
    + rewrite Em', Em1, <- app_assoc. reflexivity.
Qed.

Lemma mark_last_snoc l o n m : mark_last (l ++ [(o, n, m)]) = l ++ [(o, n, 1)].
Proof.
  unfold mark_last. rewrite reverse_snoc. now rewrite reverse_involutive.
Qed.

Lemma emitted_mark b b' :
  length (nalus b) = 100%nat -> 1 <= total b <= 100 ->
  nalus_store (total b - 1) (set_marker 1) b = Ret b' ->
  emitted b' = mark_last (emitted b).
Proof.
  intros Hlen Ht H. apply nalus_store_inv in H as (_ & Et & n0 & Hn0 & En).
  unfold emitted. rewrite Et, En.
  replace (Z.to_nat (total b)) with (S (Z.to_nat (total b - 1))) by lia.
  rewrite (take_S_r _ _ (set_marker 1 n0))
    by (apply list_lookup_insert_eq; lia).
  rewrite (take_S_r _ _ n0) by exact Hn0.
  rewrite take_insert_ge by lia. rewrite !map_app. cbn [map].
  unfold nalu_view at 4. now rewrite mark_last_snoc.
Qed.

(** The splitter on a frame of at most 100 well-formed units of which one
    at least passes the filter: it returns 0, logs nothing, and leaves one
    entry per passing unit, in order, with the marker on the last. *)
Lemma avc_get_video_frame_avcc (s : ftl_stream) (p : encoder_packet)
    (units : list (list byte)) (idx : Z) :
  data p = avcc units ->
  Forall (fun u => u <> []) units ->
  size p <= INT_MAX ->
  (length units <= 100)%nat ->
  avcc_entries 0 units <> [] ->
  length (nalus (coded_pic_buffer s)) = 100%nat ->
  total (coded_pic_buffer s) = 0 ->
  exists s',
    avc_get_video_frame s p false idx = Ret (0, s') /\
    touches_buffer_and_log s s' /\ log s' = log s /\
    length (nalus (coded_pic_buffer s')) = 100%nat /\
    1 <= total (coded_pic_buffer s') <= 100 /\
    emitted (coded_pic_buffer s') = mark_last (avcc_entries 0 units).
Proof.
  intros Hd Hne Hmax Hk Hsome Hlen Ht. unfold size in Hmax.
  unfold avc_get_video_frame. rewrite Hd in *.
  assert (Hfuel : (length units <= length (avcc units))%nat).
  { clear -Hne. induction units as [|u units IH]; [cbn; lia|].
    apply Forall_cons in Hne as [Hu Hne].
    change (avcc (u :: units)) with (avcc_unit u ++ avcc units).
    rewrite length_app, length_cons. specialize (IH Hne).
    pose proof (length_avcc_unit u). lia. }
  destruct (avc_loop_avcc units [] s (length (avcc units)) Hne)
    as (s1 & E & T & L & Hlen1 & Ht1 & Em); try assumption; try lia.
  change (Z.of_nat (length (@nil byte))) with 0 in E, Ht1, Em.
  change ([] ++ avcc units) with (avcc units) in E.
  rewrite E. cbn [bind negb].
  assert (Hpos : 1 <= total (coded_pic_buffer s1) <= 100).
  { rewrite Ht1, Ht.
    assert (length (avcc_entries 0 units) <= length units)%nat.
    { clear. generalize 0. induction units as [|u units IH]; intros off; [cbn; lia|].
      cbn [avcc_entries]. rewrite length_app, length_cons.
      specialize (IH (off + 4 + Z.of_nat (length u))).
      destruct (unit_passes u); cbn; lia. }
    destruct (avcc_entries 0 units); [congruence|]. cbn [length] in *. lia. }
  rewrite int_val_in by (unfold in_int, INT_MIN, INT_MAX; lia). cbn [bind].
  destruct (lookup_lt_is_Some_2 (nalus (coded_pic_buffer s1))
              (Z.to_nat (total (coded_pic_buffer s1) - 1))) as [n0 Hn0]; [lia|].
  assert (Hs : nalus_store (total (coded_pic_buffer s1) - 1) (set_marker 1)
                 (coded_pic_buffer s1)
               = Ret (set_nalus
                        (<[Z.to_nat (total (coded_pic_buffer s1) - 1) :=
                             set_marker 1 n0]> (nalus (coded_pic_buffer s1)))
                        (coded_pic_buffer s1))).
  { unfold nalus_store, NALUS_CAPACITY.
    destruct (Z.leb_spec 0 (total (coded_pic_buffer s1) - 1)); [|lia].
    destruct (Z.ltb_spec (total (coded_pic_buffer s1) - 1) 100); [|lia].
    cbn. now rewrite Hn0. }
  rewrite Hs. cbn [bind]. eexists. split; [reflexivity|].
  split; [eapply touches_trans; [exact T | apply touches_set_buffer]|].
  split; [exact L|].
  cbn [coded_pic_buffer set_coded_pic_buffer].
  split; [cbn; now rewrite length_insert|]. split; [exact Hpos|].
  rewrite (emitted_mark _ _ Hlen1 Hpos Hs), Em.
  unfold emitted. now rewrite Ht.
Qed.

Lemma to_int_small z : in_int z -> to_int z = z.
Proof.
  unfold in_int, INT_MIN, INT_MAX, to_int. intros Hz.
  rewrite Z.mod_small by lia. lia.
Qed.

Lemma video_call_view p n : video_call p n = call_of_view p (nalu_view n).
Proof. reflexivity. Qed.

Section SendReturns.

Variable ingest : list media_call -> media_call -> Z.
Hypothesis ingest_bounded : forall h c, - 2 ^ 24 <= ingest h c <= 2 ^ 24.

(** With replies of bounded size and counters away from their limits the
    loop over the array returns, and [frames_sent] grows by the number of
    entries that carry the marker. *)
Lemma send_nalus_returns p n : forall i bytes s,
  0 <= i ->
  (Z.to_nat i + n <= length (nalus (coded_pic_buffer s)))%nat ->
  Z.abs bytes + Z.of_nat n * 2 ^ 24 < 2 ^ 31 ->
  INT64_MIN <= frames_sent s -> frames_sent s + Z.of_nat n <= INT64_MAX ->
  exists bytes' s',
    send_nalus ingest n i p bytes s = Ret (bytes', s') /\
    frames_sent s' =
      frames_sent s
      + marked (map nalu_view
                  (take n (drop (Z.to_nat i) (nalus (coded_pic_buffer s))))).
Proof using ingest_bounded.
  induction n as [|n IH]; intros i bytes s Hi Hlen Hb Hlo Hhi.
  - exists bytes, s. split; [reflexivity|]. rewrite take_0.
    unfold marked. cbn [map List.filter length]. lia.
  - cbn [send_nalus].
    destruct (lookup_lt_is_Some_2 (nalus (coded_pic_buffer s)) (Z.to_nat i))
      as [nalu Hnalu]; [lia|].
    rewrite Hnalu. cbn [send_media].
    set (c := {| call_kind := FTL_VIDEO_DATA; call_dts_usec := dts_usec p;
                 call_data := nalu_data nalu; call_len := len nalu;
                 call_marker := send_marker_bit nalu |}).
    pose proof (ingest_bounded (sent s) c) as Hr.
    rewrite Nat2Z.inj_succ in Hb, Hhi.
    rewrite to_int_small by (unfold in_int, INT_MIN, INT_MAX; lia).
    rewrite int_val_in by (unfold in_int, INT_MIN, INT_MAX; lia).
    cbn [bind].
    rewrite (drop_S _ _ _ Hnalu). cbn [take map].
    destruct (Z.eqb_spec (send_marker_bit nalu) 0) as [Em|Em]; cbn [negb bind].
    + destruct (IH (i + 1) (bytes + ingest (sent s) c)
                  (set_sent (sent s ++ [c]) s)) as (bytes' & s' & E & Hf);
        [lia | cbn; lia | lia | exact Hlo | cbn; lia |].
      exists bytes', s'. split; [exact E|].
      rewrite Hf. cbn [frames_sent set_sent coded_pic_buffer].
      replace (Z.to_nat (i + 1)) with (S (Z.to_nat i)) by lia.
      unfold marked. cbn [List.filter nalu_view snd].
      rewrite Em. cbn. lia.
    + rewrite int_val64_in by (unfold in_int64 in *; cbn; lia).
      cbn [bind].
      destruct (IH (i + 1) (bytes + ingest (sent s) c)
                  (set_frames_sent (frames_sent (set_sent (sent s ++ [c]) s) + 1)
                     (set_sent (sent s ++ [c]) s)))
        as (bytes' & s' & E & Hf);
        [lia | cbn; lia | lia | cbn; lia | cbn; lia |].
      exists bytes', s'. split; [exact E|].
      rewrite Hf. cbn [frames_sent set_frames_sent set_sent coded_pic_buffer].
      replace (Z.to_nat (i + 1)) with (S (Z.to_nat i)) by lia.
      unfold marked. cbn [List.filter nalu_view snd].
      destruct (Z.eqb_spec (send_marker_bit nalu) 0); [contradiction|].
      cbn [negb length]. lia.
Qed.

End SendReturns.

Lemma avcc_entries_unmarked units : forall off,
  Forall (fun v => snd v = 0) (avcc_entries off units).
Proof.
  induction units as [|u units IH]; intros off; cbn [avcc_entries];
    [constructor|].
  apply Forall_app. split; [|apply IH].
  destruct (unit_passes u); repeat constructor.
Qed.

Lemma marked_unmarked l : Forall (fun v => snd v = 0) l -> marked l = 0.
Proof.
  unfold marked. induction 1 as [|v l Hv _ IH]; [reflexivity|].
  cbn [List.filter]. rewrite Hv. cbn. exact IH.
Qed.

Lemma marked_mark_last l :
  l <> [] -> Forall (fun v => snd v = 0) l -> marked (mark_last l) = 1.
Proof.
  destruct l as [|v l] using rev_ind; [congruence|]. intros _ Hall.
  apply Forall_app in Hall as [Hl _]. destruct v as [[o n] m].
  rewrite mark_last_snoc. apply marked_unmarked in Hl.
  unfold marked in *. rewrite List.filter_app, length_app, Nat2Z.inj_add, Hl.
  reflexivity.
Qed.

(** [send_packet] on a well-formed frame, run to its end. *)
Lemma send_packet_avcc_frame_run
    (ingest : list media_call -> media_call -> Z) (s : ftl_stream)
    (p : encoder_packet) (units : list (list byte)) (idx : Z) :
  (forall h c, - 2 ^ 24 <= ingest h c <= 2 ^ 24) ->
  type p = OBS_ENCODER_VIDEO ->
  data p = avcc units ->
  Forall (fun u => u <> []) units ->
  size p <= INT_MAX ->
  (length units <= 100)%nat ->
  avcc_entries 0 units <> [] ->
  length (nalus (coded_pic_buffer s)) = 100%nat ->
  INT64_MIN <= frames_sent s -> frames_sent s + 100 <= INT64_MAX ->
  exists s',
    send_packet ingest s p false idx = Ret (0, s') /\
    sent s' = sent s ++ map (call_of_view p) (mark_last (avcc_entries 0 units)) /\
    frames_sent s' = frames_sent s + 1 /\
    log s' = log s /\
    freed s' = freed s ++ [p].
Proof.
  intros Hing Ht Hd Hne Hmax Hk Hsome Hlen Hlo Hhi.
  destruct (avc_get_video_frame_avcc
              (set_coded_pic_buffer (set_total 0 (coded_pic_buffer s)) s)
              p units idx Hd Hne Hmax Hk Hsome)
    as (s1 & E1 & T1 & L1 & Hlen1 & Ht1 & Em1); [exact Hlen | reflexivity |].
  assert (F1 : frames_sent s1 = frames_sent s /\ sent s1 = sent s /\
               freed s1 = freed s).
  { destruct T1 as (b & l & ->). repeat split. }
  destruct F1 as (Ef & Es & Efr).
  destruct (send_nalus_returns ingest Hing p
              (Z.to_nat (total (coded_pic_buffer s1))) 0 0 s1)
    as (bytes & s2 & E2 & Hf2); [lia | lia | lia | lia | lia |].
  pose proof E2 as E2'.
  apply send_nalus_inv in E2' as (Hsent & _ & Hlog & L2); [|lia].
  rewrite drop_0 in Hsent, Hf2. fold (emitted (coded_pic_buffer s1)) in Hf2.
  unfold send_packet. rewrite Ht.
  rewrite bool_decide_eq_true_2 by reflexivity.
  rewrite E1. cbn [bind snd]. rewrite E2. cbn [bind].
  eexists. split; [reflexivity|]. cbn.
  destruct L2 as (_ & Efr2 & _).
  rewrite Hsent, Hf2, Hlog, Efr2, Es, Ef, L1, Efr, Em1.
  rewrite marked_mark_last by (auto using avcc_entries_unmarked).
  repeat split.
  rewrite <- Em1. unfold emitted. rewrite map_map. reflexivity.
Qed.

(** X26. A frame of at most 100 well-formed, non-empty units, one of which
    at least passes the filter, sent to an ingest whose replies are bounded:
    [send_packet] returns 0, the ingest receives one call per passing
    unit, in order, with the marker on the last one only, one frame is
    counted and nothing is logged. *)
Theorem send_packet_avcc_frame
    (ingest : list media_call -> media_call -> Z) (s : ftl_stream)
    (p : encoder_packet) (units : list (list byte)) (idx : Z) :
  (forall h c, - 2 ^ 24 <= ingest h c <= 2 ^ 24) ->
  type p = OBS_ENCODER_VIDEO ->
  data p = avcc units ->
  Forall (fun u => u <> []) units ->
  size p <= INT_MAX ->
  (length units <= 100)%nat ->
  avcc_entries 0 units <> [] ->
  length (nalus (coded_pic_buffer s)) = 100%nat ->
  INT64_MIN <= frames_sent s -> frames_sent s + 100 <= INT64_MAX ->
  exists s',
    send_packet ingest s p false idx = Ret (0, s') /\
    sent s' = sent s ++ map (call_of_view p) (mark_last (avcc_entries 0 units)) /\
    frames_sent s' = frames_sent s + 1 /\
    log s' = log s /\
    freed s' = freed s ++ [p].
Proof. exact (send_packet_avcc_frame_run ingest s p units idx). Qed.

(** Every expected entry is the slice of the frame that holds its unit:
    the units that pass the filter are read back from the offsets and
    lengths handed to the ingest. *)
Lemma avcc_entries_payloads units : forall pre,
  map (fun v => take (Z.to_nat (snd (fst v)))
                  (drop (Z.to_nat (fst (fst v))) (pre ++ avcc units)))
      (avcc_entries (Z.of_nat (length pre)) units)
  = List.filter unit_passes units.
Proof.
  induction units as [|u units IH]; intros pre; [reflexivity|].
  change (avcc (u :: units)) with (avcc_unit u ++ avcc units).
  cbn [avcc_entries List.filter]. rewrite map_app.
  specialize (IH (pre ++ avcc_unit u)).
  rewrite <- app_assoc in IH.
  replace (Z.of_nat (length (pre ++ avcc_unit u)))
    with (Z.of_nat (length pre) + 4 + Z.of_nat (length u)) in IH
    by (rewrite length_app, Nat2Z.inj_add, length_avcc_unit; lia).
  rewrite IH. destruct (unit_passes u); [|reflexivity].
  cbn [map fst snd app]. f_equal.
  replace (Z.to_nat (Z.of_nat (length pre) + 4))
    with (length (pre ++ be32 (Z.of_nat (length u))))
    by (rewrite length_app; cbn; lia).
  unfold avcc_unit. rewrite <- (app_assoc (be32 _)), (app_assoc pre).
  rewrite drop_app_length, Nat2Z.id. apply take_app_length.
Qed.

(** The frame of scenario S5 is such a frame. *)
Example send_packet_filter_frame_avcc :
  data filter_packet = avcc [[x65]; [x06]; [x09]; [x0c]; [x41; xff]] /\
  exists s', send_packet (fun _ _ => 1316) ftl_stream_create filter_packet
               false 0 = Ret (0, s') /\
    sent s' = map (call_of_view filter_packet) [(4, 1, 0); (24, 2, 1)] /\
    frames_sent s' = 1.
Proof.
  split; [reflexivity|].
  eexists. split; [vm_compute; reflexivity|]. split; reflexivity.
Qed.

(** * Further properties of the plugin *)

Lemma int_val64_Ret z r : int64_val z = Ret r -> r = z /\ in_int64 z.
Proof.
  unfold int64_val, in_int64.
  destruct (INT64_MIN <=? z) eqn:E1; destruct (z <=? INT64_MAX) eqn:E2; simpl;
    intros H; inversion H; subst; lia.
Qed.

(** ** Draining the queue: [free_packets] *)

Lemma free_packets_loop_closed q : forall s,
  q <> [] ->
  free_packets_loop q s = set_freed (freed s ++ q) (set_packets [] s).
Proof.
  induction q as [|p q IH]; intros s Hq; [congruence|].
  cbn [free_packets_loop]. destruct q as [|p' q].
  - reflexivity.
  - rewrite IH by discriminate. unfold obs_free_encoder_packet. cbn.
    now rewrite <- app_assoc.
Qed.

Lemma free_packets_loop_all q s :
  free_packets_loop q s
  = set_freed (freed s ++ q)
      (set_packets (match q with [] => packets s | _ => [] end) s).
Proof.
  destruct q as [|p q]; [|now apply free_packets_loop_closed].
  cbn. rewrite app_nil_r. destruct s; reflexivity.
Qed.

Lemma free_packets_closed s :
  free_packets s = set_freed (freed s ++ packets s) (set_packets [] s).
Proof.
  unfold free_packets. destruct (packets s) as [|p q] eqn:Hq.
  - cbn. rewrite app_nil_r. destruct s; cbn in *. now subst.
  - now rewrite free_packets_loop_closed by discriminate.
Qed.

(** X1. [free_packets] empties the queue, hands every queued packet to
    [obs_free_encoder_packet] once, in queue order, and changes no other
    field of the stream. *)
Theorem free_packets_drains (s : ftl_stream) :
  free_packets s = set_freed (freed s ++ packets s) (set_packets [] s) /\
  packets (free_packets s) = [] /\
  freed (free_packets s) = freed s ++ packets s.
Proof. rewrite free_packets_closed. repeat split. Qed.

(** ** Drop episodes without side conditions *)

Section DropMore.

Variable HIGHEST : Z.

(** The loop of [drop_frames], whenever it returns. *)
Lemma drop_frames_loop_ret q : forall new_buf drop_prio last_drop num s r,
  0 <= drop_prio ->
  drop_frames_loop HIGHEST q new_buf drop_prio last_drop num s = Ret r ->
  r = (new_buf ++ filter (retained HIGHEST) q,
       Z.max drop_prio (max_drop_priority (filter (discarded HIGHEST) q)),
       from_option (fun p => to_uint64 (dts_usec p)) last_drop (last q),
       num + Z.of_nat (length (filter (discarded HIGHEST) q)),
       set_freed (freed s ++ filter (discarded HIGHEST) q)
         (set_packets (match q with [] => packets s | _ => [] end) s)) /\
  (filter (discarded HIGHEST) q = [] \/
   in_int (num + Z.of_nat (length (filter (discarded HIGHEST) q)))).
Proof.
  induction q as [|packet q IH]; intros new_buf drop_prio last_drop num s r Hd H.
  - cbn in H. inversion H; subst. cbn.
    rewrite !app_nil_r, Z.max_l, Z.add_0_r by lia.
    split; [|now left]. destruct s; reflexivity.
  - cbn [drop_frames_loop] in H. rewrite last_cons_from_option.
    destruct (kept HIGHEST packet) eqn:K.
    + pose proof (proj1 (kept_retained HIGHEST packet) K) as R.
      rewrite (filter_cons_True (retained HIGHEST)) by exact R.
      rewrite (filter_cons_False (discarded HIGHEST)) by (intros D; exact (D R)).
      apply IH in H; [|exact Hd].
      rewrite <- app_assoc in H. cbn [app] in H.
      assert (E : set_freed
                    (freed (set_packets q s) ++ filter (discarded HIGHEST) q)
                    (set_packets
                       match q with
                       | [] => packets (set_packets q s)
                       | _ :: _ => []
                       end (set_packets q s))
                  = set_freed (freed s ++ filter (discarded HIGHEST) q)
                      (set_packets [] s)) by (destruct q; reflexivity).
      rewrite E in H. exact H.
    + pose proof (proj1 (kept_discarded HIGHEST packet) K) as D.
      rewrite (filter_cons_False (retained HIGHEST)) by exact D.
      rewrite (filter_cons_True (discarded HIGHEST)) by exact D.
      apply bind_Ret_inv in H as (n1 & Hn1 & H).
      apply int_val_Ret in Hn1 as [-> Hin].
      apply IH in H.
      2:{ destruct (drop_prio <? drop_priority packet) eqn:E;
            [apply Z.ltb_lt in E|]; lia. }
      assert (E : set_freed
                    (freed (obs_free_encoder_packet packet (set_packets q s))
                     ++ filter (discarded HIGHEST) q)
                    (set_packets
                       match q with
                       | [] => packets
                                 (obs_free_encoder_packet packet (set_packets q s))
                       | _ :: _ => []
                       end (obs_free_encoder_packet packet (set_packets q s)))
                  = set_freed
                      (freed s ++ packet :: filter (discarded HIGHEST) q)
                      (set_packets [] s)).
      { unfold obs_free_encoder_packet. cbn. rewrite <- app_assoc.
        destruct q; reflexivity. }
      rewrite E in H.
      assert (M : Z.max (if drop_prio <? drop_priority packet
                         then drop_priority packet else drop_prio)
                    (max_drop_priority (filter (discarded HIGHEST) q))
                  = Z.max drop_prio
                      (max_drop_priority
                         (packet :: filter (discarded HIGHEST) q))).
      { cbn [max_drop_priority foldr].
        fold (max_drop_priority (filter (discarded HIGHEST) q)).
        destruct (drop_prio <? drop_priority packet) eqn:E';
          [apply Z.ltb_lt in E' | apply Z.ltb_ge in E']; lia. }
      rewrite M in H. rewrite length_cons, Nat2Z.inj_succ.
      replace (num + Z.succ (Z.of_nat (length (filter (discarded HIGHEST) q))))
        with (num + 1 + Z.of_nat (length (filter (discarded HIGHEST) q)))
        by lia.
      destruct H as [-> Hr]. split; [reflexivity|]. right.
      destruct Hr as [Hnil|Hr]; [|exact Hr].
      rewrite Hnil. cbn. rewrite Z.add_0_r. exact Hin.
Qed.

(** [drop_frames], whenever it returns: the stream it leaves. *)
Lemma drop_frames_ret s s' :
  drop_frames HIGHEST s = Ret s' ->
  s' = set_dropped_frames
         (dropped_frames s
          + Z.of_nat (length (filter (discarded HIGHEST) (packets s))))
         (set_min_drop_dts_usec
            (to_int64 (from_option (fun p => to_uint64 (dts_usec p)) 0
                         (last (packets s))))
            (set_min_priority
               (max_drop_priority (filter (discarded HIGHEST) (packets s)))
               (set_packets (filter (retained HIGHEST) (packets s))
                  (set_freed
                     (freed s ++ filter (discarded HIGHEST) (packets s)) s)))) /\
  in_int (dropped_frames s') /\
  0 <= Z.of_nat (length (filter (discarded HIGHEST) (packets s))) <= INT_MAX.
Proof.
  intros H. unfold drop_frames in H.
  apply bind_Ret_inv in H as (r & Hr & H).
  apply drop_frames_loop_ret in Hr as [-> Hn]; [|lia].
  apply bind_Ret_inv in H as (d & Hd & H).
  apply int_val_Ret in Hd as [-> Hin]. inversion H; subst. clear H.
  rewrite Z.max_r by apply max_drop_priority_nonneg.
  cbn in Hin |- *. split; [reflexivity|]. split; [exact Hin|].
  destruct Hn as [-> | Hn]; [cbn; unfold INT_MAX; lia|].
  unfold in_int, INT_MIN, INT_MAX in *. lia.
Qed.

End DropMore.

Lemma check_to_drop_frames_ret (HIGHEST : Z) (s s' : ftl_stream) :
  check_to_drop_frames HIGHEST s = Ret s' ->
  s' = s \/ drop_frames HIGHEST s = Ret s'.
Proof.
  unfold check_to_drop_frames. intros H.
  destruct (num_buffered_packets s <? 5); [left; congruence|].
  destruct (packets s) as [|first q]; [left; congruence|].
  destruct (dts_usec first <? min_drop_dts_usec s); [left; congruence|].
  apply bind_Ret_inv in H as (d & _ & H).
  destruct (d >? drop_threshold_usec s); [now right | left; congruence].
Qed.

Lemma filter_discarded_Forall (HIGHEST : Z) (q : list encoder_packet) :
  Forall (discarded HIGHEST) (filter (discarded HIGHEST) q).
Proof.
  apply Forall_forall. intros p Hp.
  now apply list_elem_of_filter in Hp as [Hp _].
Qed.

(** What [check_to_drop_frames] leaves, whenever it returns: the packets
    it freed are discardable ones, the queue and they make up the old
    queue, and the retained packets keep their places. *)
Lemma check_to_drop_frames_accounts (HIGHEST : Z) (s s' : ftl_stream) :
  check_to_drop_frames HIGHEST s = Ret s' ->
  (exists dropped,
     freed s' = freed s ++ dropped /\
     Forall (discarded HIGHEST) dropped /\
     packets s' ++ dropped ≡ₚ packets s /\
     filter (retained HIGHEST) (packets s')
       = filter (retained HIGHEST) (packets s) /\
     dropped_frames s' = dropped_frames s + Z.of_nat (length dropped) /\
     in_int (dropped_frames s + Z.of_nat (length dropped)) /\
     last_dts_usec s' = last_dts_usec s /\
     send_sem s' = send_sem s /\
     0 <= min_priority s') \/ s' = s.
Proof.
  intros H. apply check_to_drop_frames_ret in H as [-> | H].
  - right. reflexivity.
  - left. apply drop_frames_ret in H as (-> & Hin & _).
    exists (filter (discarded HIGHEST) (packets s)). cbn in Hin |- *.
    split; [reflexivity|]. split; [apply filter_discarded_Forall|].
    split; [apply filter_app_complement|].
    split; [apply list_filter_filter_r; auto|].
    split; [reflexivity|]. split; [exact Hin|].
    split; [reflexivity|]. split; [reflexivity|].
    apply max_drop_priority_nonneg.
Qed.

(** X2. [add_video_packet] loses no packet and never touches a protected
    one.  Whenever it returns, the packets it freed are discardable (no
    audio packet, no video packet of drop priority HIGHEST); the new queue
    and the freed packets are the old queue, plus the new packet when it
    was accepted; the audio and HIGHEST packets of the old queue keep
    their places; and [dropped_frames] has grown by the number of freed
    packets, plus one when the new packet was turned away. *)
Theorem add_video_packet_accounts (HIGHEST : Z) (s s' : ftl_stream)
    (p : encoder_packet) (added : bool) :
  add_video_packet HIGHEST s p = Ret (added, s') ->
  exists dropped,
    freed s' = freed s ++ dropped /\
    Forall (discarded HIGHEST) dropped /\
    packets s' ++ dropped ≡ₚ packets s ++ (if added then [p] else []) /\
    filter (retained HIGHEST) (packets s')
      = filter (retained HIGHEST) (packets s ++ (if added then [p] else [])) /\
    dropped_frames s' =
      dropped_frames s + Z.of_nat (length dropped)
      + (if added then 0 else 1).
Proof.
  intros H. unfold add_video_packet in H.
  apply bind_Ret_inv in H as (s1 & H1 & H).
  assert (A : exists dropped,
             freed s1 = freed s ++ dropped /\
             Forall (discarded HIGHEST) dropped /\
             packets s1 ++ dropped ≡ₚ packets s /\
             filter (retained HIGHEST) (packets s1)
               = filter (retained HIGHEST) (packets s) /\
             dropped_frames s1 = dropped_frames s + Z.of_nat (length dropped)).
  { apply check_to_drop_frames_accounts in H1
      as [(d & A1 & A2 & A3 & A4 & A5 & _) | ->].
    - exists d. auto.
    - exists []. rewrite !app_nil_r. cbn. rewrite Z.add_0_r.
      repeat split; auto. }
  destruct A as (dropped & A1 & A2 & A3 & A4 & A5). exists dropped.
  destruct (priority p <? min_priority s1).
  - apply bind_Ret_inv in H as (d & Hd & H).
    apply int_val_Ret in Hd as [-> _]. inversion H; subst. cbn.
    rewrite app_nil_r. repeat split; auto. lia.
  - unfold add_packet in H. inversion H; subst. cbn.
    rewrite !filter_app, A4, A1, A5. repeat split; auto; [|lia].
    rewrite <- A3.
    rewrite <- !app_assoc. apply Permutation_app_head, Permutation_app_comm.
Qed.

Lemma add_video_packet_accounts_witness :
  exists dropped,
    freed (set_dropped_frames 4
             (set_min_drop_dts_usec 133332
                (set_min_priority 2
                   (set_packets (filter (retained 3) episode_queue)
                      (set_freed (filter (discarded 3) episode_queue)
                         congested_stream)))))
      = freed congested_stream ++ dropped /\
    Forall (discarded 3) dropped /\
    packets (set_dropped_frames 4
               (set_min_drop_dts_usec 133332
                  (set_min_priority 2
                     (set_packets (filter (retained 3) episode_queue)
                        (set_freed (filter (discarded 3) episode_queue)
                           congested_stream))))) ++ dropped
      ≡ₚ packets congested_stream ++ [] /\
    filter (retained 3)
      (packets (set_dropped_frames 4
                  (set_min_drop_dts_usec 133332
                     (set_min_priority 2
                        (set_packets (filter (retained 3) episode_queue)
                           (set_freed (filter (discarded 3) episode_queue)
                              congested_stream))))))
      = filter (retained 3) (packets congested_stream ++ []) /\
    dropped_frames (set_dropped_frames 4
                      (set_min_drop_dts_usec 133332
                         (set_min_priority 2
                            (set_packets (filter (retained 3) episode_queue)
                               (set_freed (filter (discarded 3) episode_queue)
                                  congested_stream)))))
      = dropped_frames congested_stream + Z.of_nat (length dropped) + 1.
Proof.
  apply (add_video_packet_accounts 3 congested_stream _
           (video_packet [] 166665 false 1) false).
  vm_compute. reflexivity.
Defined.

(** The loop of [drop_frames] on a queue of protected packets moves every
    packet to the new buffer and counts nothing. *)
Lemma drop_frames_loop_retained (HIGHEST : Z) q :
  forall new_buf drop_prio last_drop num s,
  Forall (retained HIGHEST) q ->
  drop_frames_loop HIGHEST q new_buf drop_prio last_drop num s =
  Ret (new_buf ++ q, drop_prio,
       from_option (fun p => to_uint64 (dts_usec p)) last_drop (last q), num,
       set_packets (match q with [] => packets s | _ => [] end) s).
Proof.
  induction q as [|packet q IH]; intros new_buf drop_prio last_drop num s Hq.
  - cbn. rewrite app_nil_r. destruct s; reflexivity.
  - apply Forall_cons in Hq as [Hp Hq].
    cbn [drop_frames_loop]. rewrite last_cons_from_option.
    rewrite (proj2 (kept_retained HIGHEST packet) Hp).
    rewrite IH by exact Hq. rewrite <- app_assoc.
    destruct q; reflexivity.
Qed.

(** X3. An episode right after an episode frees nothing.  Whenever
    [drop_frames] returns, running it again returns too, leaves the
    queue, the freed packets and [dropped_frames] as they are, and puts
    [min_priority] back to 0. *)
Theorem drop_frames_twice (HIGHEST : Z) (s s1 : ftl_stream) :
  drop_frames HIGHEST s = Ret s1 ->
  exists s2,
    drop_frames HIGHEST s1 = Ret s2 /\
    packets s2 = packets s1 /\
    freed s2 = freed s1 /\
    dropped_frames s2 = dropped_frames s1 /\
    min_priority s2 = 0.
Proof.
  intros H. apply drop_frames_ret in H as (E & Hin & _).
  assert (Hq : Forall (retained HIGHEST) (packets s1)).
  { rewrite E. cbn. apply Forall_forall. intros p Hp.
    now apply list_elem_of_filter in Hp as [Hp _]. }
  unfold drop_frames.
  rewrite (drop_frames_loop_retained HIGHEST (packets s1) [] 0 0 0 s1 Hq).
  cbn [bind app]. cbn [dropped_frames set_min_drop_dts_usec set_min_priority
                       set_packets].
  rewrite Z.add_0_r, int_val_in by exact Hin.
  cbn [bind]. eexists. split; [reflexivity|]. cbn.
  repeat split.
Qed.

Lemma drop_frames_twice_witness :
  exists s2,
    drop_frames 3
      (set_dropped_frames 3
         (set_min_drop_dts_usec 133332
            (set_min_priority 2
               (set_packets (filter (retained 3) episode_queue)
                  (set_freed (filter (discarded 3) episode_queue)
                     episode_stream))))) = Ret s2 /\
    packets s2 = filter (retained 3) episode_queue /\
    freed s2 = filter (discarded 3) episode_queue /\
    dropped_frames s2 = 3 /\
    min_priority s2 = 0.
Proof.
  apply (drop_frames_twice 3 episode_stream). vm_compute. reflexivity.
Defined.

(** ** Submitting packets: [ftl_stream_data] *)

Section SubmitFacts.

Variable HIGHEST : Z.
Variable parse dup : encoder_packet -> encoder_packet.

(** The ways [ftl_stream_data] returns. *)
Lemma ftl_stream_data_ret s p s' :
  ftl_stream_data HIGHEST parse dup s p = Ret s' ->
  (disconnected s || negb (active s) = true /\ s' = s) \/
  (disconnected s = false /\ active s = true /\
   type p <> OBS_ENCODER_VIDEO /\
   s' = os_sem_post (snd (add_packet s (dup p)))) \/
  (disconnected s = false /\ active s = true /\
   type p = OBS_ENCODER_VIDEO /\
   exists s1, check_to_drop_frames HIGHEST s = Ret s1 /\
     ((min_priority s1 <= priority (parse p) /\
       s' = os_sem_post (snd (add_packet (set_min_priority 0 s1) (parse p)))) \/
      (priority (parse p) < min_priority s1 /\
       in_int (dropped_frames s1 + 1) /\
       s' = obs_free_encoder_packet (parse p)
              (set_dropped_frames (dropped_frames s1 + 1) s1)))).
Proof.
  unfold ftl_stream_data. intros H.
  destruct (disconnected s) eqn:Ed; cbn [orb negb] in H;
    [left; split; [reflexivity | congruence]|].
  destruct (active s) eqn:Ea; cbn [orb negb] in H;
    [|left; split; [reflexivity | congruence]].
  right.
  destruct (bool_decide (type p = OBS_ENCODER_VIDEO)) eqn:Et.
  - apply bool_decide_eq_true in Et. right.
    split; [reflexivity|]. split; [reflexivity|]. split; [exact Et|].
    apply bind_Ret_inv in H as ([added s2] & H2 & H).
    unfold add_video_packet in H2.
    apply bind_Ret_inv in H2 as (s1 & H1 & H2). exists s1.
    split; [exact H1|].
    destruct (Z.ltb_spec (priority (parse p)) (min_priority s1)) as [Hlt|Hge].
    + right. apply bind_Ret_inv in H2 as (d & Hd & H2).
      apply int_val_Ret in Hd as [-> Hin]. inversion H2; subst.
      inversion H; subst. auto.
    + left. inversion H2; subst. inversion H; subst. auto.
  - apply bool_decide_eq_false in Et. left.
    split; [reflexivity|]. split; [reflexivity|]. split; [exact Et|].
    cbn in H. now inversion H.
Qed.

End SubmitFacts.

(** X4. [ftl_stream_data] neither leaks nor double-frees a packet.
    Whenever it returns: on a stream that is disconnected or not active
    nothing changes; otherwise the copy of the packet is either the new
    tail of the queue, with one more permit on the semaphore, or it was
    handed to [obs_free_encoder_packet] (a video packet only), and in both
    cases the queued and the freed packets together are those of before
    plus the copy. *)
Theorem ftl_stream_data_accounts (HIGHEST : Z)
    (parse dup : encoder_packet -> encoder_packet)
    (s s' : ftl_stream) (p : encoder_packet) :
  ftl_stream_data HIGHEST parse dup s p = Ret s' ->
  if disconnected s || negb (active s) then s' = s
  else
    let new_packet :=
      if bool_decide (type p = OBS_ENCODER_VIDEO) then parse p else dup p in
    packets s' ++ freed s' ≡ₚ packets s ++ freed s ++ [new_packet] /\
    ((last (packets s') = Some new_packet /\
      last_dts_usec s' = dts_usec new_packet /\
      send_sem s' = send_sem s + 1) \/
     (last (freed s') = Some new_packet /\
      type p = OBS_ENCODER_VIDEO /\
      send_sem s' = send_sem s)).
Proof.
  intros H. apply ftl_stream_data_ret in H
    as [[-> ->] | [(-> & -> & Ht & ->) | (-> & -> & Ht & s1 & H1 & H)]].
  - reflexivity.
  - cbn [orb negb]. rewrite bool_decide_eq_false_2 by exact Ht. cbn.
    split; [|left; rewrite last_snoc; auto].
    rewrite <- !app_assoc. apply Permutation_app_head, Permutation_app_comm.
  - cbn [orb negb]. rewrite bool_decide_eq_true_2 by exact Ht. cbv zeta.
    assert (A : packets s1 ++ freed s1 ≡ₚ packets s ++ freed s /\
                send_sem s1 = send_sem s).
    { apply check_to_drop_frames_ret in H1 as [-> | H1]; [split; reflexivity|].
      apply drop_frames_ret in H1 as (-> & _). cbn.
      split; [|reflexivity].
      rewrite (Permutation_app_comm (freed s)), app_assoc.
      apply Permutation_app_tail, filter_app_complement. }
    destruct A as [A Esem].
    destruct H as [[_ ->] | (_ & _ & ->)]; cbn.
    + split; [|left; rewrite last_snoc; auto with lia].
      rewrite app_assoc, <- A, <- !app_assoc.
      apply Permutation_app_head, Permutation_app_comm.
    + split; [|right; rewrite last_snoc; auto].
      now rewrite !app_assoc, <- A.
Qed.

Lemma ftl_stream_data_accounts_witness :
  packets (os_sem_post
             (snd (add_packet congested_stream (audio_packet [] 140000))))
    ++ freed (os_sem_post
                (snd (add_packet congested_stream (audio_packet [] 140000))))
    ≡ₚ packets congested_stream ++ freed congested_stream
       ++ [audio_packet [] 140000] /\
  ((last (packets
            (os_sem_post
               (snd (add_packet congested_stream (audio_packet [] 140000)))))
    = Some (audio_packet [] 140000) /\
    last_dts_usec
      (os_sem_post
         (snd (add_packet congested_stream (audio_packet [] 140000))))
    = dts_usec (audio_packet [] 140000) /\
    send_sem
      (os_sem_post
         (snd (add_packet congested_stream (audio_packet [] 140000))))
    = send_sem congested_stream + 1) \/
   (last (freed
            (os_sem_post
               (snd (add_packet congested_stream (audio_packet [] 140000)))))
    = Some (audio_packet [] 140000) /\
    type (audio_packet [] 140000) = OBS_ENCODER_VIDEO /\
    send_sem
      (os_sem_post
         (snd (add_packet congested_stream (audio_packet [] 140000))))
    = send_sem congested_stream)).
Proof.
  apply (ftl_stream_data_accounts 3 same_packet same_packet congested_stream
           _ (audio_packet [] 140000)).
  vm_compute. reflexivity.
Defined.

(** X5. [ftl_stream_data] keeps a permit on the semaphore for every
    queued packet: when the queue is not longer than the count of the
    semaphore before the call, it is not after it, also when the call
    starts a drop episode or turns the packet away. *)
Theorem ftl_stream_data_permits (HIGHEST : Z)
    (parse dup : encoder_packet -> encoder_packet)
    (s s' : ftl_stream) (p : encoder_packet) :
  permits_cover_queue s ->
  ftl_stream_data HIGHEST parse dup s p = Ret s' ->
  permits_cover_queue s'.
Proof.
  unfold permits_cover_queue. intros Hs H.
  apply ftl_stream_data_ret in H
    as [[_ ->] | [(_ & _ & _ & ->) | (_ & _ & _ & s1 & H1 & H)]].
  - exact Hs.
  - cbn. rewrite length_app, Nat2Z.inj_add. cbn. lia.
  - assert (A : Z.of_nat (length (packets s1)) <= send_sem s1).
    { apply check_to_drop_frames_ret in H1 as [-> | H1]; [exact Hs|].
      apply drop_frames_ret in H1 as (-> & _). cbn.
      pose proof (length_filter (retained HIGHEST) (packets s)). lia. }
    destruct H as [[_ ->] | (_ & _ & ->)]; cbn.
    + rewrite length_app, Nat2Z.inj_add. cbn. lia.
    + exact A.
Qed.

Lemma ftl_stream_data_permits_witness :
  permits_cover_queue
    (obs_free_encoder_packet (video_packet [] 166665 false 1)
       (set_dropped_frames 4
          (set_min_drop_dts_usec 133332
             (set_min_priority 2
                (set_packets (filter (retained 3) episode_queue)
                   (set_freed (filter (discarded 3) episode_queue)
                      congested_stream)))))).
Proof.
  apply (ftl_stream_data_permits 3 same_packet same_packet congested_stream
           _ (video_packet [] 166665 false 1)).
  - vm_compute. intros H. discriminate H.
  - vm_compute. reflexivity.
Defined.

(** ** What sending a packet writes *)

Section SendMore.

Variable ingest : list media_call -> media_call -> Z.

(** The loop over the array in closed form, whenever it returns. *)
Lemma send_nalus_ret p n : forall i bytes s bytes' s',
  0 <= i ->
  send_nalus ingest n i p bytes s = Ret (bytes', s') ->
  s' = set_frames_sent
         (frames_sent s
          + marked_calls
              (map (video_call p)
                 (take n (drop (Z.to_nat i) (nalus (coded_pic_buffer s))))))
         (set_sent
            (sent s ++ map (video_call p)
                         (take n (drop (Z.to_nat i)
                                    (nalus (coded_pic_buffer s))))) s) /\
  bytes' = bytes
           + reply_sum ingest (sent s)
               (map (video_call p)
                  (take n (drop (Z.to_nat i) (nalus (coded_pic_buffer s))))).
Proof.
  induction n as [|n IH]; intros i bytes s bytes' s' Hi H; cbn [send_nalus] in H.
  - inversion H; subst. rewrite take_0. unfold marked_calls.
    cbn [map List.filter length reply_sum Z.of_nat].
    rewrite !Z.add_0_r, app_nil_r. split; [|reflexivity].
    destruct s'; reflexivity.
  - destruct (nalus (coded_pic_buffer s) !! Z.to_nat i) as [nalu|] eqn:E;
      [|discriminate].
    cbn [send_media] in H.
    bind_inv H as b Hb. apply int_val_Ret in Hb as [-> _].
    bind_inv H as s1 Hs1.
    apply IH in H; [|lia].
    replace (Z.to_nat (i + 1)) with (S (Z.to_nat i)) in H by lia.
    rewrite (drop_S _ _ _ E). cbn [take map reply_sum].
    fold (video_call p nalu) in *.
    unfold marked_calls in *. cbn [List.filter call_marker video_call].
    destruct (Z.eqb_spec (send_marker_bit nalu) 0) as [Em|Em];
      cbn [negb] in Hs1 |- *.
    + inversion Hs1; subst s1. cbn in H. destruct H as [-> ->].
      rewrite <- app_assoc. cbn [app]. split; [reflexivity | lia].
    + bind_inv Hs1 as fs Hfs. apply int_val64_Ret in Hfs as [-> _].
      inversion Hs1; subst s1. cbn in H. destruct H as [-> ->].
      rewrite <- app_assoc. cbn [app length]. rewrite Nat2Z.inj_succ.
      split; [|lia]. unfold set_frames_sent, set_sent. cbn. f_equal. lia.
Qed.

(** [send_packet] in closed form, whenever it returns. *)
Lemma send_packet_ret s p h idx ret s' :
  send_packet ingest s p h idx = Ret (ret, s') ->
  exists calls b l,
    ret = 0 /\
    s' = obs_free_encoder_packet p
           (set_total_bytes_sent
              (to_uint64 (total_bytes_sent s
                          + to_uint64 (reply_sum ingest (sent s) calls)))
              (set_frames_sent (frames_sent s + marked_calls calls)
                 (set_sent (sent s ++ calls)
                    (set_log l (set_coded_pic_buffer b s))))) /\
    match type p with
    | OBS_ENCODER_AUDIO =>
        calls = [ {| call_kind := FTL_AUDIO_DATA;
                     call_dts_usec := dts_usec p; call_data := 0;
                     call_len := size p; call_marker := 0 |} ] /\
        b = coded_pic_buffer s /\ l = log s
    | OBS_ENCODER_VIDEO =>
        exists code s1,
          avc_get_video_frame
            (set_coded_pic_buffer (set_total 0 (coded_pic_buffer s)) s)
            p h idx = Ret (code, s1) /\
          b = coded_pic_buffer s1 /\ l = log s1 /\
          calls = map (video_call p)
                    (take (Z.to_nat (total b)) (nalus b))
    end.
Proof.
  intros H. unfold send_packet in H.
  bind_inv H as r Hr. destruct r as [bytes s2]. inversion H; subst. clear H.
  destruct (type p) eqn:Et.
  - rewrite bool_decide_eq_false_2 in Hr by discriminate.
    rewrite bool_decide_eq_true_2 in Hr by reflexivity.
    cbn [send_media] in Hr. bind_inv Hr as b Hb.
    apply int_val_Ret in Hb as [-> _]. inversion Hr; subst. clear Hr.
    eexists _, (coded_pic_buffer s), (log s).
    split; [reflexivity|]. split; [|repeat split].
    unfold marked_calls. cbn [reply_sum List.filter call_marker Z.eqb negb
                              length Z.of_nat].
    rewrite !Z.add_0_l, !Z.add_0_r. unfold obs_free_encoder_packet.
    destruct s; reflexivity.
  - rewrite bool_decide_eq_true_2 in Hr by reflexivity.
    bind_inv Hr as parsed Hp. destruct parsed as [code s1]. cbn [snd] in Hr.
    pose proof Hp as Hp'.
    apply avc_get_video_frame_inv in Hp' as ((b & l & E1) & _).
    apply send_nalus_ret in Hr as [-> ->]; [|lia].
    rewrite drop_0.
    eexists _, (coded_pic_buffer s1), (log s1).
    split; [reflexivity|]. split.
    2:{ exists code, s1. repeat split. exact Hp. }
    rewrite Z.add_0_l. subst s1. unfold obs_free_encoder_packet.
    destruct s; reflexivity.
Qed.

(** Every call made for a packet carries its [dts_usec] and the media type
    of the packet. *)
Lemma send_packet_tags s p h idx ret s' calls :
  send_packet ingest s p h idx = Ret (ret, s') ->
  sent s' = sent s ++ calls ->
  Forall (fun c => call_dts_usec c = dts_usec p /\
                   call_kind c = kind_of (type p)) calls.
Proof.
  intros H Hc. apply send_packet_ret in H as (calls0 & b & l & _ & -> & H).
  cbn in Hc. apply app_inv_head in Hc. subst calls0.
  destruct (type p).
  - destruct H as (-> & _). repeat constructor.
  - destruct H as (code & s1 & _ & _ & _ & ->).
    apply Forall_fmap, Forall_forall. intros n _. split; reflexivity.
Qed.

(** [send_packet] leaves the array with its 100 entries, and counts at
    most 100 of them for a video packet. *)
Lemma send_packet_keeps_array s p h idx ret s' :
  length (nalus (coded_pic_buffer s)) = 100%nat ->
  send_packet ingest s p h idx = Ret (ret, s') ->
  length (nalus (coded_pic_buffer s')) = 100%nat /\
  (type p = OBS_ENCODER_VIDEO -> 0 <= total (coded_pic_buffer s') <= 100).
Proof.
  intros Hlen H. apply send_packet_ret in H as (calls & b & l & _ & -> & H).
  cbn. destruct (type p).
  - destruct H as (_ & -> & _). split; [exact Hlen | discriminate].
  - destruct H as (code & s1 & Hp & -> & _).
    apply avc_get_video_frame_inv in Hp as (_ & Hcases).
    assert (M0 : markers_clear
                   (coded_pic_buffer
                      (set_coded_pic_buffer
                         (set_total 0 (coded_pic_buffer s)) s))).
    { cbn. split; [exact Hlen|]. split; [cbn; lia|].
      intros i n Hi. cbn in Hi. lia. }
    destruct (Hcases M0)
      as [[_ (A & B & _)]|[(_ & _ & A & B & _)|(_ & _ & A & B & _)]];
      (split; [exact A | intros _; lia]).
Qed.

End SendMore.

(** X6. [send_packet] writes six fields of the stream at most: the NAL
    array, the log, the calls made, [frames_sent], [total_bytes_sent] and
    the packets freed.  The queue, the flags, the semaphore, the stop
    state, the drop policy's fields and the signals to the host are as
    before.  The calls it makes come after the earlier ones, and each
    carries the packet's [dts_usec] and the media type of the packet. *)
Theorem send_packet_writes_only
    (ingest : list media_call -> media_call -> Z) (s s' : ftl_stream)
    (p : encoder_packet) (is_header : bool) (idx ret : Z) :
  send_packet ingest s p is_header idx = Ret (ret, s') ->
  writes_send_fields s s' /\
  exists calls,
    sent s' = sent s ++ calls /\
    Forall (fun c => call_dts_usec c = dts_usec p /\
                     call_kind c = kind_of (type p)) calls.
Proof.
  intros H. apply send_packet_ret in H as (calls & b & l & _ & -> & H).
  split.
  - unfold obs_free_encoder_packet. cbn [freed set_total_bytes_sent].
    now eexists _, _, _, _, _, _.
  - exists calls. split; [reflexivity|].
    destruct (type p).
    + destruct H as (-> & _). repeat constructor.
    + destruct H as (code & s1 & _ & _ & _ & ->).
      apply Forall_fmap, Forall_forall. intros n _. split; reflexivity.
Qed.

Lemma send_packet_writes_only_witness :
  writes_send_fields ftl_stream_create
    (obs_free_encoder_packet (audio_packet [x01; x02] 20000)
       (set_total_bytes_sent 2
          (set_sent [ {| call_kind := FTL_AUDIO_DATA; call_dts_usec := 20000;
                         call_data := 0; call_len := 2; call_marker := 0 |} ]
             ftl_stream_create))) /\
  exists calls,
    sent (obs_free_encoder_packet (audio_packet [x01; x02] 20000)
            (set_total_bytes_sent 2
               (set_sent [ {| call_kind := FTL_AUDIO_DATA;
                              call_dts_usec := 20000; call_data := 0;
                              call_len := 2; call_marker := 0 |} ]
                  ftl_stream_create)))
    = sent ftl_stream_create ++ calls /\
    Forall (fun c => call_dts_usec c = dts_usec (audio_packet [x01; x02] 20000)
                     /\ call_kind c
                        = kind_of (type (audio_packet [x01; x02] 20000)))
      calls.
Proof.
  apply (send_packet_writes_only ingest_echo ftl_stream_create _
           (audio_packet [x01; x02] 20000) false 0 0).
  vm_compute. reflexivity.
Defined.

(** X7. The two counters of the send path.  Whenever [send_packet]
    returns, [total_bytes_sent] has grown, modulo 2^64, by the sum of the
    [int]s that [ftl_ingest_send_media_dts] returned for the calls of this
    packet, negative returns included, and [frames_sent] has grown by the
    number of those calls that carry the end-of-frame marker. *)
Theorem send_packet_counters
    (ingest : list media_call -> media_call -> Z) (s s' : ftl_stream)
    (p : encoder_packet) (is_header : bool) (idx ret : Z) :
  send_packet ingest s p is_header idx = Ret (ret, s') ->
  exists calls,
    sent s' = sent s ++ calls /\
    total_bytes_sent s' =
      to_uint64 (total_bytes_sent s
                 + to_uint64 (reply_sum ingest (sent s) calls)) /\
    frames_sent s' = frames_sent s + marked_calls calls.
Proof.
  intros H. apply send_packet_ret in H as (calls & b & l & _ & -> & _).
  exists calls. repeat split.
Qed.

(** An ingest that reports an error, -1, for every call: the counter of
    a fresh stream wraps to 2^64 - 1. *)
Lemma send_packet_counters_witness :
  exists calls,
    sent (obs_free_encoder_packet (audio_packet [x01; x02] 20000)
            (set_total_bytes_sent (2 ^ 64 - 1)
               (set_sent [ {| call_kind := FTL_AUDIO_DATA;
                              call_dts_usec := 20000; call_data := 0;
                              call_len := 2; call_marker := 0 |} ]
                  ftl_stream_create)))
    = sent ftl_stream_create ++ calls /\
    total_bytes_sent
      (obs_free_encoder_packet (audio_packet [x01; x02] 20000)
         (set_total_bytes_sent (2 ^ 64 - 1)
            (set_sent [ {| call_kind := FTL_AUDIO_DATA;
                           call_dts_usec := 20000; call_data := 0;
                           call_len := 2; call_marker := 0 |} ]
               ftl_stream_create)))
    = to_uint64 (total_bytes_sent ftl_stream_create
                 + to_uint64 (reply_sum (fun _ _ => -1)
                                (sent ftl_stream_create) calls)) /\
    frames_sent
      (obs_free_encoder_packet (audio_packet [x01; x02] 20000)
         (set_total_bytes_sent (2 ^ 64 - 1)
            (set_sent [ {| call_kind := FTL_AUDIO_DATA;
                           call_dts_usec := 20000; call_data := 0;
                           call_len := 2; call_marker := 0 |} ]
               ftl_stream_create)))
    = frames_sent ftl_stream_create + marked_calls calls.
Proof.
  apply (send_packet_counters (fun _ _ => -1) ftl_stream_create _
           (audio_packet [x01; x02] 20000) false 0 0).
  vm_compute. reflexivity.
Defined.

(** ** Headers *)

Lemma marked_calls_clear p l :
  Forall (fun n => send_marker_bit n = 0) l ->
  marked_calls (map (video_call p) l) = 0.
Proof.
  unfold marked_calls. induction 1 as [|n l Hn _ IH]; [reflexivity|].
  cbn [map List.filter call_marker video_call]. rewrite Hn. exact IH.
Qed.

Section HeaderFacts.

Variable ingest : list media_call -> media_call -> Z.

(** [send_headers] in closed form, on a stream whose array has its 100
    entries. *)
Lemma send_headers_ret s dts header ok s' :
  length (nalus (coded_pic_buffer s)) = 100%nat ->
  send_headers ingest s dts header = Ret (ok, s') ->
  exists calls b l packet,
    ok = true /\
    (length calls <= 100)%nat /\
    Forall (fun c => call_kind c = FTL_VIDEO_DATA /\ call_dts_usec c = dts /\
                     call_marker c = 0) calls /\
    length (nalus b) = 100%nat /\
    s' = obs_free_encoder_packet packet
           (set_total_bytes_sent
              (to_uint64 (total_bytes_sent s
                          + to_uint64 (reply_sum ingest (sent s) calls)))
              (set_sent (sent s ++ calls)
                 (set_log l (set_coded_pic_buffer b
                               (set_sent_headers true s))))).
Proof.
  intros Hlen H. unfold send_headers, send_video_header in H.
  bind_inv H as r Hr. bind_inv Hr as r0 Hr0. destruct r0 as [ret s0].
  apply send_packet_ret in Hr0 as (calls & b & l & -> & -> & Hv).
  cbn [type] in Hv. destruct Hv as (code & s1 & Hp & -> & -> & ->).
  inversion Hr; subst. clear Hr. cbn in H. inversion H; subst. clear H.
  apply avc_get_video_frame_inv in Hp as (_ & Hcases).
  assert (M : markers_clear (coded_pic_buffer s1)).
  { destruct Hcases as [[_ M]|[(_ & _ & M)|(_ & Hh & _)]];
      [| exact M | exact M | discriminate Hh].
    cbn. split; [exact Hlen|]. split; [cbn; lia|].
    intros i n Hi. cbn in Hi. lia. }
  pose proof (take_markers_clear _ M) as Hm.
  destruct M as (Hl & Ht & _).
  exists (map (video_call
                 {| data := header; dts_usec := dts; sys_dts_usec := 0;
                    type := OBS_ENCODER_VIDEO; keyframe := true;
                    priority := 0; drop_priority := 0; track_idx := 0 |})
            (take (Z.to_nat (total (coded_pic_buffer s1)))
               (nalus (coded_pic_buffer s1)))),
    (coded_pic_buffer s1), (log s1).
  eexists.
  split; [reflexivity|]. split.
  { rewrite length_map, length_take. lia. }
  split.
  { apply Forall_fmap. eapply Forall_impl; [exact Hm|].
    intros n Hn. cbn. auto. }
  split; [exact Hl|].
  rewrite (marked_calls_clear _ _ Hm), Z.add_0_r.
  unfold obs_free_encoder_packet, set_frames_sent. cbn. reflexivity.
Qed.

End HeaderFacts.

(** X8. Sending the parameter sets counts no frame.  On a stream whose
    NAL array has its 100 entries, [send_headers], whenever it returns,
    returns [true] and has set [sent_headers]; it has made at most 100
    calls, all of them video calls with the [dts_usec] it was given and
    without the end-of-frame marker; and [frames_sent] is as before. *)
Theorem send_headers_counts_no_frame
    (ingest : list media_call -> media_call -> Z) (s s' : ftl_stream)
    (dts : Z) (header : list byte) (ok : bool) :
  length (nalus (coded_pic_buffer s)) = 100%nat ->
  send_headers ingest s dts header = Ret (ok, s') ->
  ok = true /\ sent_headers s' = true /\ frames_sent s' = frames_sent s /\
  exists calls,
    sent s' = sent s ++ calls /\ (length calls <= 100)%nat /\
    Forall (fun c => call_kind c = FTL_VIDEO_DATA /\ call_dts_usec c = dts /\
                     call_marker c = 0) calls.
Proof.
  intros Hlen H.
  apply send_headers_ret in H as (calls & b & l & pk & -> & Hn & Hc & _ & ->);
    [|exact Hlen].
  repeat split. exists calls. repeat split; assumption.
Qed.

Lemma send_headers_counts_no_frame_witness :
  true = true /\
  sent_headers
    (stream_of (send_headers ingest_echo ftl_stream_create 0 sample_header))
  = true /\
  frames_sent
    (stream_of (send_headers ingest_echo ftl_stream_create 0 sample_header))
  = frames_sent ftl_stream_create /\
  exists calls,
    sent (stream_of (send_headers ingest_echo ftl_stream_create 0
                       sample_header))
    = sent ftl_stream_create ++ calls /\ (length calls <= 100)%nat /\
    Forall (fun c => call_kind c = FTL_VIDEO_DATA /\ call_dts_usec c = 0 /\
                     call_marker c = 0) calls.
Proof.
  apply (send_headers_counts_no_frame ingest_echo ftl_stream_create _ 0
           sample_header true).
  - vm_compute. reflexivity.
  - vm_compute. reflexivity.
Defined.

(** ** The send worker: [send_thread] *)

Section WorkerFacts.

Variable ingest : list media_call -> media_call -> Z.
Variable header : list byte.

(** What a turn of the loop keeps and what it moves. *)
Lemma send_thread_turn_keeps s how s' :
  length (nalus (coded_pic_buffer s)) = 100%nat ->
  send_thread_turn ingest s header = Ret (how, s') ->
  length (nalus (coded_pic_buffer s')) = 100%nat /\
  signals s' = signals s /\ stop_event s' = stop_event s /\
  stop_ts s' = stop_ts s /\ active s' = active s /\
  disconnected s' = disconnected s /\ send_sem s' = send_sem s /\
  (exists calls,
     sent s' = sent s ++ calls /\
     (how <> loop_continue -> calls = []) /\
     match head (packets s) with
     | Some p => Forall (fun c => call_dts_usec c = dts_usec p) calls
     | None => calls = []
     end) /\
  (exists fr, freed s' = freed s ++ fr /\
              packets s `sublist_of` fr ++ packets s') /\
  packets s' = (if how is break_immediate_stop then packets s
                else tail (packets s)) /\
  match how with
  | loop_continue => True
  | break_immediate_stop => stopping s = true /\ stop_ts s = 0
  | break_stop_deadline =>
      stopping s = true /\
      exists p, head (packets s) = Some p /\
                to_int64 (stop_ts s) <= sys_dts_usec p
  | _ => False
  end.
Proof.
  intros Hlen H. unfold send_thread_turn in H.
  destruct (stopping s && (stop_ts s =? 0)) eqn:E0.
  { inversion H; subst. apply andb_true_iff in E0 as [E1 E2].
    apply Z.eqb_eq in E2.
    repeat split; auto.
    - exists []. rewrite app_nil_r. repeat split.
      destruct (head (packets s')); constructor.
    - exists []. now rewrite app_nil_r. }
  unfold get_next_packet in H. destruct (packets s) as [|p q] eqn:Eq.
  { inversion H; subst. rewrite Eq.
    repeat split; auto.
    - exists []. now rewrite app_nil_r.
    - exists []. now rewrite app_nil_r. }
  cbn [stopping stop_event set_packets stop_ts] in H.
  destruct (stop_event s && (to_int64 (stop_ts s) <=? sys_dts_usec p)) eqn:E1.
  { inversion H; subst. apply andb_true_iff in E1 as [E1 E2].
    apply Z.leb_le in E2. cbn.
    repeat split; auto.
    - exists []. rewrite app_nil_r. repeat split. constructor.
    - exists [p]. split; reflexivity.
    - exists p. auto. }
  bind_inv H as hd Hhd. destruct hd as [ok s1].
  assert (Hs1 : ok = true /\ exists calls1 b1 l1 hs fr1 bytes1,
            length (nalus b1) = 100%nat /\
            Forall (fun c => call_dts_usec c = dts_usec p) calls1 /\
            s1 = set_freed (freed s ++ fr1)
                   (set_total_bytes_sent bytes1
                      (set_sent (sent s ++ calls1)
                         (set_log l1 (set_coded_pic_buffer b1
                            (set_sent_headers hs (set_packets q s))))))).
  { destruct (keyframe p).
    - apply send_headers_ret in Hhd
        as (calls & b & l & pk & -> & _ & Hc & Hb & ->); [|exact Hlen].
      split; [reflexivity|].
      exists calls, b, l, true, [pk]. eexists.
      split; [exact Hb|]. split.
      { eapply Forall_impl; [exact Hc|]. intros c (_ & Hd & _). exact Hd. }
      unfold obs_free_encoder_packet. cbn. reflexivity.
    - inversion Hhd; subst. split; [reflexivity|].
      exists [], (coded_pic_buffer s), (log s), (sent_headers s), [],
        (total_bytes_sent s).
      split; [exact Hlen|]. split; [constructor|].
      rewrite !app_nil_r. destruct s; cbn in *. now subst. }
  destruct Hs1 as (-> & calls1 & b1 & l1 & hs & fr1 & bytes1 & Hb1 & Hc1 & ->).
  cbn [fst snd negb] in H.
  bind_inv H as r Hr. destruct r as [ret s2].
  pose proof Hr as Hr'. pose proof Hr as Hr''.
  apply send_packet_ret in Hr as (calls & b & l & -> & -> & _).
  cbn in H. inversion H; subst. clear H.
  apply send_packet_keeps_array in Hr' as [Hr' _]; [|exact Hb1].
  apply send_packet_tags with (calls := calls) in Hr''; [|reflexivity].
  cbn in Hr' |- *.
  repeat split; auto.
  - exists (calls1 ++ calls). rewrite app_assoc. split; [reflexivity|].
    split; [congruence|]. apply Forall_app. split; [exact Hc1|].
    eapply Forall_impl; [exact Hr''|]. intros c [Hd _]. exact Hd.
  - exists (fr1 ++ [p]). rewrite app_assoc. split; [reflexivity|].
    rewrite <- app_assoc. apply sublist_inserts_l. reflexivity.
Qed.

(** The calls of a run of the loop: one group per packet taken from the
    queue, in queue order. *)
Lemma send_thread_loop_keeps waits : forall s left s',
  length (nalus (coded_pic_buffer s)) = 100%nat ->
  send_thread_loop ingest header waits s = Ret (left, s') ->
  length (nalus (coded_pic_buffer s')) = 100%nat /\
  signals s' = signals s /\ stop_event s' = stop_event s /\
  stop_ts s' = stop_ts s /\ active s' = active s /\
  disconnected s' = disconnected s /\
  (exists groups taken,
     sent s' = sent s ++ concat groups /\
     Forall2 (fun p g => Forall (fun c => call_dts_usec c = dts_usec p) g)
       taken groups /\
     taken `prefix_of` packets s) /\
  (exists fr, freed s' = freed s ++ fr /\
              packets s `sublist_of` fr ++ packets s') /\
  (left = true -> stopping s = true \/ false ∈ waits) /\
  (left = false ->
   send_sem s' = send_sem s - Z.of_nat (length waits) /\
   packets s' = drop (length waits) (packets s)).
Proof.
  induction waits as [|w waits IH]; intros s left s' Hlen H;
    cbn [send_thread_loop] in H.
  - inversion H; subst. repeat split; auto; try discriminate.
    + exists [], []. rewrite app_nil_r. repeat split; [constructor|].
      apply prefix_nil.
    + exists []. now rewrite app_nil_r.
    + cbn. lia.
  - destruct w.
    2:{ inversion H; subst. repeat split; auto; try discriminate.
        - exists [], []. rewrite app_nil_r. repeat split; [constructor|].
          apply prefix_nil.
        - exists []. now rewrite app_nil_r.
        - intros _. right. left. }
    bind_inv H as r Hr. destruct r as [how s1]. cbn [fst snd] in H.
    apply send_thread_turn_keeps in Hr
      as (L1 & A1 & A2 & A3 & A4 & A5 & A6 & (calls & C1 & C2 & C3)
          & (fr1 & F1 & F2) & P1 & Hhow); [|exact Hlen].
    cbn in A1, A2, A3, A4, A5, A6, C1, C3, F1, F2, P1, Hhow.
    destruct how; try contradiction.
    + apply IH in H
        as (L2 & B1 & B2 & B3 & B4 & B5 & (groups & taken & G1 & G2 & G3)
            & (fr2 & F3 & F4) & Hl & Hw); [|exact L1].
      split; [exact L2|].
      split; [congruence|]. split; [congruence|]. split; [congruence|].
      split; [congruence|]. split; [congruence|].
      split; [|split; [|split]].
      * destruct (packets s) as [|p q] eqn:Eq; cbn in C3, P1.
        -- subst calls. rewrite P1 in G3. apply prefix_nil_inv in G3.
           subst taken. exists groups, []. rewrite G1, C1, app_nil_r.
           repeat split; [exact G2 | apply prefix_nil].
        -- exists (calls :: groups), (p :: taken).
           rewrite G1, C1, <- app_assoc. split; [reflexivity|].
           split; [constructor; assumption|].
           rewrite P1 in G3. now apply prefix_cons.
      * exists (fr1 ++ fr2). rewrite F3, F1, <- app_assoc.
        split; [reflexivity|].
        etransitivity; [exact F2|]. rewrite <- app_assoc.
        now apply sublist_app.
      * intros Hleft. destruct (Hl Hleft) as [Hs|Hf].
        -- left. unfold stopping in *. congruence.
        -- right. now right.
      * intros Hleft. destruct (Hw Hleft) as [Hsem Hq].
        rewrite Hsem, A6, Hq, P1. cbn [length]. rewrite Nat2Z.inj_succ.
        split; [lia|].
        destruct (packets s); cbn [tail]; [now rewrite !drop_nil | reflexivity].
    + destruct Hhow as [Hs _]. inversion H; subst.
      split; [exact L1|]. repeat split; auto; try discriminate.
      * exists [], []. rewrite C1, C2, !app_nil_r by discriminate.
        repeat split; [constructor | apply prefix_nil].
      * exists fr1. split; [exact F1 | exact F2].
    + destruct Hhow as [Hs _]. inversion H; subst.
      split; [exact L1|]. repeat split; auto; try discriminate.
      * exists [], []. rewrite C1, C2, !app_nil_r by discriminate.
        repeat split; [constructor | apply prefix_nil].
      * exists fr1. split; [exact F1 | exact F2].
Qed.

End WorkerFacts.

(** X9. However the send worker leaves its loop, it leaves the stream
    shut down.  On a stream whose NAL array has its 100 entries, whenever
    [send_thread] returns: the queue is empty, [active] and
    [sent_headers] are cleared, the stop event is reset, [disconnected]
    is as it was, every packet that was queued at the start has been
    handed to [obs_free_encoder_packet], and the host has been told
    exactly one thing: [obs_output_end_data_capture] when the stream was
    stopping, [obs_output_signal_stop] with OBS_OUTPUT_DISCONNECTED when
    it was not. *)
Theorem send_thread_exit_state
    (ingest : list media_call -> media_call -> Z) (header : list byte)
    (waits : list bool) (s s' : ftl_stream) :
  length (nalus (coded_pic_buffer s)) = 100%nat ->
  send_thread ingest header waits s = Ret (true, s') ->
  packets s' = [] /\ active s' = false /\ sent_headers s' = false /\
  stopping s' = false /\ disconnected s' = disconnected s /\
  signals s' =
    signals s ++ [ if stopping s then end_data_capture
                   else signal_stop OBS_OUTPUT_DISCONNECTED ] /\
  exists fr, freed s' = freed s ++ fr /\ packets s `sublist_of` fr.
Proof.
  intros Hlen H. unfold send_thread in H.
  bind_inv H as r Hr. destruct r as [left s1]. cbn [fst snd] in H.
  destruct left; [|discriminate].
  inversion H; subst. clear H.
  apply send_thread_loop_keeps in Hr
    as (_ & A1 & A2 & _ & _ & A5 & _ & (fr & F1 & F2) & _); [|exact Hlen].
  unfold send_thread_exit, stopping. rewrite A2.
  destruct (stop_event s); cbn [negb]; rewrite free_packets_closed; cbn;
    rewrite A1, A5, F1;
    (repeat split; exists (fr ++ packets s1);
     split; [now rewrite app_assoc | exact F2]).
Qed.

Lemma send_thread_exit_state_witness :
  packets (stream_of (send_thread ingest_echo sample_header [true; false]
                        live_stream)) = [] /\
  active (stream_of (send_thread ingest_echo sample_header [true; false]
                       live_stream)) = false /\
  sent_headers (stream_of (send_thread ingest_echo sample_header [true; false]
                             live_stream)) = false /\
  stopping (stream_of (send_thread ingest_echo sample_header [true; false]
                         live_stream)) = false /\
  disconnected (stream_of (send_thread ingest_echo sample_header [true; false]
                             live_stream)) = disconnected live_stream /\
  signals (stream_of (send_thread ingest_echo sample_header [true; false]
                        live_stream)) =
    signals live_stream ++ [ if stopping live_stream then end_data_capture
                             else signal_stop OBS_OUTPUT_DISCONNECTED ] /\
  exists fr,
    freed (stream_of (send_thread ingest_echo sample_header [true; false]
                        live_stream)) = freed live_stream ++ fr /\
    packets live_stream `sublist_of` fr.
Proof.
  apply (send_thread_exit_state ingest_echo sample_header [true; false]
           live_stream).
  - vm_compute. reflexivity.
  - vm_compute. reflexivity.
Defined.

(** X10. The send worker sends the queue in order.  On a stream whose
    NAL array has its 100 entries, whenever [send_thread] returns, the
    calls it made to [ftl_ingest_send_media_dts] are one group of calls
    per packet taken from the front of the queue, in queue order, and
    every call of a group, header calls included, carries the [dts_usec]
    of its packet. *)
Theorem send_thread_sends_in_queue_order
    (ingest : list media_call -> media_call -> Z) (header : list byte)
    (waits : list bool) (s s' : ftl_stream) (left : bool) :
  length (nalus (coded_pic_buffer s)) = 100%nat ->
  send_thread ingest header waits s = Ret (left, s') ->
  exists groups taken,
    sent s' = sent s ++ concat groups /\
    Forall2 (fun p g => Forall (fun c => call_dts_usec c = dts_usec p) g)
      taken groups /\
    taken `prefix_of` packets s.
Proof.
  intros Hlen H. unfold send_thread in H.
  bind_inv H as r Hr. destruct r as [left1 s1]. cbn [fst snd] in H.
  apply send_thread_loop_keeps in Hr
    as (_ & _ & _ & _ & _ & _ & (groups & taken & G1 & G2 & G3) & _);
    [|exact Hlen].
  exists groups, taken.
  destruct left1; inversion H; subst; clear H; [|auto].
  split; [|auto]. unfold send_thread_exit.
  rewrite free_packets_closed.
  destruct (negb (stopping s1)); cbn; exact G1.
Qed.

Lemma send_thread_sends_in_queue_order_witness :
  exists groups taken,
    sent (stream_of (send_thread ingest_echo sample_header [true; true]
                       live_stream))
    = sent live_stream ++ concat groups /\
    Forall2 (fun p g => Forall (fun c => call_dts_usec c = dts_usec p) g)
      taken groups /\
    taken `prefix_of` packets live_stream.
Proof.
  apply (send_thread_sends_in_queue_order ingest_echo sample_header
           [true; true] live_stream _ false).
  - vm_compute. reflexivity.
  - vm_compute. reflexivity.
Defined.

(** X11. The send worker never gives up on its own.  On a stream that is
    not stopping and whose NAL array has its 100 entries, as long as
    every [os_sem_wait] succeeds the worker stays in its loop whatever
    [ftl_ingest_send_media_dts] returns: whenever [send_thread] returns
    it has not left the loop, it has signalled nothing to the host,
    [active] and [disconnected] are as they were, and it has taken one
    permit and at most one packet per wait. *)
Theorem send_thread_stays_until_stopped
    (ingest : list media_call -> media_call -> Z) (header : list byte)
    (waits : list bool) (s s' : ftl_stream) (left : bool) :
  length (nalus (coded_pic_buffer s)) = 100%nat ->
  stopping s = false ->
  Forall (fun w => w = true) waits ->
  send_thread ingest header waits s = Ret (left, s') ->
  left = false /\ signals s' = signals s /\ active s' = active s /\
  disconnected s' = disconnected s /\
  send_sem s' = send_sem s - Z.of_nat (length waits) /\
  packets s' = drop (length waits) (packets s).
Proof.
  intros Hlen Hs Hw H. unfold send_thread in H.
  bind_inv H as r Hr. destruct r as [left1 s1]. cbn [fst snd] in H.
  apply send_thread_loop_keeps in Hr
    as (_ & A1 & _ & _ & A4 & A5 & _ & _ & Hl & Hf); [|exact Hlen].
  destruct left1.
  - exfalso. destruct (Hl eq_refl) as [Hs'|Hin]; [congruence|].
    apply (proj1 (Forall_forall _ _) Hw) in Hin. discriminate Hin.
  - inversion H; subst. destruct (Hf eq_refl) as [Hsem Hq].
    repeat split; assumption.
Qed.

Lemma send_thread_stays_until_stopped_witness :
  false = false /\
  signals (stream_of (send_thread (fun _ _ => -1) sample_header [true; true]
                        live_stream)) = signals live_stream /\
  active (stream_of (send_thread (fun _ _ => -1) sample_header [true; true]
                       live_stream)) = active live_stream /\
  disconnected (stream_of (send_thread (fun _ _ => -1) sample_header
                             [true; true] live_stream))
  = disconnected live_stream /\
  send_sem (stream_of (send_thread (fun _ _ => -1) sample_header [true; true]
                         live_stream))
  = send_sem live_stream - Z.of_nat (length [true; true]) /\
  packets (stream_of (send_thread (fun _ _ => -1) sample_header [true; true]
                        live_stream))
  = drop (length [true; true]) (packets live_stream).
Proof.
  apply (send_thread_stays_until_stopped (fun _ _ => -1) sample_header
           [true; true] live_stream _ false).
  - vm_compute. reflexivity.
  - vm_compute. reflexivity.
  - repeat constructor.
  - vm_compute. reflexivity.
Defined.


(** X12. Stopping at once discards the queue.  [ftl_stream_stop] with a
    timestamp below one microsecond, called when no stop is pending on a
    stream that is active and not connecting, posts the semaphore, and
    the send worker's next turn ends the worker: no queued packet is
    sent, all of them are handed to [obs_free_encoder_packet] in queue
    order, the host gets [obs_output_end_data_capture], and the stream is
    left inactive with the stop event reset and the semaphore at its old
    count. *)
Theorem ftl_stream_stop_now_discards_queue
    (join_connect : ftl_stream -> ftl_stream)
    (ingest : list media_call -> media_call -> Z) (header : list byte)
    (waits : list bool) (s : ftl_stream) (ts : Z) :
  stopping s = false -> connecting s = false -> active s = true ->
  to_uint64 ts / 1000 = 0 ->
  exists s',
    send_thread ingest header (true :: waits)
      (ftl_stream_stop join_connect s ts) = Ret (true, s') /\
    sent s' = sent s /\
    freed s' = freed s ++ packets s /\
    packets s' = [] /\
    signals s' = signals s ++ [end_data_capture] /\
    send_sem s' = send_sem s /\
    active s' = false /\ stopping s' = false.
Proof.
  intros Hs Hc Ha Hts. unfold ftl_stream_stop. rewrite Hs, Hc.
  cbn [active set_stop_ts os_event_signal set_stop_event stop_ts].
  rewrite Ha, Hts. cbn [Z.eqb].
  unfold send_thread. cbn [send_thread_loop].
  unfold send_thread_turn. cbn. 
  eexists. split; [reflexivity|].
  unfold send_thread_exit. rewrite free_packets_closed. cbn.
  repeat split. lia.
Qed.

Lemma ftl_stream_stop_now_discards_queue_witness :
  exists s',
    send_thread ingest_echo sample_header [true]
      (ftl_stream_stop (fun s => s) live_stream 500) = Ret (true, s') /\
    sent s' = sent live_stream /\
    freed s' = freed live_stream ++ packets live_stream /\
    packets s' = [] /\
    signals s' = signals live_stream ++ [end_data_capture] /\
    send_sem s' = send_sem live_stream /\
    active s' = false /\ stopping s' = false.
Proof.
  apply (ftl_stream_stop_now_discards_queue (fun s => s) ingest_echo
           sample_header [] live_stream 500); reflexivity.
Defined.

Lemma to_int64_small z : 0 <= z < 2 ^ 63 -> to_int64 z = z.
Proof.
  intros Hz. unfold to_int64. rewrite Z.mod_small by lia. lia.
Qed.

(** X13. Stopping at a timestamp cuts the queue at that timestamp.
    After [ftl_stream_stop] with a timestamp of one microsecond or more,
    called when no stop is pending on a stream that is active and not
    connecting, a turn of the send worker that finds at the head of the
    queue a packet whose [sys_dts_usec] is not before the stop time ends
    the worker: that packet and all behind it are handed to
    [obs_free_encoder_packet] unsent, and the host gets
    [obs_output_end_data_capture]. *)
Theorem ftl_stream_stop_deadline_cuts_queue
    (join_connect : ftl_stream -> ftl_stream)
    (ingest : list media_call -> media_call -> Z) (header : list byte)
    (waits : list bool) (s : ftl_stream) (ts : Z)
    (p : encoder_packet) (q : list encoder_packet) :
  stopping s = false -> connecting s = false -> active s = true ->
  0 < to_uint64 ts / 1000 ->
  packets s = p :: q ->
  to_uint64 ts / 1000 <= sys_dts_usec p ->
  exists s',
    send_thread ingest header (true :: waits)
      (ftl_stream_stop join_connect s ts) = Ret (true, s') /\
    sent s' = sent s /\
    freed s' = freed s ++ p :: q /\
    packets s' = [] /\
    signals s' = signals s ++ [end_data_capture] /\
    send_sem s' = send_sem s - 1 /\
    active s' = false /\ stopping s' = false.
Proof.
  intros Hs Hc Ha Hts Hq Hp. unfold ftl_stream_stop. rewrite Hs, Hc.
  cbn [active set_stop_ts os_event_signal set_stop_event stop_ts].
  rewrite Ha.
  destruct (Z.eqb_spec (to_uint64 ts / 1000) 0) as [E|_]; [lia|].
  unfold send_thread. cbn [send_thread_loop].
  unfold send_thread_turn, get_next_packet. cbn.
  destruct (Z.eqb_spec (to_uint64 ts / 1000) 0) as [E|_]; [lia|].
  rewrite Hq.
  assert (Hr : 0 <= to_uint64 ts / 1000 < 2 ^ 63).
  { unfold to_uint64.
    pose proof (Z.mod_pos_bound ts (2 ^ 64) ltac:(lia)) as Hm.
    split; [apply Z.div_pos; lia | apply Z.div_lt_upper_bound; lia]. }
  cbn. rewrite (to_int64_small _ Hr).
  destruct (Z.leb_spec (to_uint64 ts / 1000) (sys_dts_usec p)); [|lia].
  cbn. eexists. split; [reflexivity|].
  unfold send_thread_exit. rewrite free_packets_closed. cbn.
  rewrite <- app_assoc. repeat split.
Qed.

Lemma ftl_stream_stop_deadline_cuts_queue_witness :
  exists s',
    send_thread ingest_echo sample_header [true]
      (ftl_stream_stop (fun s => s) live_stream 20000000) = Ret (true, s') /\
    sent s' = sent live_stream /\
    freed s' = freed live_stream
               ++ audio_packet [x01; x02] 20000
                  :: [video_packet one_idr 33333 true 3] /\
    packets s' = [] /\
    signals s' = signals live_stream ++ [end_data_capture] /\
    send_sem s' = send_sem live_stream - 1 /\
    active s' = false /\ stopping s' = false.
Proof.
  apply (ftl_stream_stop_deadline_cuts_queue (fun s => s) ingest_echo
           sample_header [] live_stream 20000000);
    first [reflexivity | vm_compute; intros H; discriminate H].
Defined.

(** X14. A turn of the send worker keeps a permit for every queued
    packet.  When every queued packet has its permit and the semaphore is
    positive, taking one permit and running a turn that goes on to the
    next turn leaves a permit for every packet still queued. *)
Theorem send_thread_turn_permits
    (ingest : list media_call -> media_call -> Z) (header : list byte)
    (s s' : ftl_stream) :
  length (nalus (coded_pic_buffer s)) = 100%nat ->
  permits_cover_queue s -> 0 < send_sem s ->
  send_thread_turn ingest (set_send_sem (send_sem s - 1) s) header
    = Ret (loop_continue, s') ->
  permits_cover_queue s'.
Proof.
  unfold permits_cover_queue. intros Hlen Hp Hpos H.
  apply send_thread_turn_keeps in H
    as (_ & _ & _ & _ & _ & _ & A6 & _ & _ & P1 & _); [|exact Hlen].
  cbn in A6, P1. rewrite A6, P1.
  destruct (packets s); cbn [tail length] in *; lia.
Qed.

Lemma send_thread_turn_permits_witness :
  permits_cover_queue
    (stream_of (send_thread_turn ingest_echo
                  (set_send_sem (send_sem live_stream - 1) live_stream)
                  sample_header)).
Proof.
  apply (send_thread_turn_permits ingest_echo sample_header live_stream).
  - vm_compute. reflexivity.
  - vm_compute. intros H. discriminate H.
  - vm_compute. reflexivity.
  - vm_compute. reflexivity.
Defined.

(** ** The connect worker: [connect_thread] *)

Section ConnectMore.

Variable code : ftl_status_t -> Z.
Hypothesis code_inj : forall a b, code a = code b -> a = b.

(** The statuses that [_ftl_error_to_obs_error] turns into
    OBS_OUTPUT_SUCCESS. *)
Lemma ftl_error_success status :
  ErrorMap._ftl_error_to_obs_error code status = OBS_OUTPUT_SUCCESS <->
  status = code FTL_SUCCESS \/ status = code FTL_USER_DISCONNECT.
Proof using code_inj.
  split.
  - unfold ErrorMap._ftl_error_to_obs_error, ErrorMap.status_is.
    repeat match goal with
    | |- context [Z.eqb status (code ?c)] =>
        destruct (Z.eqb_spec status (code c))
    end; intros H; first [discriminate H | auto].
  - intros [-> | ->].
    + unfold ErrorMap._ftl_error_to_obs_error, ErrorMap.status_is.
      now rewrite Z.eqb_refl.
    + unfold ErrorMap._ftl_error_to_obs_error, ErrorMap.status_is.
      decide_status_tests code_inj. reflexivity.
Qed.

End ConnectMore.

(** X15. The connect worker tells the host one thing at most, and
    nothing at all in one case.  With pairwise distinct status values,
    [connect_thread] appends to the signals of the stream (as the join
    with an old send worker left it) a single signal, except when
    [init_connect] succeeded, the path is set and [ftl_ingest_connect]
    returned FTL_USER_DISCONNECT: then [try_connect] reports
    OBS_OUTPUT_SUCCESS without starting a send worker, and the host gets
    neither [obs_output_begin_data_capture] nor
    [obs_output_signal_stop].  [obs_output_begin_data_capture] is given
    exactly when every step succeeded; the queue is empty afterwards in
    every case; and [connecting] is cleared exactly when [init_connect]
    succeeded. *)
Theorem connect_thread_signals_once
    (code : ftl_status_t -> Z) (scaled_bitrate : Z -> Z)
    (join_send : ftl_stream -> ftl_stream) (e : connect_env)
    (s : ftl_stream) :
  (forall a b, code a = code b -> a = b) ->
  let s0 := if stopping s then join_send s else s in
  let s' := connect_thread code scaled_bitrate join_send e s in
  let init_ok :=
    service_present e && (ingest_create e =? code FTL_SUCCESS) in
  exists sigs,
    signals s' = signals s0 ++ sigs /\ (length sigs <= 1)%nat /\
    (sigs = [] <->
     init_ok = true /\ path_is_empty e = false /\
     ingest_connect e = code FTL_USER_DISCONNECT) /\
    (sigs = [begin_data_capture] <->
     init_ok = true /\ path_is_empty e = false /\
     ingest_connect e = code FTL_SUCCESS /\ send_thread_created e = true) /\
    (init_ok = false -> sigs = [signal_stop OBS_OUTPUT_BAD_PATH]) /\
    packets s' = [] /\
    connecting s' = (if init_ok then false else connecting s0).
Proof.
  intros inj s0 s' init_ok. subst s' init_ok.
  unfold connect_thread, init_connect. fold s0.
  rewrite free_packets_closed.
  destruct (service_present e); cbn [negb andb].
  2:{ exists [signal_stop OBS_OUTPUT_BAD_PATH]. cbn.
      repeat split; try discriminate; try lia; intros (H & _);
        discriminate H. }
  destruct (Z.eqb_spec (ingest_create e) (code FTL_SUCCESS)) as [Ec|Ec];
    cbn [negb].
  2:{ exists [signal_stop OBS_OUTPUT_BAD_PATH]. cbn.
      repeat split; try discriminate; try lia; intros (H & _);
        discriminate H. }
  unfold try_connect.
  destruct (path_is_empty e); cbn [negb].
  { exists [signal_stop OBS_OUTPUT_BAD_PATH]. cbn.
    repeat split; try discriminate; try lia; intros (_ & H & _);
      discriminate H. }
  destruct (Z.eqb_spec (ingest_connect e) (code FTL_SUCCESS)) as [Ei|Ei];
    cbn [negb].
  - assert (Hne : code FTL_SUCCESS <> code FTL_USER_DISCONNECT).
    { intros H. apply inj in H. discriminate H. }
    unfold init_send, set_peak_bitrate.
    destruct (send_thread_created e); cbn [negb];
      [exists [begin_data_capture] | exists [signal_stop OBS_OUTPUT_ERROR]];
      destruct (_ <? 0); try destruct (_ =? _); cbn;
      repeat split; try discriminate; try lia; try congruence;
      intros (_ & _ & H & _); congruence.
  - destruct (ErrorMap._ftl_error_to_obs_error code (ingest_connect e)) eqn:Em.
    + apply (ftl_error_success code inj) in Em as [Em|Em]; [contradiction|].
      exists []. cbn. rewrite app_nil_r.
      repeat split; try discriminate; try lia; try assumption.
    + exists [signal_stop OBS_OUTPUT_BAD_PATH]. cbn.
      assert (Hn : ingest_connect e <> code FTL_USER_DISCONNECT).
      { intros H.
        assert (Hs : ErrorMap._ftl_error_to_obs_error code (ingest_connect e)
                     = OBS_OUTPUT_SUCCESS)
          by (apply (ftl_error_success code inj); now right).
        congruence. }
      repeat split; try discriminate; try lia;
        intros (_ & _ & H); try destruct H; contradiction.
    + exists [signal_stop OBS_OUTPUT_CONNECT_FAILED]. cbn.
      assert (Hn : ingest_connect e <> code FTL_USER_DISCONNECT).
      { intros H.
        assert (Hs : ErrorMap._ftl_error_to_obs_error code (ingest_connect e)
                     = OBS_OUTPUT_SUCCESS)
          by (apply (ftl_error_success code inj); now right).
        congruence. }
      repeat split; try discriminate; try lia;
        intros (_ & _ & H); try destruct H; contradiction.
    + exists [signal_stop OBS_OUTPUT_ERROR]. cbn.
      assert (Hn : ingest_connect e <> code FTL_USER_DISCONNECT).
      { intros H.
        assert (Hs : ErrorMap._ftl_error_to_obs_error code (ingest_connect e)
                     = OBS_OUTPUT_SUCCESS)
          by (apply (ftl_error_success code inj); now right).
        congruence. }
      repeat split; try discriminate; try lia;
        intros (_ & _ & H); try destruct H; contradiction.
    + exists [signal_stop OBS_OUTPUT_DISCONNECTED]. cbn.
      assert (Hn : ingest_connect e <> code FTL_USER_DISCONNECT).
      { intros H.
        assert (Hs : ErrorMap._ftl_error_to_obs_error code (ingest_connect e)
                     = OBS_OUTPUT_SUCCESS)
          by (apply (ftl_error_success code inj); now right).
        congruence. }
      repeat split; try discriminate; try lia;
        intros (_ & _ & H); try destruct H; contradiction.
Qed.

Lemma to_int64_in z : in_int64 z -> to_int64 z = z.
Proof.
  unfold in_int64, INT64_MIN, INT64_MAX, to_int64. intros Hz.
  rewrite Z.mod_small by lia. lia.
Qed.

Lemma sample_code_inj a b : sample_code a = sample_code b -> a = b.
Proof.
  destruct a, b; simpl; intros H; first [reflexivity | discriminate H].
Qed.

Lemma connect_thread_signals_once_witness :
  let s0 := if stopping ftl_stream_create then ftl_stream_create
            else ftl_stream_create in
  let s' := connect_thread sample_code eleven_tenths (fun s => s)
              user_disconnect_env ftl_stream_create in
  let init_ok :=
    service_present user_disconnect_env
    && (ingest_create user_disconnect_env =? sample_code FTL_SUCCESS) in
  exists sigs,
    signals s' = signals s0 ++ sigs /\ (length sigs <= 1)%nat /\
    (sigs = [] <->
     init_ok = true /\ path_is_empty user_disconnect_env = false /\
     ingest_connect user_disconnect_env = sample_code FTL_USER_DISCONNECT) /\
    (sigs = [begin_data_capture] <->
     init_ok = true /\ path_is_empty user_disconnect_env = false /\
     ingest_connect user_disconnect_env = sample_code FTL_SUCCESS /\
     send_thread_created user_disconnect_env = true) /\
    (init_ok = false -> sigs = [signal_stop OBS_OUTPUT_BAD_PATH]) /\
    packets s' = [] /\
    connecting s' = (if init_ok then false else connecting s0).
Proof.
  apply (connect_thread_signals_once sample_code eleven_tenths (fun s => s)
           user_disconnect_env ftl_stream_create).
  exact sample_code_inj.
Defined.

(** X16. A start that succeeds at every step leaves a stream ready to
    take packets.  When the host lets the output start, no stop is
    pending, and the service, [ftl_ingest_create], the path,
    [ftl_ingest_connect] and the creation of the send worker all succeed,
    [ftl_stream_start] followed by [connect_thread] leaves the stream
    active, neither connecting nor disconnected, with an empty queue, the
    semaphore at 0 (so every queued packet has its permit), the counters
    and the drop policy reset, the drop threshold equal to the option
    times 1000 as an [int64_t] (modulo 2^64), the shutdown time equal to
    the option cast to [int] (its low 32 bits), the packets that were
    still queued handed to [obs_free_encoder_packet], and
    [obs_output_begin_data_capture] as the one signal to the host. *)
Theorem start_then_connect_ready
    (code : ftl_status_t -> Z) (scaled_bitrate : Z -> Z)
    (join_send : ftl_stream -> ftl_stream) (h : start_env)
    (e : connect_env) (s : ftl_stream) :
  can_begin_data_capture h = true -> initialize_encoders h = true ->
  connect_thread_created h = true ->
  stopping s = false ->
  service_present e = true -> ingest_create e = code FTL_SUCCESS ->
  path_is_empty e = false -> ingest_connect e = code FTL_SUCCESS ->
  send_thread_created e = true ->
  let s' := connect_thread code scaled_bitrate join_send e
              (snd (ftl_stream_start h s)) in
  fst (ftl_stream_start h s) = true /\
  active s' = true /\ connecting s' = false /\ disconnected s' = false /\
  packets s' = [] /\ send_sem s' = 0 /\ permits_cover_queue s' /\
  frames_sent s' = 0 /\ total_bytes_sent s' = 0 /\ dropped_frames s' = 0 /\
  min_priority s' = 0 /\ min_drop_dts_usec s' = 0 /\
  drop_threshold_usec s' = to_int64 (opt_drop_threshold e * 1000) /\
  max_shutdown_time_sec s' = to_int (opt_max_shutdown_time e) /\
  (in_int64 (opt_drop_threshold e * 1000) ->
   drop_threshold_usec s' = opt_drop_threshold e * 1000) /\
  (in_int (opt_max_shutdown_time e) ->
   max_shutdown_time_sec s' = opt_max_shutdown_time e) /\
  freed s' = freed s ++ packets s /\
  signals s' = signals s ++ [begin_data_capture].
Proof.
  intros H1 H2 H3 Hs E1 E2 E3 E4 E5 s'. subst s'.
  unfold ftl_stream_start. rewrite H1, H2, H3. cbn [negb fst snd].
  unfold connect_thread, init_connect, try_connect, init_send,
    set_peak_bitrate, permits_cover_queue.
  cbn [stopping stop_event set_connecting set_frames_sent].
  unfold stopping in Hs. rewrite Hs, E1, E2, E3, E4, E5, !Z.eqb_refl.
  cbn [negb]. rewrite free_packets_closed.
  destruct (_ <? 0); try destruct (_ =? _); cbn -[to_int64 to_int];
    repeat split; try lia; intros Hin;
    first [now apply to_int64_in | now apply to_int_small].
Qed.

Lemma start_then_connect_ready_witness :
  let s' := connect_thread sample_code eleven_tenths (fun s => s)
              wide_options_env
              (snd (ftl_stream_start willing_host episode_stream)) in
  fst (ftl_stream_start willing_host episode_stream) = true /\
  active s' = true /\ connecting s' = false /\ disconnected s' = false /\
  packets s' = [] /\ send_sem s' = 0 /\ permits_cover_queue s' /\
  frames_sent s' = 0 /\ total_bytes_sent s' = 0 /\ dropped_frames s' = 0 /\
  min_priority s' = 0 /\ min_drop_dts_usec s' = 0 /\
  drop_threshold_usec s'
  = to_int64 (opt_drop_threshold wide_options_env * 1000) /\
  max_shutdown_time_sec s' = to_int (opt_max_shutdown_time wide_options_env) /\
  (in_int64 (opt_drop_threshold wide_options_env * 1000) ->
   drop_threshold_usec s' = opt_drop_threshold wide_options_env * 1000) /\
  (in_int (opt_max_shutdown_time wide_options_env) ->
   max_shutdown_time_sec s' = opt_max_shutdown_time wide_options_env) /\
  freed s' = freed episode_stream ++ packets episode_stream /\
  signals s' = signals episode_stream ++ [begin_data_capture].
Proof.
  apply (start_then_connect_ready sample_code eleven_tenths (fun s => s)
           willing_host wide_options_env episode_stream); reflexivity.
Defined.

(** At those options the product wraps to -1000 and the cast leaves 5;
    at 600 ms and 5 s the stream holds 600000 and 5. *)
Example init_connect_options :
  let wide := snd (init_connect sample_code eleven_tenths (fun s => s)
                     wide_options_env ftl_stream_create) in
  let usual := snd (init_connect sample_code eleven_tenths (fun s => s)
                      first_connect_env ftl_stream_create) in
  drop_threshold_usec wide = -1000 /\ max_shutdown_time_sec wide = 5 /\
  drop_threshold_usec usual = 600000 /\ max_shutdown_time_sec usual = 5.
Proof. vm_compute. repeat split. Qed.

(** ** The status worker: [status_thread] *)

Module StatusWorkerMore.
Import StatusWorker.

Lemma quiet_or_done_step w e : quiet_or_done w -> quiet_or_done (step w e).
Proof.
  intros H. destruct e as [|r]; [exact H|].
  unfold step. destruct (pc w) eqn:Epc.
  - destruct H as [H|(_ & H & _)]; [|congruence]. left. exact H.
  - destruct H as [H|(_ & H & _)]; [|congruence].
    unfold quiet_or_done. cbn. rewrite H.
    destruct r as [| | |[|]| | | | |]; cbn; try (left; reflexivity).
    right. split; [reflexivity|]. split; [reflexivity|].
    exists (flag w). apply last_snoc.
  - exact H.
Qed.

Lemma quiet_or_done_run es : forall w,
  quiet_or_done w -> quiet_or_done (run w es).
Proof.
  induction es as [|e es IH]; intros w H; [exact H|].
  apply IH, quiet_or_done_step, H.
Qed.

Lemma returned_run es : forall w,
  pc w = returned ->
  pc (run w es) = returned /\ trace (run w es) = trace w /\
  host (run w es) = host w.
Proof.
  induction es as [|e es IH]; intros w H; [repeat split; exact H|].
  cbn [run fold_left]. fold (run (step w e) es).
  destruct e as [|r].
  - destruct (IH (step w store_disconnected) H) as (A & B & C).
    repeat split; assumption.
  - assert (E : step w (worker r) = w) by (unfold step; now rewrite H).
    rewrite E. now apply IH.
Qed.

Lemma flag_step w e : flag w = true -> flag (step w e) = true.
Proof.
  intros H. destruct e as [|r]; [reflexivity|].
  unfold step. destruct (pc w); exact H.
Qed.

Lemma moves_left_step w r :
  flag w = true -> (moves_left (step w (worker r)) <= pred (moves_left w))%nat.
Proof.
  intros H. unfold moves_left, step. destruct (pc w) eqn:E; cbn.
  - rewrite H. cbn. lia.
  - destruct r as [| | |[|]| | | | |]; cbn; lia.
  - rewrite E. lia.
Qed.

Lemma moves_left_run es : forall w,
  flag w = true ->
  (moves_left w <= length (List.filter is_worker es))%nat ->
  pc (run w es) = returned.
Proof.
  induction es as [|e es IH]; intros w Hf Hn.
  - cbn in Hn. unfold moves_left in Hn. cbn.
    destruct (pc w); [lia | lia | reflexivity].
  - cbn [run fold_left]. fold (run (step w e) es).
    apply IH; [now apply flag_step|].
    destruct e as [|r]; cbn [List.filter is_worker length] in Hn.
    + exact Hn.
    + pose proof (moves_left_step w r Hf). lia.
Qed.

End StatusWorkerMore.

(** X17. The status worker tells the host at most one thing.  Along
    every schedule of worker moves and stores to [disconnected], the
    worker has either signalled nothing, or it has called
    [obs_output_signal_stop] once, with OBS_OUTPUT_DISCONNECTED, as its
    last action, on a disconnect event that was not an API request, and
    has returned; and once it has returned, no further step changes what
    it did. *)
Theorem status_thread_signals_once (es more : list StatusWorker.event) :
  quiet_or_done (StatusWorker.run StatusWorker.start es) /\
  (StatusWorker.pc (StatusWorker.run StatusWorker.start es)
     = StatusWorker.returned ->
   StatusWorker.trace (StatusWorker.run StatusWorker.start (es ++ more))
     = StatusWorker.trace (StatusWorker.run StatusWorker.start es) /\
   StatusWorker.host (StatusWorker.run StatusWorker.start (es ++ more))
     = StatusWorker.host (StatusWorker.run StatusWorker.start es)).
Proof.
  split.
  - apply StatusWorkerMore.quiet_or_done_run. left. reflexivity.
  - intros H. unfold StatusWorker.run at 1 3. rewrite fold_left_app.
    fold (StatusWorker.run StatusWorker.start es).
    now apply StatusWorkerMore.returned_run.
Qed.

(** X18. The status worker leaves within two moves of the flag being
    set.  From any state in which [disconnected] is set, after any
    schedule that holds two moves of the worker or more, the worker has
    returned: it finishes the call of [ftl_ingest_get_status] it may be
    in, tests the flag and leaves. *)
Theorem status_thread_leaves_after_flag
    (w : StatusWorker.world) (es : list StatusWorker.event) :
  StatusWorker.flag w = true ->
  (2 <= length (List.filter is_worker es))%nat ->
  StatusWorker.pc (StatusWorker.run w es) = StatusWorker.returned.
Proof.
  intros Hf Hn. apply StatusWorkerMore.moves_left_run; [exact Hf|].
  unfold moves_left.
  destruct (StatusWorker.pc w); lia.
Qed.

Lemma status_thread_leaves_after_flag_witness :
  StatusWorker.pc
    (StatusWorker.run
       (StatusWorker.run StatusWorker.start
          [ StatusWorker.worker StatusWorker.reply_timeout;
            StatusWorker.store_disconnected ])
       [ StatusWorker.worker StatusWorker.reply_log;
         StatusWorker.worker StatusWorker.reply_video ])
  = StatusWorker.returned.
Proof.
  apply (status_thread_leaves_after_flag
           (StatusWorker.run StatusWorker.start
              [ StatusWorker.worker StatusWorker.reply_timeout;
                StatusWorker.store_disconnected ])).
  - reflexivity.
  - cbn. lia.
Defined.

(** ** Destroying the output: [ftl_stream_destroy] *)

(** X19. Destroying a live output ends the data capture twice.
    [ftl_stream_destroy] on a stream that is active, neither stopping nor
    connecting, with the send worker waiting on the semaphore: the
    function itself calls [obs_output_end_data_capture], and the send
    worker it wakes and joins calls it again on its way out; no queued
    packet is sent, and all of them are handed to
    [obs_free_encoder_packet] in queue order. *)
Theorem ftl_stream_destroy_ends_capture_twice
    (join_connect : ftl_stream -> ftl_stream)
    (ingest : list media_call -> media_call -> Z) (header : list byte)
    (waits : list bool) (s : ftl_stream) :
  stopping s = false -> connecting s = false -> active s = true ->
  let s' := ftl_stream_destroy (send_worker_joined ingest header waits)
              join_connect s in
  signals s' = signals s ++ [end_data_capture; end_data_capture] /\
  sent s' = sent s /\
  freed s' = freed s ++ packets s /\
  packets s' = [] /\ active s' = false.
Proof.
  intros Hs Hc Ha s'. subst s'. unfold ftl_stream_destroy.
  rewrite Hs, Hc. cbn [andb orb negb]. rewrite Ha.
  cbn [active set_stop_ts os_event_signal set_stop_event os_sem_post
       set_send_sem add_signal set_signals].
  rewrite Ha.
  unfold send_worker_joined, send_thread. cbn [send_thread_loop].
  unfold send_thread_turn, send_thread_exit. cbn.
  rewrite !free_packets_loop_all. cbn.
  destruct (packets s); cbn; rewrite <- ?app_assoc, ?app_nil_r;
    repeat split.
Qed.

Lemma ftl_stream_destroy_ends_capture_twice_witness :
  let s' := ftl_stream_destroy
              (send_worker_joined ingest_echo sample_header [])
              (fun s => s) live_stream in
  signals s' = signals live_stream ++ [end_data_capture; end_data_capture] /\
  sent s' = sent live_stream /\
  freed s' = freed live_stream ++ packets live_stream /\
  packets s' = [] /\ active s' = false.
Proof.
  apply (ftl_stream_destroy_ends_capture_twice (fun s => s) ingest_echo
           sample_header [] live_stream); reflexivity.
Defined.

(** ** The splitter on well-formed frames *)

Lemma map_mark_last {B} (g : Z * Z -> B) (l : list (Z * Z * Z)) :
  map (fun v => g (fst v)) (mark_last l) = map (fun v => g (fst v)) l.
Proof.
  destruct l as [|[[o n] m] l] using rev_ind; [reflexivity|].
  rewrite mark_last_snoc, !map_app. reflexivity.
Qed.

(** X20. The splitter undoes the AVCC framing.  For a frame made of at
    most 100 non-empty NAL units, each behind its length in four bytes,
    of which one at least passes the filter, on a stream whose array has
    its 100 entries and a count of 0: [avc_get_video_frame] returns 0,
    logs nothing, and the counted entries of the array, read back from
    the payload at their offset and length, are the units that pass the
    filter, in order. *)
Theorem avc_get_video_frame_round_trip (s : ftl_stream) (p : encoder_packet)
    (units : list (list byte)) (idx : Z) :
  data p = avcc units ->
  Forall (fun u => u <> []) units ->
  size p <= INT_MAX ->
  (length units <= 100)%nat ->
  avcc_entries 0 units <> [] ->
  length (nalus (coded_pic_buffer s)) = 100%nat ->
  total (coded_pic_buffer s) = 0 ->
  exists s',
    avc_get_video_frame s p false idx = Ret (0, s') /\
    log s' = log s /\
    map (nalu_payload (data p))
      (take (Z.to_nat (total (coded_pic_buffer s')))
         (nalus (coded_pic_buffer s')))
    = List.filter unit_passes units.
Proof.
  intros Hd Hne Hmax Hk Hsome Hlen Ht.
  destruct (avc_get_video_frame_avcc s p units idx Hd Hne Hmax Hk Hsome
              Hlen Ht) as (s' & E & _ & Hlog & _ & _ & Em).
  exists s'. split; [exact E|]. split; [exact Hlog|].
  pose proof (avcc_entries_payloads units []) as Hp.
  change (Z.of_nat (length (@nil byte))) with 0 in Hp. cbn [app] in Hp.
  rewrite <- Hp, <- Hd.
  rewrite <- (map_mark_last
                (fun v => take (Z.to_nat (snd v))
                            (drop (Z.to_nat (fst v)) (data p)))).
  rewrite <- Em. unfold emitted. rewrite map_map. reflexivity.
Qed.

Lemma avc_get_video_frame_round_trip_witness :
  exists s',
    avc_get_video_frame ftl_stream_create filter_packet false 0
    = Ret (0, s') /\
    log s' = log ftl_stream_create /\
    map (nalu_payload (data filter_packet))
      (take (Z.to_nat (total (coded_pic_buffer s')))
         (nalus (coded_pic_buffer s')))
    = List.filter unit_passes [[x65]; [x06]; [x09]; [x0c]; [x41; xff]].
Proof.
  apply (avc_get_video_frame_round_trip ftl_stream_create filter_packet
           [[x65]; [x06]; [x09]; [x0c]; [x41; xff]] 0).
  - reflexivity.
  - repeat constructor; discriminate.
  - vm_compute. discriminate.
  - cbn. lia.
  - vm_compute. discriminate.
  - reflexivity.
  - reflexivity.
Defined.

Lemma send_packet_avcc_frame_witness :
  exists s',
    send_packet (fun _ _ => 1316) ftl_stream_create filter_packet false 0
    = Ret (0, s') /\
    sent s' = sent ftl_stream_create
              ++ map (call_of_view filter_packet)
                   (mark_last
                      (avcc_entries 0
                         [[x65]; [x06]; [x09]; [x0c]; [x41; xff]])) /\
    frames_sent s' = frames_sent ftl_stream_create + 1 /\
    log s' = log ftl_stream_create /\
    freed s' = freed ftl_stream_create ++ [filter_packet].
Proof.
  apply (send_packet_avcc_frame (fun _ _ => 1316) ftl_stream_create
           filter_packet [[x65]; [x06]; [x09]; [x0c]; [x41; xff]] 0).
  - intros h c. lia.
  - reflexivity.
  - reflexivity.
  - repeat constructor; discriminate.
  - vm_compute. discriminate.
  - cbn. lia.
  - vm_compute. discriminate.
  - reflexivity.
  - vm_compute. discriminate.
  - vm_compute. discriminate.
Defined.

Lemma send_packet_video_markers_witness :
  exists code s1,
    avc_get_video_frame
      (set_coded_pic_buffer
         (set_total 0 (coded_pic_buffer ftl_stream_create))
         ftl_stream_create) filter_packet false 0
    = Ret (code, s1) /\
    ((code = -1 \/ false = true) /\
       Forall (fun c => call_marker c = 0)
         (map (call_of_view filter_packet) [(4, 1, 0); (24, 2, 1)]) \/
     (code = 0 /\ false = false) /\
       exists pre c,
         map (call_of_view filter_packet) [(4, 1, 0); (24, 2, 1)]
         = pre ++ [c] /\
         Forall (fun c => call_marker c = 0) pre /\ call_marker c = 1).
Proof.
  apply (send_packet_video_markers ingest_echo ftl_stream_create
           filter_packet false 0 0
           (stream_of (send_packet ingest_echo ftl_stream_create
                         filter_packet false 0))
           (map (call_of_view filter_packet) [(4, 1, 0); (24, 2, 1)])).
  - reflexivity.
  - reflexivity.
  - vm_compute. reflexivity.
  - vm_compute. reflexivity.
  - discriminate.
Defined.

(** ** Overruns that are not reported *)

(** A length prefix that does not exceed the bytes left, prefix included,
    is read back without a warning. *)
Lemma read_length_be32 pre n rest s :
  0 <= n <= 4 + Z.of_nat (length rest) ->
  Z.of_nat (length (pre ++ be32 n ++ rest)) <= INT_MAX ->
  read_length (pre ++ be32 n ++ rest) false
    (Z.of_nat (length pre)) (Z.of_nat (length pre)) s
  = Ret (n, Z.of_nat (length pre) + 4, Z.of_nat (length pre) + 4, s).
Proof.
  intros Hn Hmax.
  assert (Hlen : Z.of_nat (length (pre ++ be32 n ++ rest))
                 = Z.of_nat (length pre) + 4 + Z.of_nat (length rest)).
  { rewrite !length_app, !Nat2Z.inj_add. cbn [be32 length]. lia. }
  unfold INT_MAX in Hmax.
  assert (Hn31 : 0 <= n < 2 ^ 31) by lia.
  unfold read_length.
  rewrite <- (Z.add_0_r (Z.of_nat (length pre))) at 1.
  rewrite (byte_at_app pre _ 0 (byte_of_Z (Z.shiftr n 24))) by (reflexivity || lia).
  rewrite (byte_at_app pre _ 1 (byte_of_Z (Z.land (Z.shiftr n 16) 255)))
    by (reflexivity || lia).
  rewrite (byte_at_app pre _ 2 (byte_of_Z (Z.land (Z.shiftr n 8) 255)))
    by (reflexivity || lia).
  rewrite (byte_at_app pre _ 3 (byte_of_Z (Z.land n 255)))
    by (reflexivity || lia).
  cbn [bind].
  pose proof (shiftr_24_range n Hn31) as H24.
  rewrite !byte_val_of_Z by (apply land_255_range || lia).
  rewrite int_val_in.
  2:{ unfold in_int, INT_MIN, INT_MAX. rewrite Z.shiftl_mul_pow2 by lia. lia. }
  cbn [bind]. rewrite decode_be32 by exact Hn31.
  rewrite (to_size_t_small (Z.of_nat (length pre))) by lia.
  rewrite (to_size_t_small n) by lia.
  rewrite to_size_t_small by lia.
  destruct (Z.gtb_spec n (Z.of_nat (length (pre ++ be32 n ++ rest))
                          - Z.of_nat (length pre))) as [Hgt|_]; [lia|].
  rewrite int_val_in by (unfold in_int, INT_MIN, INT_MAX; lia).
  reflexivity.
Qed.

(** X21. An overrun of up to four bytes goes unreported.  The test for
    an overrun compares the advertised length with the bytes left before
    the length prefix is consumed.  For a frame of one NAL unit that
    passes the filter and whose prefix advertises more bytes than the
    unit has, by four at most, [avc_get_video_frame] returns 0 and logs
    nothing, and the one entry it leaves has the advertised length and
    ends past the end of the payload. *)
Theorem avc_get_video_frame_silent_overrun (s : ftl_stream)
    (p : encoder_packet) (n : Z) (u : list byte) (idx : Z) :
  data p = be32 n ++ u ->
  unit_passes u = true ->
  Z.of_nat (length u) < n <= Z.of_nat (length u) + 4 ->
  4 + n <= INT_MAX ->
  length (nalus (coded_pic_buffer s)) = 100%nat ->
  total (coded_pic_buffer s) = 0 ->
  exists s',
    avc_get_video_frame s p false idx = Ret (0, s') /\
    log s' = log s /\
    emitted (coded_pic_buffer s') = [(4, n, 1)] /\
    size p < 4 + n.
Proof.
  intros Hd Hu Hn Hmax Hlen Ht. unfold size in *. rewrite Hd in *.
  assert (Hsz : Z.of_nat (length (be32 n ++ u)) = 4 + Z.of_nat (length u)).
  { rewrite length_app, Nat2Z.inj_add. cbn [be32 length]. lia. }
  unfold INT_MAX in Hmax.
  pose proof (read_length_be32 [] n u s) as R.
  change (Z.of_nat (length (@nil byte))) with 0 in R. cbn [app] in R.
  specialize (R ltac:(lia) ltac:(unfold INT_MAX; lia)).
  change (0 + 4) with 4 in R.
  destruct u as [|b u']; [discriminate Hu|]. cbn [unit_passes] in Hu.
  destruct (lookup_lt_is_Some_2 (nalus (coded_pic_buffer s)) 0) as [n0 Hn0];
    [lia|].
  assert (Hs : nalus_store 0 (fill_nalu 4 n) (coded_pic_buffer s)
               = Ret (set_nalus (<[0%nat := fill_nalu 4 n n0]>
                                   (nalus (coded_pic_buffer s)))
                        (coded_pic_buffer s))).
  { unfold nalus_store, NALUS_CAPACITY. cbn.
    change (Z.to_nat 0) with 0%nat. now rewrite Hn0. }
  assert (Hturn : avc_turn (be32 n ++ b :: u') false 0 0 s
                  = Ret (4 + n, 4 + n,
                         set_coded_pic_buffer
                           (set_total 1
                              (set_nalus (<[0%nat := fill_nalu 4 n n0]>
                                            (nalus (coded_pic_buffer s)))
                                 (coded_pic_buffer s))) s)).
  { unfold avc_turn. rewrite R. cbn [bind].
    rewrite int_val_in by (unfold in_int, INT_MIN, INT_MAX; lia).
    cbn [bind].
    assert (Hb : byte_at (be32 n ++ b :: u') 4 = Ret (byte_val b))
      by reflexivity.
    rewrite Hb. cbn [bind]. rewrite Hu, Ht, Hs. cbn [bind total set_nalus].
    rewrite Ht. reflexivity. }
  unfold avc_get_video_frame.
  assert (Hloop : avc_loop (length (be32 n ++ b :: u')) (be32 n ++ b :: u')
                    false 0 0 s
                  = Ret (None,
                         set_coded_pic_buffer
                           (set_total 1
                              (set_nalus (<[0%nat := fill_nalu 4 n n0]>
                                            (nalus (coded_pic_buffer s)))
                                 (coded_pic_buffer s))) s)).
  { destruct (length (be32 n ++ b :: u')) as [|fuel] eqn:Ef;
      [cbn in Ef; discriminate|].
    cbn [avc_loop]. rewrite (to_size_t_small 0) by lia.
    destruct (Z.ltb_spec 0 (Z.of_nat (length (be32 n ++ b :: u'))));
      [|lia].
    rewrite Ht. unfold NALUS_CAPACITY. rewrite (to_size_t_small 0) by lia.
    cbn [Z.leb Z.compare]. rewrite Hturn. cbn [bind].
    destruct fuel as [|fuel']; cbn [avc_loop];
      rewrite (to_size_t_small (4 + n)) by lia;
      (destruct (Z.ltb_spec (4 + n) (Z.of_nat (length (be32 n ++ b :: u'))));
       [lia | reflexivity]). }
  rewrite Hd, Hloop. cbn [bind negb coded_pic_buffer set_coded_pic_buffer total
                          set_total].
  rewrite int_val_in by (unfold in_int, INT_MIN, INT_MAX; lia).
  cbn [bind]. unfold nalus_store, NALUS_CAPACITY. cbn.
  rewrite list_lookup_insert_eq by lia. cbn.
  eexists. split; [reflexivity|]. split; [reflexivity|].
  split; [|cbn [length] in Hn; lia]. unfold emitted. cbn.
  rewrite list_insert_insert_eq.
  destruct (nalus (coded_pic_buffer s)) as [|x l]; [discriminate Hlen|].
  reflexivity.
Qed.

Lemma avc_get_video_frame_silent_overrun_witness :
  exists s',
    avc_get_video_frame ftl_stream_create short_packet false 0
    = Ret (0, s') /\
    log s' = log ftl_stream_create /\
    emitted (coded_pic_buffer s') = [(4, 5, 1)] /\
    size short_packet < 4 + 5.
Proof.
  apply (avc_get_video_frame_silent_overrun ftl_stream_create short_packet
           5 [x65] 0).
  - reflexivity.
  - reflexivity.
  - cbn. lia.
  - vm_compute. discriminate.
  - reflexivity.
  - reflexivity.
Defined.

(** ** The splitter on parameter-set headers *)

(** Two bytes, most significant first, read back with a shift and an
    or. *)
Lemma decode_be16 n :
  0 <= n -> Z.lor (Z.shiftl (Z.shiftr n 8) 8) (Z.land n 255) = n.
Proof.
  intros Hn. apply Z.bits_inj'. intros i Hi.
  rewrite Z.lor_spec, Z.shiftl_spec, Z.land_spec by lia.
  change 255 with (Z.ones 8).
  destruct (Z.lt_ge_cases i 8) as [H8|H8].
  - rewrite (Z.testbit_neg_r _ (i - 8)), Z.ones_spec_low by lia. cbn.
    now rewrite andb_true_r.
  - rewrite (Z.ones_spec_high 8 i), andb_false_r, orb_false_r by lia.
    rewrite Z.shiftr_spec by lia. f_equal. lia.
Qed.

Lemma shiftr_8_range n : 0 <= n < 2 ^ 16 -> 0 <= Z.shiftr n 8 < 256.
Proof.
  intros Hn. rewrite Z.shiftr_div_pow2 by lia. split.
  - apply Z.div_pos; lia.
  - apply Z.div_lt_upper_bound; lia.
Qed.

Lemma length_header_unit u :
  Z.of_nat (length (header_unit u)) = 2 + Z.of_nat (length u).
Proof. unfold header_unit. rewrite length_app. cbn. lia. Qed.

(** The length of a unit of a header is read back from its two bytes;
    [skip] is what lies between the cursor and the length: the six bytes
    at the start, one byte later on. *)
Lemma read_length_header pre skip n rest s :
  (if Z.of_nat (length pre) =? 0 then 6 else 1) = Z.of_nat (length skip) ->
  0 <= n < 2 ^ 16 ->
  Z.of_nat (length (pre ++ skip ++ be16 n ++ rest)) <= INT_MAX ->
  read_length (pre ++ skip ++ be16 n ++ rest) true
    (Z.of_nat (length pre)) (Z.of_nat (length pre)) s
  = Ret (n, Z.of_nat (length (pre ++ skip)) + 2,
         Z.of_nat (length (pre ++ skip)) + 2, s).
Proof.
  intros Hskip Hn Hmax.
  assert (Hlen : Z.of_nat (length (pre ++ skip ++ be16 n ++ rest))
                 = Z.of_nat (length pre) + Z.of_nat (length skip) + 2
                   + Z.of_nat (length rest)).
  { rewrite !length_app, !Nat2Z.inj_add. cbn [be16 length]. lia. }
  unfold INT_MAX in Hmax.
  unfold read_length. rewrite Hskip.
  replace (Z.of_nat (length pre) + Z.of_nat (length skip))
    with (Z.of_nat (length (pre ++ skip)))
    by (rewrite length_app, Nat2Z.inj_add; reflexivity).
  assert (Hps : Z.of_nat (length (pre ++ skip))
                = Z.of_nat (length pre) + Z.of_nat (length skip))
    by (rewrite length_app, Nat2Z.inj_add; reflexivity).
  rewrite int_val_in by (unfold in_int, INT_MIN, INT_MAX; lia).
  cbn [bind]. rewrite (app_assoc pre skip).
  rewrite <- (Z.add_0_r (Z.of_nat (length (pre ++ skip)))) at 1.
  rewrite (byte_at_app (pre ++ skip) _ 0 (byte_of_Z (Z.shiftr n 8)))
    by (reflexivity || lia).
  rewrite (byte_at_app (pre ++ skip) _ 1 (byte_of_Z (Z.land n 255)))
    by (reflexivity || lia).
  cbn [bind].
  pose proof (shiftr_8_range n Hn) as H8.
  rewrite !byte_val_of_Z by (apply land_255_range || lia).
  rewrite decode_be16 by lia.
  rewrite int_val_in by (unfold in_int, INT_MIN, INT_MAX; lia).
  reflexivity.
Qed.

(** One turn of the loop on a unit of a header. *)
Lemma avc_turn_header pre skip u rest s :
  (if Z.of_nat (length pre) =? 0 then 6 else 1) = Z.of_nat (length skip) ->
  u <> [] -> Z.of_nat (length u) < 2 ^ 16 ->
  Z.of_nat (length (pre ++ skip ++ header_unit u ++ rest)) <= INT_MAX ->
  length (nalus (coded_pic_buffer s)) = 100%nat ->
  0 <= total (coded_pic_buffer s) < 100 ->
  exists s',
    avc_turn (pre ++ skip ++ header_unit u ++ rest) true
      (Z.of_nat (length pre)) (Z.of_nat (length pre)) s
    = Ret (Z.of_nat (length (pre ++ skip)) + 2 + Z.of_nat (length u),
           Z.of_nat (length (pre ++ skip)) + 2 + Z.of_nat (length u), s') /\
    log s' = log s /\
    length (nalus (coded_pic_buffer s')) = 100%nat /\
    total (coded_pic_buffer s') =
      total (coded_pic_buffer s) + (if unit_passes u then 1 else 0) /\
    emitted (coded_pic_buffer s') =
      emitted (coded_pic_buffer s)
      ++ (if unit_passes u
          then [(Z.of_nat (length (pre ++ skip)) + 2,
                 Z.of_nat (length u), 0)] else []).
Proof.
  intros Hskip Hu Hu16 Hmax Hlen Ht.
  assert (Hd : Z.of_nat (length (pre ++ skip ++ header_unit u ++ rest))
               = Z.of_nat (length (pre ++ skip)) + 2 + Z.of_nat (length u)
                 + Z.of_nat (length rest)).
  { rewrite !length_app, !Nat2Z.inj_add, length_header_unit. lia. }
  unfold avc_turn, header_unit in *. rewrite <- (app_assoc (be16 _)).
  rewrite <- (app_assoc (be16 _)) in Hmax, Hd.
  rewrite read_length_header by (assumption || lia). cbn [bind].
  unfold INT_MAX in Hmax.
  rewrite int_val_in by (unfold in_int, INT_MIN, INT_MAX; lia).
  cbn [bind].
  destruct u as [|b u']; [congruence|].
  assert (Hb : byte_at (pre ++ skip ++ be16 (Z.of_nat (length (b :: u')))
                        ++ (b :: u') ++ rest)
                 (Z.of_nat (length (pre ++ skip)) + 2) = Ret (byte_val b)).
  { rewrite (app_assoc pre skip).
    apply (byte_at_app (pre ++ skip) _ 2 b); [lia | reflexivity]. }
  rewrite Hb. cbn [bind unit_passes].
  destruct (nal_passes (byte_val b)).
  - destruct (lookup_lt_is_Some_2 (nalus (coded_pic_buffer s))
                (Z.to_nat (total (coded_pic_buffer s)))) as [n0 Hn0]; [lia|].
    assert (Hs : nalus_store (total (coded_pic_buffer s))
                   (fill_nalu (Z.of_nat (length (pre ++ skip)) + 2)
                      (Z.of_nat (length (b :: u'))))
                   (coded_pic_buffer s)
                 = Ret (set_nalus
                          (<[Z.to_nat (total (coded_pic_buffer s)) :=
                               fill_nalu (Z.of_nat (length (pre ++ skip)) + 2)
                                 (Z.of_nat (length (b :: u'))) n0]>
                             (nalus (coded_pic_buffer s)))
                          (coded_pic_buffer s))).
    { unfold nalus_store, NALUS_CAPACITY.
      destruct (Z.leb_spec 0 (total (coded_pic_buffer s))); [|lia].
      destruct (Z.ltb_spec (total (coded_pic_buffer s)) 100); [|lia].
      cbn. now rewrite Hn0. }
    rewrite Hs. cbn [bind].
    rewrite int_val_in by (cbn; unfold in_int, INT_MIN, INT_MAX; lia).
    cbn [bind]. eexists. split; [reflexivity|].
    split; [reflexivity|].
    split; [cbn; now rewrite length_insert|]. split; [reflexivity|].
    cbn [coded_pic_buffer set_coded_pic_buffer].
    apply (emitted_push _ _ _ _ Hlen Ht Hs).
  - cbn [bind]. eexists. split; [reflexivity|].
    split; [reflexivity|].
    split; [exact Hlen|]. split; [lia|]. now rewrite app_nil_r.
Qed.

Lemma length_header_tail_ge units :
  (length units <= length (header_tail units))%nat.
Proof.
  induction units as [|[sp u] units IH]; [cbn; lia|].
  cbn [header_tail length]. rewrite length_app. lia.
Qed.

(** The loop on the tail of a header, from a cursor between two units. *)
Lemma avc_loop_header_tail units : forall pre s fuel,
  pre <> [] ->
  Forall (fun x => snd x <> [] /\ Z.of_nat (length (snd x)) < 2 ^ 16) units ->
  Z.of_nat (length (pre ++ header_tail units)) <= INT_MAX ->
  length (nalus (coded_pic_buffer s)) = 100%nat ->
  0 <= total (coded_pic_buffer s) ->
  total (coded_pic_buffer s) + Z.of_nat (length units) <= 100 ->
  (length units <= fuel)%nat ->
  exists s',
    avc_loop fuel (pre ++ header_tail units) true
      (Z.of_nat (length pre)) (Z.of_nat (length pre)) s = Ret (None, s') /\
    log s' = log s /\
    length (nalus (coded_pic_buffer s')) = 100%nat /\
    0 <= total (coded_pic_buffer s') <= 100 /\
    emitted (coded_pic_buffer s') =
      emitted (coded_pic_buffer s)
      ++ header_tail_entries (Z.of_nat (length pre)) units.
Proof.
  induction units as [|[sp u] units IH];
    intros pre s fuel Hpre Hne Hmax Hlen Ht Hcap Hfuel.
  - exists s. cbn [header_tail header_tail_entries length] in *.
    rewrite !app_nil_r in *.
    replace (avc_loop fuel pre true (Z.of_nat (length pre))
               (Z.of_nat (length pre)) s) with (Ret (None : option Z, s)).
    { repeat split; auto; lia. }
    unfold INT_MAX in Hmax.
    destruct fuel; cbn [avc_loop]; rewrite to_size_t_small by lia;
      now rewrite Z.ltb_irrefl.
  - apply Forall_cons in Hne as [[Hu Hu16] Hne]. cbn [snd] in Hu, Hu16.
    cbn [header_tail] in *.
    change (sp :: header_unit u ++ header_tail units)
      with ([sp] ++ header_unit u ++ header_tail units) in *.
    assert (Hp0 : Z.of_nat (length pre) <> 0)
      by (destruct pre; [congruence | cbn; lia]).
    assert (Hskip : (if Z.of_nat (length pre) =? 0 then 6 else 1)
                    = Z.of_nat (length [sp])).
    { destruct (Z.eqb_spec (Z.of_nat (length pre)) 0); [lia | reflexivity]. }
    assert (Hd : Z.of_nat (length (pre ++ [sp] ++ header_unit u
                                   ++ header_tail units))
                 = Z.of_nat (length pre) + 3 + Z.of_nat (length u)
                   + Z.of_nat (length (header_tail units))).
    { rewrite !length_app, !Nat2Z.inj_add, length_header_unit.
      cbn [length]. lia. }
    rewrite length_cons, Nat2Z.inj_succ in Hcap.
    destruct fuel as [|fuel]; [cbn in Hfuel; lia|]. cbn [avc_loop].
    unfold INT_MAX in Hmax. rewrite to_size_t_small by lia.
    destruct (Z.ltb_spec (Z.of_nat (length pre))
                (Z.of_nat (length (pre ++ [sp] ++ header_unit u
                                   ++ header_tail units))));
      [|lia].
    rewrite to_size_t_small by lia. unfold NALUS_CAPACITY.
    destruct (Z.leb_spec 100 (total (coded_pic_buffer s))); [lia|].
    destruct (avc_turn_header pre [sp] u (header_tail units) s Hskip Hu Hu16)
      as (s1 & E1 & L1 & Hlen1 & Ht1 & Em1);
      [unfold INT_MAX; lia | exact Hlen | lia |].
    rewrite E1. cbn [bind].
    assert (Hps : Z.of_nat (length (pre ++ [sp])) + 2 + Z.of_nat (length u)
                  = Z.of_nat (length ((pre ++ [sp]) ++ header_unit u))).
    { rewrite !length_app, !Nat2Z.inj_add, length_header_unit. lia. }
    rewrite Hps.
    specialize (IH ((pre ++ [sp]) ++ header_unit u) s1 fuel).
    rewrite <- !app_assoc in IH.
    destruct IH as (s' & E & L & Hlen' & Ht' & Em').
    { destruct pre; [congruence | discriminate]. }
    { exact Hne. }
    { unfold INT_MAX. lia. }
    { exact Hlen1. }
    { destruct (unit_passes u); lia. }
    { destruct (unit_passes u); lia. }
    { cbn in Hfuel. lia. }
    rewrite <- !app_assoc. exists s'. split; [exact E|].
    split; [congruence|]. split; [exact Hlen'|]. split; [exact Ht'|].
    rewrite Em', Em1, <- app_assoc. cbn [header_tail_entries]. f_equal.
    replace (Z.of_nat (length (pre ++ [sp])) + 2)
      with (Z.of_nat (length pre) + 3)
      by (rewrite length_app, Nat2Z.inj_add; cbn; lia).
    f_equal. f_equal.
    rewrite !length_app, !Nat2Z.inj_add, length_header_unit. cbn [length]. lia.
Qed.

(** The entries of a header tail are the slices that hold its units. *)
Lemma header_tail_entries_payloads units : forall pre,
  map (fun v => take (Z.to_nat (snd (fst v)))
                  (drop (Z.to_nat (fst (fst v))) (pre ++ header_tail units)))
      (header_tail_entries (Z.of_nat (length pre)) units)
  = List.filter unit_passes (map snd units).
Proof.
  induction units as [|[sp u] units IH]; intros pre; [reflexivity|].
  cbn [header_tail header_tail_entries List.filter map snd].
  rewrite map_app.
  specialize (IH (pre ++ sp :: header_unit u)).
  rewrite <- app_assoc in IH. cbn [app] in IH.
  replace (Z.of_nat (length (pre ++ sp :: header_unit u)))
    with (Z.of_nat (length pre) + 3 + Z.of_nat (length u)) in IH
    by (rewrite length_app, Nat2Z.inj_add; cbn [length];
        rewrite Nat2Z.inj_succ, length_header_unit; lia).
  rewrite IH. destruct (unit_passes u); [|reflexivity].
  cbn [map fst snd app]. f_equal.
  replace (Z.to_nat (Z.of_nat (length pre) + 3))
    with (length (pre ++ sp :: be16 (Z.of_nat (length u))))
    by (rewrite length_app; cbn; lia).
  unfold header_unit.
  replace (pre ++ sp :: (be16 (Z.of_nat (length u)) ++ u) ++ header_tail units)
    with ((pre ++ sp :: be16 (Z.of_nat (length u))) ++ u ++ header_tail units)
    by (rewrite <- ?app_assoc; cbn [app]; rewrite <- ?app_assoc; reflexivity).
  rewrite drop_app_length, Nat2Z.id. apply take_app_length.
Qed.

(** X22. The splitter undoes the framing of a parameter-set header.
    For a header made of six bytes, a first unit behind its length in two
    bytes, and at most 99 further units each behind one byte and its
    length in two bytes, all units non-empty and shorter than 65536
    bytes, on a stream whose array has its 100 entries and a count of 0:
    [avc_get_video_frame] with [is_header] set returns 0, logs nothing,
    leaves one entry without marker per unit that passes the filter, and
    the counted entries, read back from the payload at their offset and
    length, are those units in order. *)
Theorem avc_get_video_frame_header_round_trip (s : ftl_stream)
    (p : encoder_packet) (prefix u : list byte)
    (units : list (byte * list byte)) (idx : Z) :
  data p = prefix ++ header_unit u ++ header_tail units ->
  length prefix = 6%nat ->
  Forall (fun x => x <> [] /\ Z.of_nat (length x) < 2 ^ 16)
    (u :: map snd units) ->
  size p <= INT_MAX ->
  (S (length units) <= 100)%nat ->
  length (nalus (coded_pic_buffer s)) = 100%nat ->
  total (coded_pic_buffer s) = 0 ->
  exists s',
    avc_get_video_frame s p true idx = Ret (0, s') /\
    log s' = log s /\
    emitted (coded_pic_buffer s') = header_entries u units /\
    map (nalu_payload (data p))
      (take (Z.to_nat (total (coded_pic_buffer s')))
         (nalus (coded_pic_buffer s')))
    = List.filter unit_passes (u :: map snd units).
Proof.
  intros Hd Hl Hall Hmax Hk Hlen Ht. unfold size in Hmax.
  apply Forall_cons in Hall as [[Hu Hu16] Hall].
  apply Forall_fmap in Hall.
  assert (Hsz : Z.of_nat (length (data p))
                = 8 + Z.of_nat (length u)
                  + Z.of_nat (length (header_tail units))).
  { rewrite Hd, !length_app, !Nat2Z.inj_add, length_header_unit, Hl. lia. }
  unfold INT_MAX in Hmax.
  destruct (avc_turn_header [] prefix u (header_tail units) s)
    as (s1 & E1 & L1 & Hlen1 & Ht1 & Em1);
    [cbn; rewrite Hl; reflexivity | exact Hu | exact Hu16
     | cbn [app]; rewrite <- Hd; unfold INT_MAX; lia | exact Hlen | lia |].
  cbn [app] in E1, Em1. change (Z.of_nat (length (@nil byte))) with 0 in E1.
  rewrite <- Hd in E1.
  assert (Hc : Z.of_nat (length prefix) + 2 + Z.of_nat (length u)
               = Z.of_nat (length (prefix ++ header_unit u))).
  { rewrite length_app, Nat2Z.inj_add, length_header_unit. lia. }
  rewrite Hc in E1.
  pose proof (length_header_tail_ge units) as Hge.
  destruct (avc_loop_header_tail units (prefix ++ header_unit u) s1
              (pred (length (data p))))
    as (s2 & E2 & L2 & Hlen2 & Ht2 & Em2).
  { destruct prefix; [discriminate Hl | discriminate]. }
  { exact Hall. }
  { rewrite <- app_assoc, <- Hd. unfold INT_MAX. lia. }
  { exact Hlen1. }
  { destruct (unit_passes u); lia. }
  { destruct (unit_passes u); lia. }
  { lia. }
  rewrite <- app_assoc, <- Hd in E2.
  assert (Hloop : avc_loop (length (data p)) (data p) true 0 0 s
                  = Ret (None, s2)).
  { destruct (length (data p)) as [|fuel] eqn:Ef; [lia|].
    cbn [avc_loop]. rewrite (to_size_t_small 0) by lia.
    destruct (Z.ltb_spec 0 (Z.of_nat (length (data p)))); [|lia].
    rewrite Ht. unfold NALUS_CAPACITY. rewrite (to_size_t_small 0) by lia.
    cbn [Z.leb Z.compare]. rewrite E1. cbn [bind]. cbn [pred] in E2.
    exact E2. }
  unfold avc_get_video_frame. rewrite Hloop. cbn [bind negb].
  exists s2. split; [reflexivity|]. split; [congruence|].
  assert (Em : emitted (coded_pic_buffer s2) = header_entries u units).
  { rewrite Em2, Em1. unfold header_entries, emitted at 1. rewrite Ht.
    cbn [Z.to_nat take map app]. rewrite Hl, <- Hc, Hl.
    reflexivity. }
  split; [exact Em|].
  unfold emitted in Em.
  assert (Hv : map (nalu_payload (data p))
                 (take (Z.to_nat (total (coded_pic_buffer s2)))
                    (nalus (coded_pic_buffer s2)))
               = map (fun v => take (Z.to_nat (snd (fst v)))
                                 (drop (Z.to_nat (fst (fst v))) (data p)))
                   (map nalu_view
                      (take (Z.to_nat (total (coded_pic_buffer s2)))
                         (nalus (coded_pic_buffer s2)))))
    by (rewrite map_map; reflexivity).
  rewrite Hv, Em. unfold header_entries. rewrite map_app.
  cbn [List.filter].
  pose proof (header_tail_entries_payloads units (prefix ++ header_unit u))
    as Hp.
  rewrite <- app_assoc, <- Hd, <- Hc, Hl in Hp.
  replace (8 + Z.of_nat (length u))
    with (Z.of_nat 6 + 2 + Z.of_nat (length u)) by lia.
  rewrite Hp.
  destruct (unit_passes u); [|reflexivity].
  cbn [map fst snd app]. f_equal.
  rewrite Hd. unfold header_unit.
  replace (prefix ++ (be16 (Z.of_nat (length u)) ++ u) ++ header_tail units)
    with ((prefix ++ be16 (Z.of_nat (length u))) ++ u ++ header_tail units)
    by (now rewrite <- !app_assoc).
  replace (Z.to_nat 8) with (length (prefix ++ be16 (Z.of_nat (length u))))
    by (rewrite length_app, Hl; reflexivity).
  rewrite drop_app_length, Nat2Z.id. apply take_app_length.
Qed.

Lemma avc_get_video_frame_header_round_trip_witness :
  exists s',
    avc_get_video_frame ftl_stream_create sample_header_packet true 0
    = Ret (0, s') /\
    log s' = log ftl_stream_create /\
    emitted (coded_pic_buffer s') = header_entries [x67; x64] [(x01, [x68])] /\
    map (nalu_payload (data sample_header_packet))
      (take (Z.to_nat (total (coded_pic_buffer s')))
         (nalus (coded_pic_buffer s')))
    = List.filter unit_passes ([x67; x64] :: map snd [(x01, [x68])]).
Proof.
  apply (avc_get_video_frame_header_round_trip ftl_stream_create
           sample_header_packet [x01; x64; x00; x1f; xff; xe1] [x67; x64]
           [(x01, [x68])] 0).
  - reflexivity.
  - reflexivity.
  - repeat constructor; first [discriminate | cbn; lia].
  - vm_compute. discriminate.
  - cbn. lia.
  - reflexivity.
  - reflexivity.
Defined.

(** ** More on the queue and on the calls of a packet *)

(** X23. No episode right after an episode.  After [drop_frames] on a
    queue of [int64_t] timestamps, as long as the packet at the head of
    the queue is older than the last packet the episode looked at,
    [check_to_drop_frames] leaves the stream alone, whatever packet was
    added in between and however long the queue has become. *)
Theorem check_to_drop_frames_waits_after_episode (HIGHEST : Z)
    (s s1 : ftl_stream) (first p : encoder_packet)
    (q : list encoder_packet) :
  drop_frames HIGHEST s = Ret s1 ->
  Forall (fun x => in_int64 (dts_usec x)) (packets s) ->
  packets s1 = first :: q ->
  dts_usec first < last_dts (packets s) ->
  check_to_drop_frames HIGHEST (snd (add_packet s1 p))
  = Ret (snd (add_packet s1 p)).
Proof.
  intros H Hdts Hq Hold. apply drop_frames_ret in H as (E & _).
  assert (Hmin : min_drop_dts_usec s1 = last_dts (packets s)).
  { rewrite E. cbn. unfold last_dts.
    destruct (last (packets s)) as [x|] eqn:L; cbn; [|reflexivity].
    apply to_int64_to_uint64.
    apply (proj1 (Forall_forall _ _) Hdts).
    apply last_Some in L as [l' ->].
    apply elem_of_app. right. left. }
  unfold check_to_drop_frames, add_packet, num_buffered_packets.
  cbn [snd packets set_packets set_last_dts_usec min_drop_dts_usec].
  rewrite Hq. cbn [app].
  destruct (_ <? 5); [reflexivity|].
  rewrite Hmin.
  destruct (Z.ltb_spec (dts_usec first) (last_dts (packets s))); [|lia].
  reflexivity.
Qed.

(** The episode of [crowded_stream] leaves six packets, more than the five
    that [check_to_drop_frames] asks for, and the packet added spans far
    more than the threshold: it is the test on [min_drop_dts_usec] that
    holds the next episode back. *)
Lemma check_to_drop_frames_waits_after_episode_witness :
  check_to_drop_frames 3
    (snd (add_packet crowded_stream_dropped (video_packet [] 900000 false 2)))
  = Ret (snd (add_packet crowded_stream_dropped
                (video_packet [] 900000 false 2))).
Proof.
  apply (check_to_drop_frames_waits_after_episode 3 crowded_stream
           crowded_stream_dropped
           (video_packet [] 0 true 3) (video_packet [] 900000 false 2)
           [ audio_packet [] 10000; audio_packet [] 40000;
             audio_packet [] 60000; audio_packet [] 80000;
             audio_packet [] 100000 ]).
  - vm_compute. reflexivity.
  - repeat constructor; vm_compute; intros H; discriminate H.
  - reflexivity.
  - vm_compute. reflexivity.
Defined.

(** Once the packets of before the episode are gone and the head is no
    older than the episode, the same test lets the next episode start. *)
Example check_to_drop_frames_after_the_wait :
  let later := [ audio_packet [] 140000; audio_packet [] 160000;
                 video_packet [] 200000 false 1; audio_packet [] 220000;
                 video_packet [] 900000 false 2 ] in
  exists s',
    check_to_drop_frames 3
      (set_last_dts_usec 900000 (set_packets later crowded_stream_dropped))
    = Ret s' /\
    length (packets s') = 3%nat /\ dropped_frames s' = 5.
Proof. eexists. split; [vm_compute; reflexivity|]. split; reflexivity. Qed.

(** X24. One packet, at most 100 calls.  On a stream whose NAL array has
    its 100 entries, whenever [send_packet] returns it has made at most
    100 calls to [ftl_ingest_send_media_dts], exactly one for an audio
    packet, and the array still has its 100 entries, with a count
    between 0 and 100 after a video packet. *)
Theorem send_packet_call_bound
    (ingest : list media_call -> media_call -> Z) (s s' : ftl_stream)
    (p : encoder_packet) (is_header : bool) (idx ret : Z) :
  length (nalus (coded_pic_buffer s)) = 100%nat ->
  send_packet ingest s p is_header idx = Ret (ret, s') ->
  length (nalus (coded_pic_buffer s')) = 100%nat /\
  (type p = OBS_ENCODER_VIDEO -> 0 <= total (coded_pic_buffer s') <= 100) /\
  exists calls,
    sent s' = sent s ++ calls /\ (length calls <= 100)%nat /\
    (type p = OBS_ENCODER_AUDIO -> length calls = 1%nat).
Proof.
  intros Hlen H.
  destruct (send_packet_keeps_array ingest s p is_header idx ret s' Hlen H)
    as [A B].
  split; [exact A|]. split; [exact B|].
  apply send_packet_ret in H as (calls & b & l & _ & -> & H).
  exists calls. split; [reflexivity|].
  destruct (type p).
  - destruct H as (-> & _). cbn. split; [lia | reflexivity].
  - destruct H as (code & s1 & _ & -> & _ & ->).
    cbn in B. specialize (B eq_refl).
    rewrite length_map, length_take. split; [lia | discriminate].
Qed.

Lemma send_packet_call_bound_witness :
  length (nalus (coded_pic_buffer
                   (stream_of (send_packet ingest_echo ftl_stream_create
                                 overflow_packet false 0)))) = 100%nat /\
  (type overflow_packet = OBS_ENCODER_VIDEO ->
   0 <= total (coded_pic_buffer
                 (stream_of (send_packet ingest_echo ftl_stream_create
                               overflow_packet false 0))) <= 100) /\
  exists calls,
    sent (stream_of (send_packet ingest_echo ftl_stream_create
                       overflow_packet false 0))
    = sent ftl_stream_create ++ calls /\ (length calls <= 100)%nat /\
    (type overflow_packet = OBS_ENCODER_AUDIO -> length calls = 1%nat).
Proof.
  apply (send_packet_call_bound ingest_echo ftl_stream_create _
           overflow_packet false 0 0).
  - reflexivity.
  - vm_compute. reflexivity.
Defined.

(** * The send path never reports a failure *)



(** * The status worker in the program *)

Module ProgramFacts.
Import StatusWorker.

(** A schedule without stores leaves the flag clear, and every action in
    it saw the flag clear. *)
Lemma worker_moves_run moves : forall w,
  flag w = false ->
  (forall a, a ∈ trace w -> handled_after_set a = false) ->
  flag (run w (map worker moves)) = false /\
  (forall a, a ∈ trace (run w (map worker moves)) ->
             handled_after_set a = false).
Proof.
  induction moves as [|r moves IH]; intros w Hf Ht; [split; assumption|].
  cbn [map run fold_left]. fold (run (step w (worker r)) (map worker moves)).
  apply IH.
  - unfold step. destruct (pc w); exact Hf.
  - intros a Ha. unfold step in Ha. destruct (pc w); cbn in Ha.
    + apply elem_of_app in Ha as [Ha|Ha]; [now apply Ht|].
      apply list_elem_of_singleton in Ha. now subst a.
    + apply elem_of_app in Ha as [Ha|Ha]; [now apply Ht|].
      apply list_elem_of_singleton in Ha. subst a. rewrite Hf. reflexivity.
    + now apply Ht.
Qed.

Lemma worker_moves_start moves :
  flag (run start (map worker moves)) = false /\
  never_handles_after_set (map worker moves).
Proof.
  apply (worker_moves_run moves start); [reflexivity|].
  intros a Ha. cbn in Ha. now apply elem_of_nil in Ha.
Qed.

End ProgramFacts.

Lemma send_thread_exit_disconnected s :
  disconnected (send_thread_exit s) = disconnected s.
Proof.
  unfold send_thread_exit. rewrite free_packets_closed.
  destruct (negb (stopping s)); reflexivity.
Qed.

Lemma ftl_stream_data_disconnected (HIGHEST : Z)
    (parse dup : encoder_packet -> encoder_packet) s p s' :
  ftl_stream_data HIGHEST parse dup s p = Ret s' ->
  disconnected s' = disconnected s.
Proof.
  intros H. apply ftl_stream_data_ret in H
    as [[_ ->] | [(_ & _ & _ & ->) | (_ & _ & _ & s1 & H1 & H)]];
    [reflexivity | reflexivity |].
  assert (E : disconnected s1 = disconnected s).
  { apply check_to_drop_frames_ret in H1 as [-> | H1]; [reflexivity|].
    now apply drop_frames_ret in H1 as (-> & _). }
  destruct H as [[_ ->] | (_ & _ & ->)]; exact E.
Qed.

Lemma ftl_stream_stop_disconnected s ts :
  disconnected (ftl_stream_stop (fun s => s) s ts) = disconnected s.
Proof.
  unfold ftl_stream_stop. destruct (stopping s); [reflexivity|]. cbv zeta.
  repeat match goal with
  | |- context [if ?b then _ else _] => destruct b
  end; reflexivity.
Qed.

Section ProgramRun.

Variable ingest : list media_call -> media_call -> Z.
Variable header : list byte.
Variable HIGHEST : Z.
Variable parse dup : encoder_packet -> encoder_packet.

(** No step of the program sets the flag, and the status worker moves as
    in a schedule without stores. *)
Lemma program_run_inv es : forall w w' moves,
  disconnected (Program.stream w) = false ->
  Program.status w
  = StatusWorker.run StatusWorker.start (map StatusWorker.worker moves) ->
  Program.run ingest header HIGHEST parse dup w es = Ret w' ->
  disconnected (Program.stream w') = false /\
  exists moves',
    Program.status w'
    = StatusWorker.run StatusWorker.start (map StatusWorker.worker moves').
Proof.
  induction es as [|e es IH]; intros w w' moves Hd Hs H;
    cbn [Program.run] in H.
  - inversion H; subst. split; [exact Hd | now exists moves].
  - bind_inv H as w1 H1. destruct e as [r| |p|ts]; cbn [Program.step] in H1.
    + assert (Eo : Program.observe w = Program.status w).
      { destruct (ProgramFacts.worker_moves_start moves) as [Hf _].
        rewrite <- Hs in Hf. unfold Program.observe. rewrite Hd, <- Hf.
        destruct (Program.status w); reflexivity. }
      rewrite Eo, Hs in H1. inversion H1; subst w1. clear H1.
      apply (IH _ w' (moves ++ [r])) in H; [exact H | exact Hd |].
      cbn [Program.status]. rewrite map_app.
      unfold StatusWorker.run. now rewrite fold_left_app.
    + destruct (Program.sender_left w || (send_sem (Program.stream w) <=? 0)).
      { inversion H1; subst w1. now apply (IH _ w' moves) in H. }
      bind_inv H1 as r Hr. destruct r as [how s1]. cbn [fst snd] in H1.
      apply send_thread_turn_inv in Hr as (_ & _ & Hd1). cbn in Hd1.
      destruct how; inversion H1; subst w1; clear H1;
        apply (IH _ w' moves) in H; try exact H;
        cbn [Program.stream Program.status];
        rewrite ?send_thread_exit_disconnected; congruence.
    + bind_inv H1 as s1 Hs1. inversion H1; subst w1. clear H1.
      apply ftl_stream_data_disconnected in Hs1.
      apply (IH _ w' moves) in H; [exact H | cbn; congruence | exact Hs].
    + inversion H1; subst w1. clear H1.
      apply (IH _ w' moves) in H; [exact H | | exact Hs].
      cbn [Program.stream]. now rewrite ftl_stream_stop_disconnected.
Qed.

End ProgramRun.



(** The run of the witness: the three packets are sent although every
    call reports -1; after the stop the send worker leaves and tells the
    host [obs_output_end_data_capture]; the status worker has tested the
    flag three times and handled three replies, all with the flag
    clear. *)
Example program_busy_schedule_run :
  let w := Program.world_of
             (Program.run (fun _ _ => -1) sample_header 3 same_packet
                same_packet (Program.start live_stream)
                Program.busy_schedule) in
  Program.sender_left w = true /\
  packets (Program.stream w) = [] /\
  length (freed (Program.stream w)) = 4%nat /\
  signals (Program.stream w) = [end_data_capture] /\
  StatusWorker.trace (Program.status w)
  = [ StatusWorker.tested false;
      StatusWorker.handled StatusWorker.reply_log false;
      StatusWorker.tested false;
      StatusWorker.handled StatusWorker.reply_video_packets false;
      StatusWorker.tested false;
      StatusWorker.handled StatusWorker.reply_other false ].
Proof. vm_compute. repeat split. Qed.
